(** * pcpfm.FeatureTable: a shallow embedding of the feature-table engine

    The development follows [src/pcpfm/FeatureTable.py].  A Python float
    is modelled by an exact rational ([Q]); two cells are the same value
    when they are [Qeq].  Runs that would store [inf] or [nan] in the
    table leave this model and are reported as [NonFinite].  Integers
    ([id_number], counts, perplexity) are [Z] or [nat]; labels and
    monikers are [string]. *)

From Stdlib Require Import List String Ascii ZArith QArith Bool Lia.
From Stdlib Require Import Qfield Lqa Qabs.
Import ListNotations.

Local Open Scope Q_scope.

(** ** Python values and control flow *)

Module Py.

(** The exceptions the modelled methods can raise. *)
Inductive exn : Type :=
| Exception (msg : string)
| TypeError (msg : string)
| ValueError (msg : string)
| KeyError (key : string)
| AttributeError (msg : string)
| OSError (msg : string).

(** Outcome of a call: a value, a raised exception, or a run in which
    a non-finite float would be produced. *)
Inductive outcome (A : Type) : Type :=
| Ok (a : A)
| Raise (e : exn)
| NonFinite.

Arguments Ok {A} a.
Arguments Raise {A} e.
Arguments NonFinite {A}.

Definition bind {A B : Type} (m : outcome A) (k : A -> outcome B) : outcome B :=
  match m with
  | Ok a => k a
  | Raise e => Raise e
  | NonFinite => NonFinite
  end.

(** [bool(x)] for an optional float: [None] and [0] are falsy. *)
Definition truthy (x : option Q) : bool :=
  match x with
  | None => false
  | Some q => negb (Qeq_bool q 0)
  end.

Definition is_None {A : Type} (x : option A) : bool :=
  match x with None => true | Some _ => false end.

(** [s.split("___")[-1]]: [str.split] scans left to right and cuts at
    each non-overlapping occurrence of the separator; [acc] holds the
    piece being read. *)
Fixpoint split3_last (s acc : string) : string :=
  match s with
  | EmptyString => acc
  | String "_" (String "_" (String "_" rest)) => split3_last rest EmptyString
  | String c rest => split3_last rest (acc ++ String c EmptyString)
  end.

Definition split_last (s : string) : string := split3_last s EmptyString.

(** [x in l] for a list of strings. *)
Definition str_in (x : string) (l : list string) : bool :=
  existsb (String.eqb x) l.

(** [os.path.join(a, b)]. *)
Definition path_join (a b : string) : string :=
  match b with
  | String "/" _ => b
  | _ =>
      match a with
      | EmptyString => b
      | _ => if String.prefix "/" (String.string_of_list_ascii
                                     (rev (String.list_ascii_of_string a)))
             then (a ++ b)%string
             else (a ++ "/" ++ b)%string
      end
  end.

End Py.

Import Py.

Notation "x <- m ;; k" := (Py.bind m (fun x => k))
  (at level 61, m at next level, right associativity).

(** ** numpy reductions over a list of floats *)

Module Np.

Definition gt0 (x : Q) : bool := negb (Qle_bool x 0).

Definition sum (l : list Q) : Q := fold_right Qplus 0 l.

Definition len (l : list Q) : Q := inject_Z (Z.of_nat (List.length l)).

(** [np.mean]: [nan] on the empty list. *)
Definition mean (l : list Q) : option Q :=
  match l with
  | [] => None
  | _ => Some (sum l / len l)
  end.

Fixpoint insert (x : Q) (l : list Q) : list Q :=
  match l with
  | [] => [x]
  | y :: l' => if Qle_bool x y then x :: l else y :: insert x l'
  end.

Definition sort (l : list Q) : list Q := fold_right insert [] l.

(** [np.median]: middle element of the sorted list, or the mean of the
    two middle ones; [nan] on the empty list. *)
Definition median (l : list Q) : option Q :=
  match l with
  | [] => None
  | _ =>
      let s := sort l in
      let n := List.length l in
      if Nat.even n
      then Some ((nth (n / 2 - 1) s 0 + nth (n / 2) s 0) / 2)
      else Some (nth (n / 2) s 0)
  end.

Fixpoint min_list (x : Q) (l : list Q) : Q :=
  match l with
  | [] => x
  | y :: l' => min_list (if Qle_bool y x then y else x) l'
  end.

Fixpoint max_list (x : Q) (l : list Q) : Q :=
  match l with
  | [] => x
  | y :: l' => max_list (if Qle_bool x y then y else x) l'
  end.

(** The distinct values of a list, as [set(l)]: equal floats are one
    element. *)
Fixpoint distinct (l : list Q) : list Q :=
  match l with
  | [] => []
  | x :: l' => if existsb (Qeq_bool x) l' then distinct l' else x :: distinct l'
  end.

End Np.

(** ** The experiment collaborator *)

Record Acquisition : Type := {
  name : string;
  metadata_tags : list (string * string)
}.

(** A sample filter [{field: {"includes": values}}]. *)
Record SampleFilter : Type := {
  sf_field : string;
  sf_includes : list string
}.

(** The part of the experiment object the feature table consults.
    [filter_samples] and [batches] are methods of the experiment. *)
Record Experiment : Type := {
  sample_names : list string;
  acquisitions : list Acquisition;
  filter_samples : SampleFilter -> list Acquisition;
  batches : string -> list (string * list string);
  feature_tables : list (string * string);
  log_transformed_feature_tables : list string;
  filtered_feature_tables_subdirectory : string;
  qaqc_figs : string
}.

(** ** The data frame

    A feature is one row.  The three required columns are fields of the
    row; [cells] holds the values of the remaining columns, aligned with
    the labels in [columns].  The labels of a table read from a file are
    distinct, and no sample is named after a required column.  Missing
    intensities are stored as 0. *)

Record Row : Type := {
  id_number : Z;
  mz : Q;
  rtime : Q;
  cells : list Q
}.

Record DataFrame : Type := {
  columns : list string;
  rows : list Row
}.

(** [row[label]]: the cells under a label. *)
Definition row_at (cols : list string) (r : Row) (label : string) : list Q :=
  map snd (filter (fun cv => String.eqb (fst cv) label) (combine cols (cells r))).

(** [row[labels]]. *)
Definition row_select (cols : list string) (r : Row) (labels : list string) : list Q :=
  flat_map (row_at cols r) labels.

(** [df[label]]: one column, row by row. *)
Definition column_values (df : DataFrame) (label : string) : list Q :=
  flat_map (fun r => row_at (columns df) r label) (rows df).

(** [df.drop(columns=labels)]. *)
Definition keep_cells (cols : list string) (keep : string -> bool) (r : Row) : Row :=
  {| id_number := id_number r; mz := mz r; rtime := rtime r;
     cells := map snd (filter (fun cv => keep (fst cv)) (combine cols (cells r))) |}.

Definition drop_columns (df : DataFrame) (labels : list string) : DataFrame :=
  {| columns := filter (fun c => negb (str_in c labels)) (columns df);
     rows := map (keep_cells (columns df) (fun c => negb (str_in c labels))) (rows df) |}.

(** [df.shape[0]]. *)
Definition shape0 (df : DataFrame) : Z := Z.of_nat (List.length (rows df)).

(** ** Interval trees (package [intervaltree])

    An [IntervalTree] is a collection of half-open intervals
    [[begin, end)] carrying data.  [addi] refuses a null interval
    ([begin >= end]) with [ValueError]; [at p] returns the intervals
    with [begin <= p < end]. *)

Module IntervalTree.

Record Interval : Type := {
  ibegin : Q;
  iend : Q;
  data : Z
}.

Definition t : Type := list Interval.

Definition empty : t := [].

Definition is_null (i : Interval) : bool := Qle_bool (iend i) (ibegin i).

Definition addi (b e : Q) (d : Z) (tree : t) : outcome t :=
  let i := {| ibegin := b; iend := e; data := d |} in
  if is_null i
  then Raise (ValueError "IntervalTree: Null Interval objects not allowed in IntervalTree")
  else Ok (tree ++ [i]).

Definition contains_point (p : Q) (i : Interval) : bool :=
  Qle_bool (ibegin i) p && negb (Qle_bool (iend i) p).

Definition at_ (tree : t) (p : Q) : list Interval :=
  filter (contains_point p) tree.

End IntervalTree.

(** ** The FeatureTable object *)

Record FigureParams : Type := {
  interactive : bool;
  save_figs : bool
}.

Record FeatureTable : Type := {
  experiment : Experiment;
  feature_table : DataFrame;
  moniker : string;
  mz_trees : list (Q * IntervalTree.t);
  rt_trees : list (Q * IntervalTree.t);
  figure_params : option FigureParams
}.

Definition set_feature_table (self : FeatureTable) (df : DataFrame) : FeatureTable :=
  {| experiment := experiment self; feature_table := df; moniker := moniker self;
     mz_trees := mz_trees self; rt_trees := rt_trees self;
     figure_params := figure_params self |}.

Definition set_experiment (self : FeatureTable) (e : Experiment) : FeatureTable :=
  {| experiment := e; feature_table := feature_table self; moniker := moniker self;
     mz_trees := mz_trees self; rt_trees := rt_trees self;
     figure_params := figure_params self |}.

Definition set_mz_trees (self : FeatureTable) (c : list (Q * IntervalTree.t)) : FeatureTable :=
  {| experiment := experiment self; feature_table := feature_table self;
     moniker := moniker self; mz_trees := c; rt_trees := rt_trees self;
     figure_params := figure_params self |}.

Definition set_rt_trees (self : FeatureTable) (c : list (Q * IntervalTree.t)) : FeatureTable :=
  {| experiment := experiment self; feature_table := feature_table self;
     moniker := moniker self; mz_trees := mz_trees self; rt_trees := c;
     figure_params := figure_params self |}.

(** The state [__init__] leaves behind (after [clean_columns]): empty
    tree caches and no figure parameters. *)
Definition new_FeatureTable (df : DataFrame) (e : Experiment) (m : string) : FeatureTable :=
  {| experiment := e; feature_table := df; moniker := m;
     mz_trees := []; rt_trees := []; figure_params := None |}.

(** [sample_columns]: the labels whose last ["___"]-piece is a sample
    name of the experiment. *)
Definition is_sample_column (e : Experiment) (x : string) : bool :=
  str_in (split_last x) (sample_names e).

Definition sample_columns (self : FeatureTable) : list string :=
  filter (is_sample_column (experiment self)) (columns (feature_table self)).

Definition non_sample_columns (self : FeatureTable) : list string :=
  filter (fun x => negb (str_in x (sample_columns self))) (columns (feature_table self)).

Definition log_transformed (self : FeatureTable) : bool :=
  str_in (moniker self) (log_transformed_feature_tables (experiment self)).

Definition num_features (self : FeatureTable) : Z :=
  shape0 (feature_table self) - 1.

Definition num_samples (self : FeatureTable) : Z :=
  Z.of_nat (List.length (sample_columns self)).

(** ** Spatial index *)

(** Dictionary lookup in a tolerance-keyed cache. *)
Fixpoint cache_get (c : list (Q * IntervalTree.t)) (tol : Q) : option IntervalTree.t :=
  match c with
  | [] => None
  | (k, v) :: c' => if Qeq_bool k tol then Some v else cache_get c' tol
  end.

(** The loop of [get_mz_tree] / [get_rt_tree] over the zipped columns. *)
Fixpoint build_tree (lo hi : Row -> Q) (rs : list Row) (tree : IntervalTree.t)
  : outcome IntervalTree.t :=
  match rs with
  | [] => Ok tree
  | r :: rs' =>
      tree' <- IntervalTree.addi (lo r) (hi r) (id_number r) tree ;;
      build_tree lo hi rs' tree'
  end.

(** The ends of a feature's mass interval, [mz - mz/1e6 * mz_tol] and
    [mz + mz/1e6 * mz_tol], written as the source writes them.  On
    floats a tolerance that is small against the mass is absorbed and
    the two ends are then the same number: whether an interval is null
    is a fact about the computed ends, and the properties of the search
    take it as a hypothesis on them. *)
Definition mz_lo (mz_tol : Q) (r : Row) : Q := mz r - mz r / 1000000 * mz_tol.
Definition mz_hi (mz_tol : Q) (r : Row) : Q := mz r + mz r / 1000000 * mz_tol.

Definition get_mz_tree (self : FeatureTable) (mz_tol : Q)
  : outcome (IntervalTree.t * FeatureTable) :=
  match cache_get (mz_trees self) mz_tol with
  | Some tree => Ok (tree, self)
  | None =>
      mz_tree <- build_tree (mz_lo mz_tol) (mz_hi mz_tol)
                   (rows (feature_table self)) IntervalTree.empty ;;
      Ok (mz_tree, set_mz_trees self ((mz_tol, mz_tree) :: mz_trees self))
  end.

(** The time interval of a feature runs from [rtime - rt_tol] to
    [rtime + rt_tol]; as for the masses, a tolerance absorbed by the
    float addition leaves a null interval. *)
Definition get_rt_tree (self : FeatureTable) (rt_tol : Q)
  : outcome (IntervalTree.t * FeatureTable) :=
  match cache_get (rt_trees self) rt_tol with
  | Some tree => Ok (tree, self)
  | None =>
      rt_tree <- build_tree (fun r => rtime r - rt_tol) (fun r => rtime r + rt_tol)
                   (rows (feature_table self)) IntervalTree.empty ;;
      Ok (rt_tree, set_rt_trees self ((rt_tol, rt_tree) :: rt_trees self))
  end.

(** [set([x.data for x in tree.at(q)])]. *)
Definition matches (tree : IntervalTree.t) (q : Q) : list Z :=
  nodup Z.eq_dec (map IntervalTree.data (IntervalTree.at_ tree q)).

Definition unwrap (x : option Q) : Q :=
  match x with Some q => q | None => 0 end.

Definition search_for_feature (self : FeatureTable)
    (query_mz query_rt mz_tolerance rt_tolerance : option Q)
  : outcome (list Z * FeatureTable) :=
  st1 <- (if truthy query_mz && truthy mz_tolerance
          then tr <- get_mz_tree self (unwrap mz_tolerance) ;;
               Ok (Some (matches (fst tr) (unwrap query_mz)), snd tr)
          else Ok (None, self)) ;;
  let mz_matches := fst st1 in
  let self1 := snd st1 in
  match mz_matches with
  | Some m =>
      if is_None query_rt || is_None rt_tolerance then Ok (m, self1)
      else
        if truthy query_rt && truthy rt_tolerance
        then tr <- get_rt_tree self1 (unwrap rt_tolerance) ;;
             let rt_matches := matches (fst tr) (unwrap query_rt) in
             Ok (filter (fun x => existsb (Z.eqb x) m) rt_matches, snd tr)
        else Raise (AttributeError "'NoneType' object has no attribute 'intersection'")
  | None =>
      if truthy query_rt && truthy rt_tolerance
      then tr <- get_rt_tree self1 (unwrap rt_tolerance) ;;
           Ok (matches (fst tr) (unwrap query_rt), snd tr)
      else Raise (AttributeError "'NoneType' object has no attribute 'intersection'")
  end.

(** ** Invariant dropping *)

(** [DataFrame.apply(f, axis=1)]: [f] on every row in order; the first
    exception escapes. *)
Fixpoint apply_rows {A : Type} (f : Row -> outcome A) (rs : list Row)
  : outcome (list A) :=
  match rs with
  | [] => Ok []
  | r :: rs' => a <- f r ;; l <- apply_rows f rs' ;; Ok (a :: l)
  end.

Definition set_not_subscriptable : exn :=
  TypeError "'set' object is not subscriptable".

(** The inner [__filter_invariant]: [values] is a Python [set], so
    [values[0]] raises as soon as it is evaluated, that is when
    [zeros_only] holds. *)
Definition filter_invariant (zeros_only : bool) (cols : list string)
    (columns_ : list string) (r : Row) : outcome bool :=
  let values := Np.distinct (row_select cols r columns_) in
  if Nat.eqb (List.length values) 1
  then if zeros_only then Raise set_not_subscriptable else Ok false
  else Ok true.

(** [df[df['id_number'].isin(to_keep)]]. *)
Definition isin (to_keep : list Z) (r : Row) : bool :=
  existsb (Z.eqb (id_number r)) to_keep.

(** One iteration of the loop over the sample columns. *)
Definition drop_if_invariant (zeros_only : bool) (acc : outcome DataFrame)
    (sample_column : string) : outcome DataFrame :=
  df <- acc ;;
  let values := Np.distinct (column_values df sample_column) in
  if Nat.eqb (List.length values) 1
  then if zeros_only then Raise set_not_subscriptable
       else Ok (drop_columns df [sample_column])
  else Ok df.

Definition drop_invariants (self : FeatureTable) (zeros_only : bool)
  : outcome FeatureTable :=
  let df := feature_table self in
  keep <- apply_rows (filter_invariant zeros_only (columns df) (sample_columns self))
            (rows df) ;;
  let to_keep := map (fun kr => id_number (snd kr))
                     (filter (fun kr => fst kr) (combine keep (rows df))) in
  let df1 := {| columns := columns df; rows := filter (isin to_keep) (rows df) |} in
  let self1 := set_feature_table self df1 in
  df2 <- fold_left (drop_if_invariant zeros_only) (sample_columns self1) (Ok df1) ;;
  Ok (set_feature_table self df2).

(** ** Persistence *)

(** What [save] touches outside the object: the files written, the
    persisted registry of the experiment, the figure directories (with
    their entries) and the console. *)
Record World : Type := {
  writable : string -> bool;
  disk : list (string * DataFrame);
  persisted_feature_tables : list (string * string);
  fig_dirs : list (string * list string);
  console : list string
}.

Definition print (w : World) (line : string) : World :=
  {| writable := writable w; disk := disk w;
     persisted_feature_tables := persisted_feature_tables w;
     fig_dirs := fig_dirs w; console := console w ++ [line] |}.

(** [d[k] = v] on a dictionary kept in insertion order. *)
Fixpoint dict_set {V : Type} (d : list (string * V)) (k : string) (v : V)
  : list (string * V) :=
  match d with
  | [] => [(k, v)]
  | (k', v') :: d' => if String.eqb k' k then (k, v) :: d' else (k', v') :: dict_set d' k v
  end.

Fixpoint dict_get {V : Type} (d : list (string * V)) (k : string) : option V :=
  match d with
  | [] => None
  | (k', v) :: d' => if String.eqb k' k then Some v else dict_get d' k
  end.

Definition dict_del {V : Type} (d : list (string * V)) (k : string)
  : list (string * V) :=
  filter (fun kv => negb (String.eqb (fst kv) k)) d.

Definition register (e : Experiment) (m path : string) : Experiment :=
  {| sample_names := sample_names e; acquisitions := acquisitions e;
     filter_samples := filter_samples e; batches := batches e;
     feature_tables := dict_set (feature_tables e) m path;
     log_transformed_feature_tables := log_transformed_feature_tables e;
     filtered_feature_tables_subdirectory := filtered_feature_tables_subdirectory e;
     qaqc_figs := qaqc_figs e |}.

(** The body of the [try] block of [save], with the state reached; the
    flag is [false] when one of its statements raised ([to_csv] on a
    path that cannot be written, [os.removedirs] on a directory that is
    not empty). *)
Definition save_try (self : FeatureTable) (new_moniker : string) (w : World)
  : FeatureTable * World * bool :=
  let sub := filtered_feature_tables_subdirectory (experiment self) in
  let output_path := path_join sub (new_moniker ++ "_Feature_table.tsv")%string in
  let target := path_join sub output_path in
  if negb (writable w target) then (self, w, false)
  else
    let e1 := register (experiment self) new_moniker output_path in
    let self1 := set_experiment self e1 in
    let w1 := {| writable := writable w;
                 disk := dict_set (disk w) target (feature_table self);
                 persisted_feature_tables := feature_tables e1;
                 fig_dirs := fig_dirs w; console := console w |} in
    let fig_dir := (qaqc_figs e1 ++ "/" ++ new_moniker)%string in
    match dict_get (fig_dirs w1) fig_dir with
    | None => (self1, w1, true)
    | Some [] =>
        (self1,
         {| writable := writable w1; disk := disk w1;
            persisted_feature_tables := persisted_feature_tables w1;
            fig_dirs := dict_del (fig_dirs w1) fig_dir; console := console w1 |},
         true)
    | Some (_ :: _) => (self1, w1, false)
    end.

Definition reserved (m : string) : bool :=
  String.eqb m "preferred" || String.eqb m "full".

Definition save (self : FeatureTable) (new_moniker : option string)
    (drop_invariants_ : bool) (w : World) : outcome (FeatureTable * World) :=
  new_moniker' <-
    match new_moniker with
    | None =>
        if reserved (moniker self)
        then Raise (Exception "Cannot overwrite asari feature tables")
        else Ok (moniker self)
    | Some m => Ok m
    end ;;
  self1 <- (if drop_invariants_ then drop_invariants self false else Ok self) ;;
  match save_try self1 new_moniker' w with
  | (self2, w2, true) => Ok (self2, w2)
  | (self2, w2, false) => Ok (self2, print w2 "FAILURE TO SAVE FEATURE TABLE")
  end.

(** ** Blank masking *)

(** [if by_batch:] on an optional field name. *)
Definition batched (by_batch : option string) : option string :=
  match by_batch with
  | Some EmptyString => None
  | other => other
  end.

(** The inner [__non_zero_mean]. *)
Definition non_zero_mean (cols : list string) (columns_ : list string) (r : Row) : Q :=
  let non_zero_columns := filter Np.gt0 (row_select cols r columns_) in
  match non_zero_columns with
  | [] => 0
  | _ => Np.sum non_zero_columns / Np.len non_zero_columns
  end.

(** [blank_mean * blank_intensity_ratio > sample_mean]. *)
Definition blank_flag (cols : list string) (ratio : Q)
    (blanks samples : list string) (r : Row) : bool :=
  negb (Qle_bool (non_zero_mean cols blanks r * ratio) (non_zero_mean cols samples r)).

Definition names_matching (self : FeatureTable) (query_field value : string)
  : list string :=
  filter (fun n => str_in n (sample_columns self))
         (map name (filter_samples (experiment self)
                      {| sf_field := query_field; sf_includes := [value] |})).

(** The per-batch flags of one feature, in the order of the batches
    (the scratch columns ["blank_masked_" + batch_name] read back row by
    row). *)
Definition blank_flags (cols : list string) (ratio : Q)
    (blank_names sample_names_ : list string)
    (bs : list (string * list string)) (r : Row) : list bool :=
  map (fun b =>
         let batch_blanks := filter (fun x => str_in x blank_names) (snd b) in
         let batch_samples := filter (fun x => str_in x sample_names_) (snd b) in
         blank_flag cols ratio batch_blanks batch_samples r) bs.

Definition blank_mask (self : FeatureTable)
    (blank_value sample_value query_field : string)
    (blank_intensity_ratio : Q) (by_batch : option string) (logic_mode : string)
  : outcome FeatureTable :=
  let df := feature_table self in
  let blank_names := names_matching self query_field blank_value in
  let sample_names_ := names_matching self query_field sample_value in
  mask_feature <-
    match batched by_batch with
    | Some field =>
        let flags := blank_flags (columns df) blank_intensity_ratio
                       blank_names sample_names_ (batches (experiment self) field) in
        if String.eqb logic_mode "and"
        then Ok (fun r => forallb (fun b => b) (flags r))
        else if String.eqb logic_mode "or"
        then Ok (fun r => existsb (fun b => b) (flags r))
        else Raise (KeyError "mask_feature")
    | None =>
        Ok (blank_flag (columns df) blank_intensity_ratio blank_names sample_names_)
    end ;;
  Ok (set_feature_table self
        {| columns := columns df;
           rows := filter (fun r => negb (mask_feature r)) (rows df) |}).

(** ** Dropping features that are mostly missing *)

(** [np.sum(row[labels] > 0) / len(labels)]; [None] is [nan] (no
    label). *)
Definition percent_inclusion (cols : list string) (labels : list string) (r : Row)
  : option Q :=
  match labels with
  | [] => None
  | _ => Some (Np.len (filter Np.gt0 (row_select cols r labels))
               / inject_Z (Z.of_nat (List.length labels)))
  end.

(** [x >= p] and [x < p] on a float that may be [nan]. *)
Definition ge_nan (p : Q) (x : option Q) : bool :=
  match x with Some q => Qle_bool p q | None => false end.

Definition lt_nan (p : Q) (x : option Q) : bool :=
  match x with Some q => negb (Qle_bool p q) | None => false end.

(** The values of the columns ["percent_inclusion_" + batch_name] of
    one feature, in the order of the batches. *)
Definition batch_inclusions (self : FeatureTable) (bs : list (string * list string))
    (r : Row) : list (option Q) :=
  map (fun b =>
         let filtered_batch_name_list :=
           filter (fun x => str_in x (sample_columns self)) (snd b) in
         percent_inclusion (columns (feature_table self)) filtered_batch_name_list r) bs.

(** The inner [__any] and [__all]. *)
Definition any_ (drop_percentile : Q) (incs : list (option Q)) : bool :=
  negb (existsb (ge_nan drop_percentile) incs).

Definition all_ (drop_percentile : Q) (incs : list (option Q)) : bool :=
  negb (forallb (ge_nan drop_percentile) incs).

(** Storing the per-batch columns, which stay in the table under labels
    taken to be new; a [nan] among them (a batch without a sample column
    of the table) cannot be stored as a cell. *)
Fixpoint finite_all (l : list (option Q)) : option (list Q) :=
  match l with
  | [] => Some []
  | None :: _ => None
  | Some q :: l' =>
      match finite_all l' with
      | Some qs => Some (q :: qs)
      | None => None
      end
  end.

Fixpoint with_batch_columns (self : FeatureTable) (bs : list (string * list string))
    (rs : list Row) : outcome (list Row) :=
  match rs with
  | [] => Ok []
  | r :: rs' =>
      match finite_all (batch_inclusions self bs r) with
      | None => NonFinite
      | Some qs =>
          rest <- with_batch_columns self bs rs' ;;
          Ok ({| id_number := id_number r; mz := mz r; rtime := rtime r;
                 cells := cells r ++ qs |} :: rest)
      end
  end.

Definition drop_missing_features (self : FeatureTable) (by_batch : option string)
    (drop_percentile : Q) (logic_mode : string) : outcome FeatureTable :=
  let df := feature_table self in
  match batched by_batch with
  | Some field =>
      let bs := batches (experiment self) field in
      drop_feature <-
        (if String.eqb logic_mode "and"
         then Ok (fun r => all_ drop_percentile (batch_inclusions self bs r))
         else if String.eqb logic_mode "or"
         then Ok (fun r => any_ drop_percentile (batch_inclusions self bs r))
         else Raise (KeyError "drop_feature")) ;;
      rows' <- with_batch_columns self bs
                 (filter (fun r => negb (drop_feature r)) (rows df)) ;;
      Ok (set_feature_table self
            {| columns := columns df
                          ++ map (fun b => ("percent_inclusion_" ++ fst b)%string) bs;
               rows := rows' |})
  | None =>
      let drop_feature r :=
        lt_nan drop_percentile
          (percent_inclusion (columns df) (sample_columns self) r) in
      Ok (set_feature_table self
            {| columns := columns df;
               rows := filter (fun r => negb (drop_feature r)) (rows df) |})
  end.

(** ** TIC normalisation *)

(** [utils.descriptive_stat_modes] is not part of the sources at hand:
    the methods take it as [modes], from a mode name to a reduction of a
    list of floats ([None] for [nan]). *)
Definition stat_modes : Type := string -> option (list Q -> option Q).

Definition descriptive_stat (modes : stat_modes) (mode : string) (l : list Q)
  : outcome Q :=
  match modes mode with
  | None => Raise (KeyError mode)
  | Some stat =>
      match stat l with
      | Some c => Ok c
      | None => NonFinite
      end
  end.

(** Modelled from the spec: [utils.descriptive_stat_modes], the table of
    central statistics selected by [normalize_mode] or [method]
    ("central statistic (min/median/etc.)"). *)
Definition descriptive_stat_modes : stat_modes :=
  fun mode =>
    if String.eqb mode "median" then Some Np.median
    else if String.eqb mode "mean" then Some Np.mean
    else if String.eqb mode "min"
    then Some (fun l => match l with [] => None | x :: l' => Some (Np.min_list x l') end)
    else if String.eqb mode "max"
    then Some (fun l => match l with [] => None | x :: l' => Some (Np.max_list x l') end)
    else None.

Definition gt_nan (p : Q) (x : option Q) : bool :=
  match x with Some q => negb (Qle_bool q p) | None => false end.

(** [df[label] = df[label] * factor]. *)
Fixpoint scale_cells (cols : list string) (cs : list Q) (label : string) (f : Q)
  : list Q :=
  match cols, cs with
  | c :: cols', v :: cs' =>
      (if String.eqb c label then v * f else v) :: scale_cells cols' cs' label f
  | _, _ => cs
  end.

Definition scale_row (cols : list string) (sf : string * Q) (r : Row) : Row :=
  {| id_number := id_number r; mz := mz r; rtime := rtime r;
     cells := scale_cells cols (cells r) (fst sf) (snd sf) |}.

Definition scale_column (df : DataFrame) (sf : string * Q) : DataFrame :=
  {| columns := columns df; rows := map (scale_row (columns df) sf) (rows df) |}.

(** The columns named after an acquisition of the experiment (the
    [sample_names] of the unbatched branch). *)
Definition acquired_columns (self : FeatureTable) : list string :=
  filter (fun x => str_in x (map name (acquisitions (experiment self))))
         (columns (feature_table self)).

(** The rows with [percent_inclusion] above the percentile. *)
Definition qualifying (df : DataFrame) (names : list string) (percentile : Q)
  : list Row :=
  filter (fun r => gt_nan percentile (percent_inclusion (columns df) names r)) (rows df).

(** [TICs]: per sample, the sum of its column over the qualifying
    rows. *)
Definition TICs_of (df : DataFrame) (names : list string) (percentile : Q)
  : list (string * Q) :=
  map (fun sample =>
         (sample,
          Np.sum (flat_map (fun r => row_at (columns df) r sample)
                    (qualifying df names percentile))))
      names.

(** [norm_factors]: per sample [stat(TICs) / value].  The quotient and
    the products by it are rounded on floats, so the sums of the scaled
    columns meet the statistic only up to rounding; the properties of
    the normalisation speak of the factor applied to each cell. *)
Fixpoint norm_factors_of (modes : stat_modes) (mode : string) (all : list Q)
    (tics : list (string * Q)) : outcome (list (string * Q)) :=
  match tics with
  | [] => Ok []
  | (sample, value) :: tics' =>
      c <- descriptive_stat modes mode all ;;
      f <- (if Qeq_bool value 0 then NonFinite else Ok (c / value)) ;;
      rest <- norm_factors_of modes mode all tics' ;;
      Ok ((sample, f) :: rest)
  end.

(** One iteration of the first loop of the batched branch. *)
Definition normalize_batch (modes : stat_modes) (percentile : Q) (mode : string)
    (acc : outcome (DataFrame * list (string * Q)))
    (b : string * list string) : outcome (DataFrame * list (string * Q)) :=
  st <- acc ;;
  let df := fst st in
  let batch_name_list := filter (fun x => str_in x (columns df)) (snd b) in
  let TICs := TICs_of df batch_name_list percentile in
  norm_factors <- norm_factors_of modes mode (map snd TICs) TICs ;;
  agg <- descriptive_stat modes mode (map snd TICs) ;;
  Ok (fold_left scale_column norm_factors df, dict_set (snd st) (fst b) agg).

Definition TIC_normalize (modes : stat_modes) (self : FeatureTable)
    (TIC_normalization_percentile : Q) (by_batch : option string)
    (normalize_mode : string) : outcome FeatureTable :=
  let df := feature_table self in
  match by_batch with
  | Some field =>
      let bs := batches (experiment self) field in
      st <- fold_left (normalize_batch modes TIC_normalization_percentile normalize_mode)
              bs (Ok (df, [])) ;;
      let aggregate_batch_TICs := snd st in
      corrections <- norm_factors_of modes normalize_mode
                       (map snd aggregate_batch_TICs) aggregate_batch_TICs ;;
      match bs with
      | [] => Raise (KeyError "['percent_inclusion'] not found in axis")
      | _ =>
          Ok (set_feature_table self
                (fold_left
                   (fun d b =>
                      match dict_get corrections (fst b) with
                      | Some c =>
                          fold_left scale_column
                            (map (fun sample => (sample, c))
                                 (filter (fun x => str_in x (columns d)) (snd b))) d
                      | None => d
                      end) bs (fst st)))
      end
  | None =>
      let sample_names_ := acquired_columns self in
      let TICs := TICs_of df sample_names_ TIC_normalization_percentile in
      norm_factors <- norm_factors_of modes normalize_mode (map snd TICs) TICs ;;
      Ok (set_feature_table self (fold_left scale_column norm_factors df))
  end.

(** ** Analyses *)

(** A float computed by an analysis; these are reported, not stored in
    the table, so [nan] and [-inf] are kept. *)
Inductive npfloat : Type :=
| Fin (q : Q)
| Nan
| NegInf.

Inductive payload : Type :=
| Scalars (by_sample : list (string * npfloat))
| Sample_Coord_Dict (coords : list (string * list Q)).

Record QAQCResult : Type := {
  Type_ : string;
  Config : list (string * string);
  Result : payload
}.

(** The figures handed to the renderer, as (kind, title). *)
Definition Canvas : Type := list (string * string).

Definition no_figure_params : exn :=
  AttributeError "'FeatureTable' object has no attribute 'figure_params'".

(** [gen_figure] with [fig_params=None]: the drawing itself belongs to
    the plotting backend. *)
Definition gen_figure (self : FeatureTable) (figure_type title : string)
    (cv : Canvas) : outcome Canvas :=
  match figure_params self with
  | None => Raise no_figure_params
  | Some fp =>
      if interactive fp || save_figs fp
      then Ok (cv ++ [(figure_type, title)])
      else Ok cv
  end.

Definition of_option (x : option Q) : npfloat :=
  match x with Some q => Fin q | None => Nan end.

Section IntensityAnalysis.

(** [np.log2] on a positive float. *)
Variable log2 : Q -> Q.

(** [np.log2] on a float that may be [nan]. *)
Definition np_log2 (x : Q) : npfloat :=
  if Qeq_bool x 0 then NegInf
  else if Np.gt0 x then Fin (log2 x) else Nan.

(** The cells that survive [selected_ftable[selected_ftable == 0] =
    np.nan] in the nan-aware reductions. *)
Definition not_missing (col : list Q) : list Q :=
  filter (fun x => negb (Qeq_bool x 0)) col.

(** The cells of [np.log2(selected_ftable)] that are not [nan]. *)
Definition logs (col : list Q) : list Q :=
  map log2 (filter Np.gt0 col).

Definition per_sample (self : FeatureTable) (f : list Q -> npfloat)
  : list (string * npfloat) :=
  map (fun s => (s, f (column_values (feature_table self) s))) (sample_columns self).

Definition intensity_sums (self : FeatureTable) :=
  per_sample self (fun col => Fin (Np.sum col)).
Definition mean_feature_intensity (self : FeatureTable) :=
  per_sample self (fun col => of_option (Np.mean col)).
Definition median_feature_intensity (self : FeatureTable) :=
  per_sample self (fun col => of_option (Np.median col)).
Definition filtered_mean_feature_intensity (self : FeatureTable) :=
  per_sample self (fun col => of_option (Np.mean (not_missing col))).
Definition filtered_median_feature_intensity (self : FeatureTable) :=
  per_sample self (fun col => of_option (Np.median (not_missing col))).
Definition log_filtered_intensity_sum (self : FeatureTable) :=
  per_sample self (fun col => Fin (Np.sum (logs col))).
Definition log_filtered_mean_feature_intensity (self : FeatureTable) :=
  per_sample self (fun col => of_option (Np.mean (logs col))).
Definition log_filtered_median_feature_intensity (self : FeatureTable) :=
  per_sample self (fun col => of_option (Np.median (logs col))).
Definition TICs (self : FeatureTable) :=
  per_sample self (fun col => Fin (Np.sum (not_missing col))).
Definition log_TICs (self : FeatureTable) :=
  per_sample self (fun col => np_log2 (Np.sum (not_missing col))).

Definition titles : list string :=
  [ "sum_intensity"; "mean_intensity"; "median_intensity";
    "missing_dropped_sum_intensity"; "missing_dropped_mean_intensity";
    "missing_dropped_median_intensity"; "log_missing_dropped_sum_intensity";
    "log_missing_dropped_mean_intensity"; "log_missing_dropped_median_intensity";
    "log_tics"; "tics" ]%string.

(** The dictionary [result_values], in insertion order. *)
Definition result_values (self : FeatureTable) : list (string * list (string * npfloat)) :=
  [ ("sum_intensity", intensity_sums self);
    ("mean_intensity", mean_feature_intensity self);
    ("median_intensity", median_feature_intensity self);
    ("missing_dropped_sum_intensity", intensity_sums self);
    ("missing_dropped_mean_intensity", filtered_mean_feature_intensity self);
    ("missing_dropped_median_intensity", filtered_median_feature_intensity self);
    ("log_missing_dropped_sum_intensity", log_filtered_intensity_sum self);
    ("log_missing_dropped_mean_intensity", log_filtered_mean_feature_intensity self);
    ("log_missing_dropped_median_intensity", log_filtered_median_feature_intensity self);
    ("log_tics", log_TICs self);
    ("tics", TICs self) ]%string.

Definition intensity_analysis (self : FeatureTable) (cv : Canvas)
  : outcome (list QAQCResult * Canvas) :=
  cv' <- fold_left (fun acc title => c <- acc ;; gen_figure self "bar" title c)
           titles (Ok cv) ;;
  Ok (map (fun kv => {| Type_ := fst kv; Config := []; Result := Scalars (snd kv) |})
          (result_values self),
      cv').

(** The result of a given type in the list an analysis returned. *)
Fixpoint result_of (results : list QAQCResult) (type : string) : option payload :=
  match results with
  | [] => None
  | r :: rest => if String.eqb (Type_ r) type then Some (Result r) else result_of rest type
  end.

End IntensityAnalysis.

(** ** t-SNE *)

(** What [TSNE] hands back to its caller. *)
Inductive tsne_return : Type :=
| TsneResult (r : QAQCResult)
| EmptyDict
| PyNone.

Section TSNE.

(** [sklearn.manifold.TSNE(n_components=2, perplexity=p).fit_transform]
    on the sample vectors; [None] when it raises. *)
Variable fit_transform : Z -> list (list Q) -> option (list (list Q)).

(** The body of the [try] block; [None] when a statement raised. *)
Definition TSNE_try (self : FeatureTable) (perplexity : Z) (cv : Canvas)
  : option (QAQCResult * Canvas) :=
  let X := map (column_values (feature_table self)) (sample_columns self) in
  match fit_transform perplexity X with
  | None => None
  | Some tnse_embedded_vector_matrix =>
      match gen_figure self "scatter" "tsne" cv with
      | Ok cv' =>
          Some ({| Type_ := "tsne";
                   Config := [("n_components", "2")]%string;
                   Result := Sample_Coord_Dict
                               (combine (sample_columns self)
                                        tnse_embedded_vector_matrix) |},
                cv')
      | _ => None
      end
  end.

(** [fuel] bounds the depth of the recursion; [None] when it runs
    out. *)
Fixpoint TSNE_rec (fuel : nat) (self : FeatureTable) (perplexity : Z) (cv : Canvas)
  : option (tsne_return * Canvas) :=
  match fuel with
  | O => None
  | S fuel' =>
      match TSNE_try self perplexity cv with
      | Some (result, cv') => Some (TsneResult result, cv')
      | None =>
          if (0 <? perplexity)%Z
          then match TSNE_rec fuel' self (perplexity - 1) cv with
               | Some (_, cv') => Some (PyNone, cv')
               | None => None
               end
          else Some (EmptyDict, cv)
      end
  end.

Definition TSNE (self : FeatureTable) (perplexity : Z) (cv : Canvas)
  : option (tsne_return * Canvas) :=
  TSNE_rec (S (Z.to_nat perplexity)) self perplexity cv.

End TSNE.

(** ** Fixtures

    Small experiments and tables on which the statements below are
    exercised. *)

Definition sample (n type batch : string) : Acquisition :=
  {| name := n; metadata_tags := [("Sample Type", type); ("Batch", batch)]%string |}.

Definition has_tag (f : SampleFilter) (a : Acquisition) : bool :=
  match dict_get (metadata_tags a) (sf_field f) with
  | Some v => str_in v (sf_includes f)
  | None => false
  end.

(** The batches of a field: the values of the tag in order of first
    appearance, each with the names carrying it. *)
Fixpoint group_by (field : string) (acqs : list Acquisition)
  : list (string * list string) :=
  match acqs with
  | [] => []
  | a :: rest =>
      let g := group_by field rest in
      match dict_get (metadata_tags a) field with
      | None => g
      | Some v =>
          match dict_get g v with
          | Some names => (v, name a :: names) :: dict_del g v
          | None => (v, [name a]) :: g
          end
      end
  end.

Definition experiment_of (acqs : list Acquisition) : Experiment :=
  {| sample_names := map name acqs;
     acquisitions := acqs;
     filter_samples := fun f => filter (has_tag f) acqs;
     batches := fun field => group_by field acqs;
     feature_tables := [("preferred", "asari/preferred_Feature_table.tsv");
                        ("full", "asari/full_Feature_table.tsv")]%string;
     log_transformed_feature_tables := [];
     filtered_feature_tables_subdirectory := "filtered_feature_tables";
     qaqc_figs := "QAQC_figs" |}.

Definition feature (i : Z) (m rt : Q) (intensities : list Q) : Row :=
  {| id_number := i; mz := m; rtime := rt; cells := intensities |}.

Definition with_figure_params (self : FeatureTable) (fp : FigureParams) : FeatureTable :=
  {| experiment := experiment self; feature_table := feature_table self;
     moniker := moniker self; mz_trees := mz_trees self; rt_trees := rt_trees self;
     figure_params := Some fp |}.

Definition ids (self : FeatureTable) : list Z :=
  map id_number (rows (feature_table self)).

(** Three features, four samples, the intensities of the end-to-end
    scenario. *)
Definition scenario_frame : DataFrame :=
  {| columns := ["s1"; "s2"; "s3"; "s4"]%string;
     rows := [ feature 1 (100 # 1) (10 # 1) [100 # 1; 90 # 1; 5 # 1; 6 # 1];
               feature 2 (200 # 1) (20 # 1) [50 # 1; 55 # 1; 1 # 1; 1 # 1];
               feature 3 (300 # 1) (30 # 1) [0; 0; 0; 0] ] |}.

(** The two blanks are the low-intensity samples s3, s4 ... *)
Definition blanks_last : Experiment :=
  experiment_of [ sample "s1" "Unknown" "A"; sample "s2" "Unknown" "B";
                  sample "s3" "Blank" "A"; sample "s4" "Blank" "B" ].

(** ... or the high-intensity samples s1, s2. *)
Definition blanks_first : Experiment :=
  experiment_of [ sample "s1" "Blank" "A"; sample "s2" "Blank" "B";
                  sample "s3" "Unknown" "A"; sample "s4" "Unknown" "B" ].

Definition scenario (e : Experiment) : FeatureTable :=
  new_FeatureTable scenario_frame e "scenario".

Definition empty_world : World :=
  {| writable := fun _ => true; disk := []; persisted_feature_tables := [];
     fig_dirs := []; console := [] |}.

(** A stand-in for the embedder that, like scikit-learn, refuses a
    perplexity that is not below the number of samples; the embedding
    itself is arbitrary. *)
Definition refuse_large_perplexity (perplexity : Z) (X : list (list Q))
  : option (list (list Q)) :=
  if (0 <? perplexity)%Z && (perplexity <? Z.of_nat (List.length X))%Z
  then Some (map (fun _ => [0; 0]) X)
  else None.

(** The path [save] registers for a moniker. *)
Definition output_path_of (self : FeatureTable) (m : string) : string :=
  path_join (filtered_feature_tables_subdirectory (experiment self))
            (m ++ "_Feature_table.tsv")%string.

(** One feature of mass 1000000: at 1 ppm its interval runs from 999999
    to 1000001. *)
Definition mass_frame : DataFrame :=
  {| columns := ["s1"]%string;
     rows := [ feature 7 (1000000 # 1) (60 # 1) [10 # 1];
               feature 8 (500 # 1) (90 # 1) [20 # 1] ] |}.

Definition mass_table : FeatureTable :=
  new_FeatureTable mass_frame (experiment_of [ sample "s1" "Unknown" "A" ]) "masses".

(** ** Batch combinations of [drop_missing_features], feature by feature *)

Definition below_in_every_batch (self : FeatureTable) (bs : list (string * list string))
    (drop_percentile : Q) (r : Row) : bool :=
  forallb (lt_nan drop_percentile) (batch_inclusions self bs r).

Definition below_in_some_batch (self : FeatureTable) (bs : list (string * list string))
    (drop_percentile : Q) (r : Row) : bool :=
  existsb (lt_nan drop_percentile) (batch_inclusions self bs r).

(** Two batches, A = s1, s3 and B = s2, s4.  Feature 1 is present in
    all of A and in half of B, feature 2 everywhere, feature 3 in half
    of A and nowhere in B. *)
Definition presence_frame : DataFrame :=
  {| columns := ["s1"; "s2"; "s3"; "s4"]%string;
     rows := [ feature 1 (100 # 1) (10 # 1) [1; 0; 1; 1];
               feature 2 (200 # 1) (20 # 1) [1; 1; 1; 1];
               feature 3 (300 # 1) (30 # 1) [0; 0; 1; 0] ] |}.

Definition presence_table : FeatureTable :=
  new_FeatureTable presence_frame blanks_last "presence".

(** ** Invariant rows and columns, as [drop_invariants] decides them *)

(** The feature does not have exactly one distinct value over the given
    columns. *)
Definition varies (cols columns_ : list string) (r : Row) : bool :=
  negb (Nat.eqb (List.length (Np.distinct (row_select cols r columns_))) 1).

(** The column has exactly one distinct value over the rows. *)
Definition constant_column (df : DataFrame) (label : string) : bool :=
  Nat.eqb (List.length (Np.distinct (column_values df label))) 1.

(** Two features and two samples; the first sample has the same value
    in both features. *)
Definition shared_value_frame : DataFrame :=
  {| columns := ["s1"; "s2"]%string;
     rows := [ feature 1 (100 # 1) (10 # 1) [1; 2];
               feature 2 (200 # 1) (20 # 1) [1; 3] ] |}.

Definition shared_value_table : FeatureTable :=
  new_FeatureTable shared_value_frame blanks_last "shared".

(** ** TIC normalisation: statistics and readings *)

(** A central statistic gives [c] on a list of copies of [c], and a
    positive value on positive values. *)
Record central (stat : list Q -> option Q) : Prop := {
  central_constant :
    forall l c, l <> [] -> Forall (fun x => x == c) l ->
                exists c', stat l = Some c' /\ c' == c;
  central_positive :
    forall l, l <> [] -> Forall (fun x => 0 < x) l ->
              exists c, stat l = Some c /\ 0 < c
}.





(** Feature 1 is seen in both samples, feature 2 in the first only. *)
Definition tic_frame : DataFrame :=
  {| columns := ["s1"; "s2"]%string;
     rows := [ feature 1 (100 # 1) (10 # 1) [1; 3];
               feature 2 (200 # 1) (20 # 1) [4; 0] ] |}.

Definition tic_table : FeatureTable :=
  new_FeatureTable tic_frame
    (experiment_of [ sample "s1" "Unknown" "A"; sample "s2" "Unknown" "A" ]) "tic".


(** ** Cell-wise updates of a column *)

(** [df[label] = [f(x) for x in df[label]]]. *)
Fixpoint map_cells (cols : list string) (cs : list Q) (label : string) (f : Q -> Q)
  : list Q :=
  match cols, cs with
  | c :: cols', v :: cs' =>
      (if String.eqb c label then f v else v) :: map_cells cols' cs' label f
  | _, _ => cs
  end.

Definition map_row (cols : list string) (label : string) (f : Q -> Q) (r : Row) : Row :=
  {| id_number := id_number r; mz := mz r; rtime := rtime r;
     cells := map_cells cols (cells r) label f |}.

Definition map_column (df : DataFrame) (label : string) (f : Q -> Q) : DataFrame :=
  {| columns := columns df; rows := map (map_row (columns df) label f) (rows df) |}.

(** ** Flooring the table *)

(** [x if x > 0 else fill_value]. *)
Definition clamp (fill_value : Q) (x : Q) : Q :=
  if Np.gt0 x then x else fill_value.

Definition make_nonnegative (self : FeatureTable) (fill_value : Q) : FeatureTable :=
  set_feature_table self
    (fold_left (fun df column => map_column df column (clamp fill_value))
               (sample_columns self) (feature_table self)).

(** ** Log transform *)

(** [utils.log_modes] is not part of the sources at hand: it is taken
    as a table from a mode name to a logarithm, defined on positive
    floats. *)
Definition log_table : Type := string -> option (Q -> Q).

(** [experiment.save()], as far as the world keeps track of it. *)
Definition persist (e : Experiment) (w : World) : World :=
  {| writable := writable w; disk := disk w;
     persisted_feature_tables := feature_tables e;
     fig_dirs := fig_dirs w; console := console w |}.

Definition mark_log_transformed (e : Experiment) (m : string) : Experiment :=
  {| sample_names := sample_names e; acquisitions := acquisitions e;
     filter_samples := filter_samples e; batches := batches e;
     feature_tables := feature_tables e;
     log_transformed_feature_tables := log_transformed_feature_tables e ++ [m];
     filtered_feature_tables_subdirectory := filtered_feature_tables_subdirectory e;
     qaqc_figs := qaqc_figs e |}.

(** One cell of [log(column + 1)].  The logarithm of a float that is
    not positive is [nan] or [-inf]; neither is greater than 0, and
    [make_nonnegative], which ends the method, replaces them by its fill
    value like any float that is not positive: the table holds 0 in
    their place until then. *)
Definition log1p_cell (lg : Q -> Q) (x : Q) : Q :=
  if Np.gt0 (x + 1) then lg (x + 1) else 0.

(** One iteration of the loop over the sample columns. *)
Definition log_step (log_modes : log_table) (log_mode : string)
    (acc : outcome DataFrame) (sample_name : string) : outcome DataFrame :=
  df <- acc ;;
  match log_modes log_mode with
  | None => Raise (KeyError log_mode)
  | Some lg => Ok (map_column df sample_name (log1p_cell lg))
  end.

(** The experiment is a shared object: what [log_transform] did to it
    stays when the method raises afterwards. *)
Definition log_transform (log_modes : log_table) (self : FeatureTable)
    (new_moniker log_mode : string) (w : World)
  : Experiment * World * outcome FeatureTable :=
  let e := mark_log_transformed (experiment self) new_moniker in
  let w' := persist e w in
  let self1 := set_experiment self e in
  (e, w',
   df <- fold_left (log_step log_modes log_mode) (sample_columns self1)
           (Ok (feature_table self1)) ;;
   Ok (make_nonnegative (set_feature_table self1 df) 1)).

(** ** Interpolating missing values *)

(** [max] of two floats. *)
Definition fmax (x v : Q) : Q := if Qle_bool x v then v else x.

(** The inner [calc_interpolated_value]. *)
Definition calc_interpolated_value (modes : stat_modes) (method : string) (ratio : Q)
    (cols : list string) (sample_names_ : list string) (r : Row) : outcome Q :=
  let values := filter Np.gt0 (row_select cols r sample_names_) in
  match values with
  | [] => Ok 0
  | _ => c <- descriptive_stat modes method values ;; Ok (c * ratio)
  end.

(** The column ["feature_interpolate_value"] and the row-wise maxima
    with it, feature by feature. *)
Definition interpolate_row (modes : stat_modes) (method : string) (ratio : Q)
    (cols : list string) (names : list string) (r : Row) : outcome Row :=
  v <- calc_interpolated_value modes method ratio cols names r ;;
  Ok (fold_left (fun r' sample_name => map_row cols sample_name (fun x => fmax x v) r')
                names r).

Definition interpolate_over (modes : stat_modes) (method : string) (ratio : Q)
    (acc : outcome DataFrame) (names : list string) : outcome DataFrame :=
  df <- acc ;;
  rows' <- apply_rows (interpolate_row modes method ratio (columns df) names) (rows df) ;;
  Ok {| columns := columns df; rows := rows' |}.

Definition interpolate_missing_features (modes : stat_modes) (self : FeatureTable)
    (ratio : Q) (by_batch : option string) (method : string) : outcome FeatureTable :=
  let df := feature_table self in
  let sample_names_ :=
    filter (fun n => str_in n (columns df))
           (map name (acquisitions (experiment self))) in
  df' <-
    match batched by_batch with
    | Some field =>
        fold_left (interpolate_over modes method ratio)
          (map (fun b => filter (fun x => str_in x sample_names_) (snd b))
               (batches (experiment self) field))
          (Ok df)
    | None => interpolate_over modes method ratio (Ok df) sample_names_
    end ;;
  Ok (set_feature_table self df').

(** The cells after [f] has been applied under every label that [P]
    selects, in one pass. *)
Fixpoint update_cells (cols : list string) (cs : list Q) (P : string -> bool)
    (f : Q -> Q) : list Q :=
  match cols, cs with
  | c :: cols', v :: cs' => (if P c then f v else v) :: update_cells cols' cs' P f
  | _, _ => cs
  end.

Definition update_row (cols : list string) (P : string -> bool) (f : Q -> Q) (r : Row)
  : Row :=
  {| id_number := id_number r; mz := mz r; rtime := rtime r;
     cells := update_cells cols (cells r) P f |}.

(** A stand-in for [utils.log_modes] with the single mode "log2": the
    chord of the logarithm to base 2 through 1 and 2. *)
Definition stand_in_logs : log_table :=
  fun mode => if String.eqb mode "log2" then Some (fun x => x - 1) else None.

(** Row by row, the second table has the features of the first, with
    cells related by [R]. *)
Definition cellwise (R : Q -> Q -> Prop) (rs rs' : list Row) : Prop :=
  Forall2 (fun r r' => id_number r' = id_number r /\ Forall2 R (cells r) (cells r'))
          rs rs'.

(** ** Dropping samples *)

(** [df.drop(columns=labels)], which raises [KeyError] on a label that
    is not a column. *)
Definition checked_drop (df : DataFrame) (labels : list string) : outcome DataFrame :=
  match find (fun l => negb (str_in l (columns df))) labels with
  | Some l => Raise (KeyError l)
  | None => Ok (drop_columns df labels)
  end.

(** The columns the frame holds as fields of its rows. *)
Definition required_columns : list string := ["id_number"; "mz"; "rtime"]%string.

(** Without [drop_others] the call may name one of the required
    columns: pandas then removes that column and returns, which leaves
    a table this frame cannot hold.  The embedding is undefined ([None])
    on such a call and defined on every other one. *)
Definition drop_sample_by_name (self : FeatureTable) (drop_name : string)
    (drop_others : bool) : option (outcome FeatureTable) :=
  if drop_others
  then Some (df' <- checked_drop (feature_table self)
                      (filter (fun x => negb (String.eqb x drop_name))
                              (sample_columns self)) ;;
             Ok (set_feature_table self df'))
  else if str_in drop_name required_columns then None
  else Some (df' <- checked_drop (feature_table self) [drop_name] ;;
             Ok (set_feature_table self df')).

Definition drop_samples_by_filter (self : FeatureTable) (filter_ : SampleFilter)
    (drop_others : bool) : outcome FeatureTable :=
  let to_drop := map name (filter_samples (experiment self) filter_) in
  let to_drop := filter (fun x => str_in x (sample_columns self)) to_drop in
  let do_not_drop := filter (fun x => negb (str_in x to_drop)) (sample_columns self) in
  df' <- checked_drop (feature_table self) (if drop_others then do_not_drop else to_drop) ;;
  Ok (set_feature_table self df').

Definition drop_samples_by_field (self : FeatureTable) (value field : string)
    (drop_others : bool) : outcome FeatureTable :=
  drop_samples_by_filter self {| sf_field := field; sf_includes := [value] |} drop_others.

(** ** Missingness profiles *)

(** The inner [__count_feature]: the number of positive cells of a
    feature over the given columns. *)
Definition count_feature (cols columns_ : list string) (r : Row) : nat :=
  List.length (filter Np.gt0 (row_select cols r columns_)).

Definition of_nat (n : nat) : Q := inject_Z (Z.of_nat n).

Record PercentileResult : Type := {
  pr_Type : string;
  PercentileTable : list (nat * Q * nat)
}.

(** One row of the percentile table: the percentile, the number of
    samples it stands for, and the number of features seen in at most
    that many samples.  (What [apply] returns on a table without
    features depends on the pandas version; the properties below are
    about tables with at least one feature.) *)
Definition percentile_row (self : FeatureTable) (percentile : nat) : nat * Q * nat :=
  let num_samples_threshold :=
    of_nat (List.length (sample_columns self)) * of_nat percentile / 100 in
  (percentile, num_samples_threshold,
   List.length
     (filter (fun r =>
                Qle_bool (of_nat (count_feature (columns (feature_table self))
                                    (sample_columns self) r))
                         num_samples_threshold)
             (rows (feature_table self)))).

Definition missing_feature_percentiles (self : FeatureTable) (cv : Canvas)
  : outcome (PercentileResult * Canvas) :=
  let percentile_table := map (percentile_row self) (seq 0 101) in
  cv' <- gen_figure self "scatter" "Missing Feature Percentiles" cv ;;
  Ok ({| pr_Type := "missingfeaturepercentiles"; PercentileTable := percentile_table |},
      cv').

(** The number of cells of a sample column at or below the cutoff, and
    above it. *)
Definition missing_count (df : DataFrame) (intensity_cutoff : Q) (s : string) : nat :=
  List.length (filter (fun v => Qle_bool v intensity_cutoff) (column_values df s)).

Definition feature_count (df : DataFrame) (intensity_cutoff : Q) (s : string) : nat :=
  List.length (filter (fun v => negb (Qle_bool v intensity_cutoff)) (column_values df s)).

(** The result dictionary of the two counting analyses: the cutoff
    recorded under "Config" and one count per sample under "Result". *)
Record DistributionResult : Type := {
  dr_Type : string;
  dr_intensity_cutoff : Q;
  dr_Result : list (string * nat)
}.

Definition missing_feature_distribution (self : FeatureTable) (intensity_cutoff : Q)
    (cv : Canvas) : outcome (DistributionResult * Canvas) :=
  let missing_feature_counts :=
    map (fun s => (s, missing_count (feature_table self) intensity_cutoff s))
        (sample_columns self) in
  cv' <- gen_figure self "bar" "missing_feature_counts" cv ;;
  Ok ({| dr_Type := "MissingFeatureDistribution";
         dr_intensity_cutoff := intensity_cutoff;
         dr_Result := missing_feature_counts |},
      cv').

Definition feature_distribution (self : FeatureTable) (intensity_cutoff : Q)
    (cv : Canvas) : outcome (DistributionResult * Canvas) :=
  let feature_counts :=
    map (fun s => (s, feature_count (feature_table self) intensity_cutoff s))
        (sample_columns self) in
  cv' <- gen_figure self "bar" "Feature Counts" cv ;;
  Ok ({| dr_Type := "FeatureDistribution";
         dr_intensity_cutoff := intensity_cutoff;
         dr_Result := feature_counts |},
      cv').

(** The count the percentile table holds at a percentile. *)
Definition dropped_at (res : PercentileResult) (percentile : nat) : nat :=
  snd (nth percentile (PercentileTable res) (O, 0, O)).

(** A feature with no positive cell over the given columns. *)
Definition never_seen (cols columns_ : list string) (r : Row) : bool :=
  forallb (fun v => negb (Np.gt0 v)) (row_select cols r columns_).

(** * Properties *)

(** ** Counting features and samples *)

Lemma str_in_In (x : string) (l : list string) : str_in x l = true <-> In x l.
Proof.
  unfold str_in. rewrite existsb_exists. split.
  - intros [y [Hy Heq]]. apply String.eqb_eq in Heq. now subst.
  - intros H. exists x. split; [assumption | apply String.eqb_refl].
Qed.

Lemma sample_columns_spec (self : FeatureTable) (x : string) :
  In x (sample_columns self) <->
  In x (columns (feature_table self))
  /\ In (split_last x) (sample_names (experiment self)).
Proof.
  unfold sample_columns, is_sample_column.
  rewrite filter_In, str_in_In. reflexivity.
Qed.

Example split_last_prefixed : split_last "batch1___s1" = "s1"%string.
Proof. reflexivity. Qed.

Example split_last_scans_left_to_right : split_last "dir___a____b" = "_b"%string.
Proof. reflexivity. Qed.

(** C10: [num_features] is one less than the number of feature rows of
    the matrix (so it never equals it), while [num_samples] is exactly
    the number of sample columns, the labels of the table whose last
    ["___"]-piece is a sample name of the experiment. *)
Theorem num_features_is_rows_minus_one (self : FeatureTable) :
  num_features self = (Z.of_nat (List.length (rows (feature_table self))) - 1)%Z
  /\ num_features self <> Z.of_nat (List.length (rows (feature_table self)))
  /\ num_samples self = Z.of_nat (List.length (sample_columns self))
  /\ (forall x, In x (sample_columns self) <->
                In x (columns (feature_table self))
                /\ In (split_last x) (sample_names (experiment self))).
Proof.
  unfold num_features, num_samples, shape0.
  split; [reflexivity |].
  split; [lia |].
  split; [reflexivity |].
  intros x. apply sample_columns_spec.
Qed.

Example scenario_counts :
  num_features (scenario blanks_last) = 2%Z /\ num_samples (scenario blanks_last) = 4%Z.
Proof. split; reflexivity. Qed.

(** ** Intensity statistics *)

Section IntensityFacts.

Variable log2 : Q -> Q.

Lemma figures_drawn (self : FeatureTable) (fp : FigureParams)
    (l : list string) (cv : Canvas) :
  figure_params self = Some fp ->
  exists cv',
    fold_left (fun acc title => c <- acc ;; gen_figure self "bar" title c) l (Ok cv)
    = Ok cv'.
Proof.
  intros Hfp. revert cv.
  induction l as [| title l IH]; intros cv; simpl.
  - now exists cv.
  - unfold gen_figure at 2. rewrite Hfp.
    destruct (interactive fp || save_figs fp); apply IH.
Qed.

(** C9: whenever the figures can be handed over (the figure
    parameters are set), [intensity_analysis] returns its eleven
    results, and the one of type "missing_dropped_sum_intensity" is,
    sample by sample, the one of type "sum_intensity": the plain
    column sums, zero cells included. *)
Theorem missing_dropped_sum_is_raw_sum (self : FeatureTable) (fp : FigureParams)
    (cv : Canvas) :
  figure_params self = Some fp ->
  exists results cv',
    intensity_analysis log2 self cv = Ok (results, cv')
    /\ List.length results = 11%nat
    /\ result_of results "missing_dropped_sum_intensity"
       = result_of results "sum_intensity"
    /\ result_of results "sum_intensity"
       = Some (Scalars
                 (map (fun s => (s, Fin (Np.sum (column_values (feature_table self) s))))
                      (sample_columns self))).
Proof.
  intros Hfp. unfold intensity_analysis.
  destruct (figures_drawn self fp titles cv Hfp) as [cv' Hcv].
  rewrite Hcv. simpl.
  eexists. exists cv'. split; [reflexivity |].
  repeat split.
Qed.

End IntensityFacts.

Lemma missing_dropped_sum_is_raw_sum_witness :
  exists results cv',
    intensity_analysis (fun x => x)
      (with_figure_params (scenario blanks_last)
         {| interactive := false; save_figs := false |}) []
    = Ok (results, cv')
    /\ List.length results = 11%nat
    /\ result_of results "missing_dropped_sum_intensity"
       = result_of results "sum_intensity"
    /\ result_of results "sum_intensity"
       = Some (Scalars
                 (map (fun s => (s, Fin (Np.sum (column_values scenario_frame s))))
                      ["s1"; "s2"; "s3"; "s4"]%string)).
Proof.
  apply (missing_dropped_sum_is_raw_sum (fun x => x)
           (with_figure_params (scenario blanks_last)
              {| interactive := false; save_figs := false |})
           {| interactive := false; save_figs := false |} []).
  reflexivity.
Defined.

(** ** t-SNE with perplexity back-off *)

Section TSNEFacts.

Variable fit_transform : Z -> list (list Q) -> option (list (list Q)).

Lemma TSNE_rec_returns (fuel : nat) :
  forall (self : FeatureTable) (perplexity : Z) (cv : Canvas),
    (Z.to_nat perplexity < fuel)%nat ->
    exists r, TSNE_rec fit_transform fuel self perplexity cv = Some r.
Proof.
  induction fuel as [| fuel IH]; intros self p cv Hfuel; [lia |].
  simpl. destruct (TSNE_try fit_transform self p cv) as [[result cv'] |].
  - eexists; reflexivity.
  - destruct (0 <? p)%Z eqn:Hp.
    + apply Z.ltb_lt in Hp.
      destruct (IH self (p - 1)%Z cv) as [[r cv'] Hr]; [lia |].
      rewrite Hr. eexists; reflexivity.
    + eexists; reflexivity.
Qed.

(** The recursion always comes back: the fuel [TSNE] starts with is
    enough. *)
Lemma TSNE_returns (self : FeatureTable) (perplexity : Z) (cv : Canvas) :
  exists r, TSNE fit_transform self perplexity cv = Some r.
Proof. apply TSNE_rec_returns. lia. Qed.

Lemma TSNE_first_attempt_succeeds (self : FeatureTable) (perplexity : Z)
    (cv cv' : Canvas) (result : QAQCResult) :
  TSNE_try fit_transform self perplexity cv = Some (result, cv') ->
  TSNE fit_transform self perplexity cv = Some (TsneResult result, cv').
Proof. intros H. unfold TSNE. simpl. now rewrite H. Qed.

Lemma TSNE_gives_up_at_zero (self : FeatureTable) (perplexity : Z) (cv : Canvas) :
  TSNE_try fit_transform self perplexity cv = None ->
  (perplexity <= 0)%Z ->
  TSNE fit_transform self perplexity cv = Some (EmptyDict, cv).
Proof.
  intros H Hp. unfold TSNE. simpl. rewrite H.
  destruct (0 <? perplexity)%Z eqn:E; [apply Z.ltb_lt in E; lia | reflexivity].
Qed.

(** C5: when the first embedding fails at a positive perplexity,
    [TSNE] runs the retries and then hands [None] to its caller:
    neither a tsne result record nor the empty mapping, whatever the
    retries produced. *)
Theorem TSNE_failed_attempt_returns_None (self : FeatureTable) (perplexity : Z)
    (cv : Canvas) :
  TSNE_try fit_transform self perplexity cv = None ->
  (0 < perplexity)%Z ->
  exists cv', TSNE fit_transform self perplexity cv = Some (PyNone, cv').
Proof.
  intros H Hp. unfold TSNE.
  replace (S (Z.to_nat perplexity)) with (S (S (Z.to_nat (perplexity - 1)))) by lia.
  cbn [TSNE_rec]. rewrite H.
  apply Z.ltb_lt in Hp. rewrite Hp.
  destruct (TSNE_rec_returns (S (Z.to_nat (perplexity - 1))) self
              (perplexity - 1)%Z cv) as [[r cv'] Hr]; [lia |].
  cbn [TSNE_rec] in Hr. rewrite Hr. now exists cv'.
Qed.

End TSNEFacts.

Lemma TSNE_failed_attempt_returns_None_witness :
  exists cv',
    TSNE refuse_large_perplexity
      (with_figure_params (scenario blanks_last)
         {| interactive := false; save_figs := true |}) 30 []
    = Some (PyNone, cv').
Proof.
  apply (TSNE_failed_attempt_returns_None refuse_large_perplexity
           (with_figure_params (scenario blanks_last)
              {| interactive := false; save_figs := true |}) 30 []).
  - reflexivity.
  - reflexivity.
Defined.

(** The retry at perplexity 3 does embed the four samples and draws the
    figure, yet the caller of [TSNE(perplexity=30)] gets [None]. *)
Example TSNE_retry_result_is_lost :
  TSNE refuse_large_perplexity
    (with_figure_params (scenario blanks_last)
       {| interactive := false; save_figs := true |}) 30 []
  = Some (PyNone, [("scatter", "tsne")]%string).
Proof. vm_compute. reflexivity. Qed.

(** ** Invariant dropping: outcomes *)

Lemma apply_rows_filter_invariant_false (cols columns_ : list string) (rs : list Row) :
  apply_rows (filter_invariant false cols columns_) rs
  = Ok (map (varies cols columns_) rs).
Proof.
  induction rs as [| r rs IH]; simpl; [reflexivity |].
  rewrite IH. unfold filter_invariant, varies.
  destruct (Nat.eqb _ 1); reflexivity.
Qed.

Lemma drop_if_invariant_false_ok (l : list string) :
  forall df, exists df', fold_left (drop_if_invariant false) l (Ok df) = Ok df'.
Proof.
  induction l as [| c l IH]; intros df; simpl.
  - now exists df.
  - destruct (Nat.eqb _ 1); apply IH.
Qed.

(** Without [zeros_only], [drop_invariants] cannot raise. *)
Lemma drop_invariants_false_ok (self : FeatureTable) :
  exists self', drop_invariants self false = Ok self'
                /\ experiment self' = experiment self
                /\ moniker self' = moniker self.
Proof.
  unfold drop_invariants.
  rewrite apply_rows_filter_invariant_false. simpl.
  match goal with
  | |- context [fold_left _ ?l (Ok ?d)] =>
      destruct (drop_if_invariant_false_ok l d) as [df' Hdf]
  end.
  rewrite Hdf. simpl. eexists. repeat split.
Qed.

Lemma apply_rows_zeros_only_raises (cols columns_ : list string) (rs : list Row) (r : Row) :
  In r rs ->
  List.length (Np.distinct (row_select cols r columns_)) = 1%nat ->
  apply_rows (filter_invariant true cols columns_) rs = Raise set_not_subscriptable.
Proof.
  intros Hin Hone.
  induction rs as [| r0 rs IH]; [contradiction |].
  simpl. unfold filter_invariant at 1.
  destruct (Nat.eqb (List.length (Np.distinct (row_select cols r0 columns_))) 1) eqn:E.
  - reflexivity.
  - simpl. destruct Hin as [-> | Hin].
    + rewrite Hone in E. discriminate.
    + rewrite (IH Hin). reflexivity.
Qed.

(** C4: with [zeros_only=True], [drop_invariants] does not terminate
    normally on a table that has a feature with a single distinct value
    across the sample columns: reading [values[0]] off a set raises
    [TypeError], whereas the same call with [zeros_only=False] returns
    a table. *)
Theorem drop_invariants_zeros_only_raises (self : FeatureTable) (r : Row) :
  In r (rows (feature_table self)) ->
  List.length (Np.distinct (row_select (columns (feature_table self)) r
                              (sample_columns self))) = 1%nat ->
  drop_invariants self true = Raise set_not_subscriptable
  /\ exists self', drop_invariants self false = Ok self'.
Proof.
  intros Hin Hone. split.
  - unfold drop_invariants.
    now rewrite (apply_rows_zeros_only_raises _ _ _ r Hin Hone).
  - destruct (drop_invariants_false_ok self) as [self' [H _]]. now exists self'.
Qed.

Lemma drop_invariants_zeros_only_raises_witness :
  drop_invariants (scenario blanks_last) true = Raise set_not_subscriptable
  /\ exists self', drop_invariants (scenario blanks_last) false = Ok self'.
Proof.
  apply (drop_invariants_zeros_only_raises (scenario blanks_last)
           (feature 3 (300 # 1) (30 # 1) [0; 0; 0; 0])).
  - simpl. right. right. left. reflexivity.
  - reflexivity.
Defined.

(** On the scenario table the call without [zeros_only] drops the
    all-zero feature and nothing else. *)
Example drop_invariants_scenario :
  exists self', drop_invariants (scenario blanks_last) false = Ok self'
                /\ ids self' = [1; 2]%Z
                /\ columns (feature_table self') = ["s1"; "s2"; "s3"; "s4"]%string.
Proof. eexists. split; [vm_compute; reflexivity |]. split; reflexivity. Qed.

(** ** Saving under a reserved moniker *)

Lemma dict_get_set {V : Type} (d : list (string * V)) (k : string) (v : V) :
  dict_get (dict_set d k v) k = Some v.
Proof.
  induction d as [| [k' v'] d IH]; simpl.
  - now rewrite String.eqb_refl.
  - destruct (String.eqb k' k) eqn:E; simpl.
    + now rewrite String.eqb_refl.
    + now rewrite E.
Qed.

(** The guard of [save] does protect a table whose own moniker is
    reserved: nothing is written. *)
Lemma save_own_reserved_moniker_raises (self : FeatureTable) (drop : bool) (w : World) :
  reserved (moniker self) = true ->
  save self None drop w = Raise (Exception "Cannot overwrite asari feature tables").
Proof. intros H. unfold save. now rewrite H. Qed.

(** C6: a reserved moniker passed as [new_moniker] is not refused:
    [save] returns normally, the table is written, and the experiment's
    registry entry for the reserved moniker, in memory and as persisted,
    now points to the new file. *)
Theorem save_reserved_new_moniker_overwrites (self : FeatureTable) (m : string)
    (drop : bool) (w : World) :
  reserved m = true ->
  writable w (path_join (filtered_feature_tables_subdirectory (experiment self))
                        (output_path_of self m)) = true ->
  dict_get (fig_dirs w) (qaqc_figs (experiment self) ++ "/" ++ m)%string = None ->
  exists self' w',
    save self (Some m) drop w = Ok (self', w')
    /\ dict_get (feature_tables (experiment self')) m = Some (output_path_of self m)
    /\ dict_get (persisted_feature_tables w') m = Some (output_path_of self m)
    /\ dict_get (disk w') (path_join (filtered_feature_tables_subdirectory
                                         (experiment self))
                                      (output_path_of self m))
       = Some (feature_table self').
Proof.
  intros _ Hw Hfig. unfold save. simpl.
  assert (Hdrop : exists self1,
             (if drop then drop_invariants self false else Ok self) = Ok self1
             /\ experiment self1 = experiment self).
  { destruct drop.
    - destruct (drop_invariants_false_ok self) as [s [H1 [H2 _]]]. now exists s.
    - now exists self. }
  destruct Hdrop as [self1 [Hs He]]. rewrite Hs.
  cbn [bind]. unfold save_try. rewrite He. unfold output_path_of in *.
  rewrite Hw. cbn [negb fig_dirs experiment set_experiment register qaqc_figs].
  rewrite Hfig.
  eexists. eexists. split; [reflexivity |].
  cbn [experiment set_experiment register feature_tables persisted_feature_tables
       disk feature_table].
  rewrite !dict_get_set. repeat split.
Qed.

Lemma save_reserved_new_moniker_overwrites_witness :
  exists self' w',
    save (scenario blanks_last) (Some "preferred"%string) true empty_world = Ok (self', w')
    /\ dict_get (feature_tables (experiment self')) "preferred"
       = Some (output_path_of (scenario blanks_last) "preferred")
    /\ dict_get (persisted_feature_tables w') "preferred"
       = Some (output_path_of (scenario blanks_last) "preferred")
    /\ dict_get (disk w') (path_join (filtered_feature_tables_subdirectory
                                         (experiment (scenario blanks_last)))
                                      (output_path_of (scenario blanks_last) "preferred"))
       = Some (feature_table self').
Proof.
  apply (save_reserved_new_moniker_overwrites (scenario blanks_last) "preferred" true
           empty_world); reflexivity.
Defined.

(** Before the call the entry was the asari table; after it, the
    filtered one. *)
Example save_preferred_changes_registry :
  dict_get (feature_tables (experiment (scenario blanks_last))) "preferred"
  = Some "asari/preferred_Feature_table.tsv"%string
  /\ exists self' w',
       save (scenario blanks_last) (Some "preferred"%string) true empty_world
       = Ok (self', w')
       /\ dict_get (persisted_feature_tables w') "preferred"
          = Some "filtered_feature_tables/preferred_Feature_table.tsv"%string.
Proof.
  split; [reflexivity |].
  eexists. eexists. split; [vm_compute; reflexivity | reflexivity].
Qed.

(** ** Blank masking on the end-to-end scenario *)

Lemma row_at_In (cols : list string) (r : Row) (label : string) (v : Q) :
  In v (row_at cols r label) -> In v (cells r).
Proof.
  unfold row_at. rewrite in_map_iff.
  intros [[c v'] [Hv Hin]]. simpl in Hv. subst v'.
  apply filter_In in Hin. destruct Hin as [Hin _].
  now apply in_combine_r in Hin.
Qed.

Lemma row_select_In (cols : list string) (r : Row) (labels : list string) (v : Q) :
  In v (row_select cols r labels) -> In v (cells r).
Proof.
  unfold row_select. rewrite in_flat_map.
  intros [label [_ Hin]]. now apply row_at_In in Hin.
Qed.

Lemma filter_nil {A : Type} (f : A -> bool) (l : list A) :
  (forall x, In x l -> f x = false) -> filter f l = [].
Proof.
  induction l as [| x l IH]; intros H; simpl; [reflexivity |].
  rewrite (H x (or_introl eq_refl)). apply IH. intros y Hy. apply H. now right.
Qed.

(** A feature with no positive cell has mean 0 over any set of
    columns. *)
Lemma non_zero_mean_no_positive (cols labels : list string) (r : Row) :
  (forall v, In v (cells r) -> Np.gt0 v = false) ->
  non_zero_mean cols labels r = 0.
Proof.
  intros H. unfold non_zero_mean.
  rewrite filter_nil; [reflexivity |].
  intros v Hv. apply H. now apply row_select_In in Hv.
Qed.

(** C2 (as the code has it): on the scenario table, unbatched
    [blank_mask] with ratio 3 keeps the third, all-zero feature whichever
    samples the experiment classifies as "Blank" and "Unknown": its blank
    mean and its sample mean are both 0 and [0 * 3 > 0] is false. *)
Theorem blank_mask_keeps_all_zero_feature (e : Experiment) :
  exists self',
    blank_mask (scenario e) "Blank" "Unknown" "Sample Type" (3 # 1) None "or" = Ok self'
    /\ In 3%Z (ids self')
    /\ In (feature 3 (300 # 1) (30 # 1) [0; 0; 0; 0]) (rows (feature_table self')).
Proof.
  unfold blank_mask. cbn [batched bind].
  eexists. split; [reflexivity |].
  assert (Hin : In (feature 3 (300 # 1) (30 # 1) [0; 0; 0; 0])
                   (rows (feature_table
                      (set_feature_table (scenario e)
                         {| columns := columns (feature_table (scenario e));
                            rows := filter
                              (fun r => negb (blank_flag (columns (feature_table (scenario e)))
                                                (3 # 1)
                                                (names_matching (scenario e) "Sample Type" "Blank")
                                                (names_matching (scenario e) "Sample Type" "Unknown")
                                                r))
                              (rows (feature_table (scenario e))) |})))).
  { cbn [set_feature_table feature_table rows]. apply filter_In. split.
    - simpl. right. right. left. reflexivity.
    - unfold blank_flag.
      rewrite !non_zero_mean_no_positive.
      + reflexivity.
      + intros v [<- | [<- | [<- | [<- | []]]]]; reflexivity.
      + intros v [<- | [<- | [<- | [<- | []]]]]; reflexivity. }
  split; [| exact Hin].
  unfold ids. apply in_map_iff. eexists. split; [| exact Hin]. reflexivity.
Qed.

(** With the two low-intensity samples as blanks nothing is dropped;
    with the two high-intensity samples as blanks features 1 and 2 are
    dropped and the all-zero feature is what remains. *)
Example blank_mask_scenario_results :
  (exists self',
      blank_mask (scenario blanks_last) "Blank" "Unknown" "Sample Type" (3 # 1) None "or"
      = Ok self' /\ ids self' = [1; 2; 3]%Z)
  /\ (exists self',
         blank_mask (scenario blanks_first) "Blank" "Unknown" "Sample Type" (3 # 1) None "or"
         = Ok self' /\ ids self' = [3]%Z).
Proof.
  split; eexists; (split; [vm_compute; reflexivity | reflexivity]).
Qed.

(** Neither way does the call drop the third feature and keep features
    1 and 2. *)
Lemma blank_mask_scenario_does_not_drop_third :
  ~ (exists self',
        blank_mask (scenario blanks_last) "Blank" "Unknown" "Sample Type" (3 # 1) None "or"
        = Ok self' /\ ids self' = [1; 2]%Z)
  /\ ~ (exists self',
           blank_mask (scenario blanks_first) "Blank" "Unknown" "Sample Type" (3 # 1)
             None "or"
           = Ok self' /\ ids self' = [1; 2]%Z).
Proof.
  split; intros [self' [H Hids]]; vm_compute in H;
    injection H as <-; discriminate Hids.
Qed.

(** ** Searching by mass *)

Lemma Qle_bool_false (x y : Q) : Qle_bool x y = false <-> y < x.
Proof.
  split.
  - intros H. apply Qnot_le_lt. intros Hle. apply Qle_bool_iff in Hle. congruence.
  - intros H. destruct (Qle_bool x y) eqn:E; [| reflexivity].
    apply Qle_bool_iff in E. lra.
Qed.

Lemma contains_point_iff (p : Q) (i : IntervalTree.Interval) :
  IntervalTree.contains_point p i = true
  <-> IntervalTree.ibegin i <= p /\ p < IntervalTree.iend i.
Proof.
  unfold IntervalTree.contains_point.
  rewrite andb_true_iff, negb_true_iff, Qle_bool_iff, Qle_bool_false. reflexivity.
Qed.

(** When no interval is null the loop adds one interval per row. *)
Lemma build_tree_ok (lo hi : Row -> Q) (rs : list Row) :
  forall tree,
    (forall r, In r rs -> lo r < hi r) ->
    build_tree lo hi rs tree
    = Ok (tree ++ map (fun r => {| IntervalTree.ibegin := lo r;
                                   IntervalTree.iend := hi r;
                                   IntervalTree.data := id_number r |}) rs).
Proof.
  induction rs as [| r rs IH]; intros tree H; simpl.
  - now rewrite app_nil_r.
  - unfold IntervalTree.addi, IntervalTree.is_null. simpl.
    assert (Hr : Qle_bool (hi r) (lo r) = false).
    { apply Qle_bool_false. apply H. now left. }
    rewrite Hr. simpl. rewrite IH.
    + now rewrite <- app_assoc.
    + intros r' Hr'. apply H. now right.
Qed.

(** A null interval makes the construction of the tree fail. *)
Lemma build_tree_null (lo hi : Row -> Q) (r : Row) (rs : list Row) (tree : IntervalTree.t) :
  hi r <= lo r ->
  exists e, build_tree lo hi (r :: rs) tree = Raise e.
Proof.
  intros H. simpl. unfold IntervalTree.addi, IntervalTree.is_null. simpl.
  apply Qle_bool_iff in H. rewrite H. eexists. reflexivity.
Qed.

Lemma matches_iff (tree : IntervalTree.t) (q : Q) (i : Z) :
  In i (matches tree q)
  <-> exists iv, In iv tree /\ IntervalTree.data iv = i
                 /\ IntervalTree.ibegin iv <= q /\ q < IntervalTree.iend iv.
Proof.
  unfold matches, IntervalTree.at_. rewrite nodup_In, in_map_iff. split.
  - intros [iv [Hd Hin]]. apply filter_In in Hin. destruct Hin as [Hin Hc].
    apply contains_point_iff in Hc. exists iv. tauto.
  - intros [iv [Hin [Hd Hc]]]. exists iv. split; [assumption |].
    apply filter_In. split; [assumption |]. now apply contains_point_iff.
Qed.

Lemma NoDup_map_inj {A B : Type} (f : A -> B) (l : list A) (x y : A) :
  NoDup (map f l) -> In x l -> In y l -> f x = f y -> x = y.
Proof.
  induction l as [| a l IH]; intros Hnd Hx Hy Hf; [contradiction |].
  simpl in Hnd. inversion Hnd as [| ? ? Hnotin Hnd']; subst.
  destruct Hx as [-> | Hx], Hy as [-> | Hy].
  - reflexivity.
  - exfalso. apply Hnotin. rewrite Hf. now apply in_map.
  - exfalso. apply Hnotin. rewrite <- Hf. now apply in_map.
  - now apply IH.
Qed.

(** C1 (as the code has it): take a table with unique [id_number]s, a
    non-zero tolerance [t] whose tree is not cached yet, and let the
    mass interval of every feature, with the ends [mz - mz/1e6*t] and
    [mz + mz/1e6*t] as the code computes them, be non-null.  A search
    by a non-zero mass [q] alone then returns, and its result contains
    the id of a feature F exactly when
    [F.mz - F.mz/1e6*t <= q < F.mz + F.mz/1e6*t]: the lower end of the
    interval matches, the upper end does not. *)
Theorem search_for_feature_mz_half_open (self : FeatureTable) (t q : Q) (F : Row) :
  cache_get (mz_trees self) t = None ->
  NoDup (map id_number (rows (feature_table self))) ->
  (forall r, In r (rows (feature_table self)) -> mz_lo t r < mz_hi t r) ->
  ~ t == 0 ->
  ~ q == 0 ->
  In F (rows (feature_table self)) ->
  exists ms self',
    search_for_feature self (Some q) None (Some t) None = Ok (ms, self')
    /\ (In (id_number F) ms <-> mz_lo t F <= q /\ q < mz_hi t F).
Proof.
  intros Hcache Hnd Hnull Ht Hq HF.
  unfold search_for_feature.
  assert (Hq' : truthy (Some q) = true).
  { simpl. apply negb_true_iff. apply not_true_is_false.
    intros H. apply Qeq_bool_iff in H. contradiction. }
  assert (Ht' : truthy (Some t) = true).
  { simpl. apply negb_true_iff. apply not_true_is_false.
    intros H. apply Qeq_bool_iff in H. contradiction. }
  rewrite Hq', Ht'. cbn [andb unwrap].
  unfold get_mz_tree. rewrite Hcache.
  rewrite build_tree_ok by exact Hnull.
  cbn [bind fst snd is_None orb app IntervalTree.empty].
  eexists. eexists. split; [reflexivity |].
  rewrite matches_iff.
  split.
  - intros [iv [Hin [Hd [Hb He]]]].
    apply in_map_iff in Hin. destruct Hin as [r [Hiv Hr]]. subst iv.
    simpl in Hd, Hb, He.
    assert (r = F) by (apply (NoDup_map_inj id_number _ _ _ Hnd Hr HF Hd)).
    subst r. now split.
  - intros [Hb He].
    exists {| IntervalTree.ibegin := mz_lo t F; IntervalTree.iend := mz_hi t F;
              IntervalTree.data := id_number F |}.
    split; [| simpl; tauto].
    apply in_map_iff. exists F. now split.
Qed.

Lemma search_for_feature_mz_half_open_witness :
  exists ms self',
    search_for_feature mass_table (Some (999999 # 1)) None (Some 1) None = Ok (ms, self')
    /\ (In 7%Z ms
        <-> mz_lo 1 (feature 7 (1000000 # 1) (60 # 1) [10 # 1]) <= 999999 # 1
            /\ 999999 # 1 < mz_hi 1 (feature 7 (1000000 # 1) (60 # 1) [10 # 1])).
Proof.
  apply (search_for_feature_mz_half_open mass_table 1 (999999 # 1)
           (feature 7 (1000000 # 1) (60 # 1) [10 # 1])).
  - reflexivity.
  - simpl. repeat constructor; simpl; intuition discriminate.
  - intros r [<- | [<- | []]]; reflexivity.
  - intros H. discriminate H.
  - intros H. discriminate H.
  - simpl. left. reflexivity.
Defined.

(** At the upper end of the interval, where
    [|F.mz - q| <= F.mz * t / 1e6] holds with equality, the feature is
    not returned. *)
Lemma search_for_feature_misses_upper_endpoint :
  Qabs ((1000000 # 1) - (1000001 # 1)) <= (1000000 # 1) * 1 / 1000000
  /\ exists self',
       search_for_feature mass_table (Some (1000001 # 1)) None (Some 1) None
       = Ok ([], self').
Proof.
  split.
  - vm_compute. discriminate.
  - eexists. vm_compute. reflexivity.
Qed.

(** The lower end matches. *)
Example search_for_feature_finds_lower_endpoint :
  exists self',
    search_for_feature mass_table (Some (999999 # 1)) None (Some 1) None
    = Ok ([7%Z], self').
Proof. eexists. vm_compute. reflexivity. Qed.

(** A zero tolerance or a zero query mass is falsy: with no retention
    time given the search ends in [AttributeError]. *)
Example search_for_feature_zero_tolerance :
  search_for_feature mass_table (Some (1000000 # 1)) None (Some 0) None
  = Raise (AttributeError "'NoneType' object has no attribute 'intersection'").
Proof. reflexivity. Qed.

(** ** Dropping features by batch *)

Lemma any_is_below_in_every (p : Q) (incs : list (option Q)) :
  Forall (fun x => x <> None) incs ->
  any_ p incs = forallb (lt_nan p) incs.
Proof.
  unfold any_. induction 1 as [| x incs Hx _ IH]; simpl; [reflexivity |].
  rewrite negb_orb, IH. destruct x as [q |]; [reflexivity | contradiction].
Qed.

Lemma all_is_below_in_some (p : Q) (incs : list (option Q)) :
  Forall (fun x => x <> None) incs ->
  all_ p incs = existsb (lt_nan p) incs.
Proof.
  unfold all_. induction 1 as [| x incs Hx _ IH]; simpl; [reflexivity |].
  rewrite negb_andb, IH. destruct x as [q |]; [reflexivity | contradiction].
Qed.

Section BatchesWithSamples.

Variable self : FeatureTable.
Variable bs : list (string * list string).

(** Every batch has a sample column of the table. *)
Hypothesis batches_not_empty :
  forall b, In b bs ->
            filter (fun x => str_in x (sample_columns self)) (snd b) <> [].

Lemma batch_inclusions_are_numbers (r : Row) :
  Forall (fun x => x <> None) (batch_inclusions self bs r).
Proof.
  unfold batch_inclusions. apply Forall_forall. intros x Hx.
  apply in_map_iff in Hx. destruct Hx as [b [<- Hb]].
  specialize (batches_not_empty b Hb).
  unfold percent_inclusion.
  destruct (filter _ (snd b)); [contradiction | discriminate].
Qed.

Lemma finite_all_Some (l : list (option Q)) :
  Forall (fun x => x <> None) l -> exists qs, finite_all l = Some qs.
Proof.
  induction 1 as [| x l Hx _ [qs IH]]; simpl.
  - now exists [].
  - destruct x as [q |]; [| contradiction]. rewrite IH. now eexists.
Qed.

Lemma with_batch_columns_ok (rs : list Row) :
  exists rs', with_batch_columns self bs rs = Ok rs'
              /\ map id_number rs' = map id_number rs.
Proof.
  induction rs as [| r rs [rs' [IH Hids]]]; simpl.
  - now exists [].
  - destruct (finite_all_Some _ (batch_inclusions_are_numbers r)) as [qs Hqs].
    rewrite Hqs, IH. simpl. eexists. split; [reflexivity |].
    simpl. now rewrite Hids.
Qed.

End BatchesWithSamples.

(** C3 (as the code has it): when every batch has a sample column of
    the table, batched [drop_missing_features] returns normally; with
    [logic_mode="or"] the features it drops are those whose
    percent-inclusion is below [drop_percentile] in every batch, and
    with [logic_mode="and"] those whose percent-inclusion is below it in
    at least one batch.  The other features stay, in order. *)
Theorem drop_missing_features_batch_logic (self : FeatureTable) (field : string)
    (drop_percentile : Q) :
  field <> EmptyString ->
  (forall b, In b (batches (experiment self) field) ->
             filter (fun x => str_in x (sample_columns self)) (snd b) <> []) ->
  (exists self',
      drop_missing_features self (Some field) drop_percentile "or" = Ok self'
      /\ ids self'
         = map id_number
             (filter (fun r => negb (below_in_every_batch self
                                       (batches (experiment self) field)
                                       drop_percentile r))
                     (rows (feature_table self))))
  /\ (exists self',
         drop_missing_features self (Some field) drop_percentile "and" = Ok self'
         /\ ids self'
            = map id_number
                (filter (fun r => negb (below_in_some_batch self
                                          (batches (experiment self) field)
                                          drop_percentile r))
                        (rows (feature_table self)))).
Proof.
  intros Hfield Hbs. set (bs := batches (experiment self) field) in *.
  assert (Hb : batched (Some field) = Some field).
  { destruct field; [contradiction | reflexivity]. }
  unfold drop_missing_features. rewrite Hb. fold bs.
  split.
  - cbn [String.eqb Ascii.eqb Bool.eqb bind].
    match goal with
    | |- context [with_batch_columns self bs ?l] =>
        destruct (with_batch_columns_ok self bs Hbs l) as [rs' [Hrs Hids]]
    end.
    rewrite Hrs. cbn [bind]. eexists. split; [reflexivity |].
    unfold ids. cbn [set_feature_table feature_table rows]. rewrite Hids.
    f_equal. apply filter_ext. intros r. unfold below_in_every_batch.
    now rewrite any_is_below_in_every by (apply batch_inclusions_are_numbers, Hbs).
  - cbn [String.eqb Ascii.eqb Bool.eqb bind].
    match goal with
    | |- context [with_batch_columns self bs ?l] =>
        destruct (with_batch_columns_ok self bs Hbs l) as [rs' [Hrs Hids]]
    end.
    rewrite Hrs. cbn [bind]. eexists. split; [reflexivity |].
    unfold ids. cbn [set_feature_table feature_table rows]. rewrite Hids.
    f_equal. apply filter_ext. intros r. unfold below_in_some_batch.
    now rewrite all_is_below_in_some by (apply batch_inclusions_are_numbers, Hbs).
Qed.

Lemma drop_missing_features_batch_logic_witness :
  (exists self',
      drop_missing_features presence_table (Some "Batch"%string) (8 # 10) "or" = Ok self'
      /\ ids self'
         = map id_number
             (filter (fun r => negb (below_in_every_batch presence_table
                                       (batches (experiment presence_table) "Batch")
                                       (8 # 10) r))
                     (rows (feature_table presence_table))))
  /\ (exists self',
         drop_missing_features presence_table (Some "Batch"%string) (8 # 10) "and"
         = Ok self'
         /\ ids self'
            = map id_number
                (filter (fun r => negb (below_in_some_batch presence_table
                                          (batches (experiment presence_table) "Batch")
                                          (8 # 10) r))
                        (rows (feature_table presence_table)))).
Proof.
  apply (drop_missing_features_batch_logic presence_table "Batch" (8 # 10)).
  - discriminate.
  - intros b [<- | [<- | []]]; discriminate.
Defined.

(** Feature 1 is below the percentile in batch B only.  With "or" it
    stays although it is below in one batch; with "and" it goes although
    it is not below in every batch. *)
Lemma drop_missing_features_or_and_swapped :
  below_in_some_batch presence_table (batches (experiment presence_table) "Batch")
    (8 # 10) (feature 1 (100 # 1) (10 # 1) [1; 0; 1; 1]) = true
  /\ below_in_every_batch presence_table (batches (experiment presence_table) "Batch")
       (8 # 10) (feature 1 (100 # 1) (10 # 1) [1; 0; 1; 1]) = false
  /\ (exists self',
         drop_missing_features presence_table (Some "Batch"%string) (8 # 10) "or"
         = Ok self' /\ ids self' = [1; 2]%Z)
  /\ (exists self',
         drop_missing_features presence_table (Some "Batch"%string) (8 # 10) "and"
         = Ok self' /\ ids self' = [2]%Z).
Proof.
  repeat split; try reflexivity;
    eexists; (split; [vm_compute; reflexivity | reflexivity]).
Qed.

(** [blank_mask] combines its per-batch flags the other way round: with
    "or" a feature goes when it is flagged in at least one batch, with
    "and" when it is flagged in every batch. *)
Lemma blank_mask_batch_logic (self : FeatureTable)
    (blank_value sample_value query_field field : string) (ratio : Q) :
  field <> EmptyString ->
  (exists self',
      blank_mask self blank_value sample_value query_field ratio (Some field) "or"
      = Ok self'
      /\ rows (feature_table self')
         = filter (fun r =>
                     negb (existsb (fun b => b)
                             (blank_flags (columns (feature_table self)) ratio
                                (names_matching self query_field blank_value)
                                (names_matching self query_field sample_value)
                                (batches (experiment self) field) r)))
                  (rows (feature_table self)))
  /\ (exists self',
         blank_mask self blank_value sample_value query_field ratio (Some field) "and"
         = Ok self'
         /\ rows (feature_table self')
            = filter (fun r =>
                        negb (forallb (fun b => b)
                                (blank_flags (columns (feature_table self)) ratio
                                   (names_matching self query_field blank_value)
                                   (names_matching self query_field sample_value)
                                   (batches (experiment self) field) r)))
                     (rows (feature_table self))).
Proof.
  intros Hfield.
  assert (Hb : batched (Some field) = Some field).
  { destruct field; [contradiction | reflexivity]. }
  unfold blank_mask. rewrite Hb.
  split; eexists; (split; reflexivity).
Qed.

(** ** Applying [drop_invariants] twice *)

Lemma filter_all {A : Type} (f : A -> bool) (l : list A) :
  (forall x, In x l -> f x = true) -> filter f l = l.
Proof.
  induction l as [| x l IH]; intros H; simpl; [reflexivity |].
  rewrite (H x (or_introl eq_refl)). f_equal. apply IH.
  intros y Hy. apply H. now right.
Qed.

Lemma filter_shorter {A : Type} (f : A -> bool) (l : list A) (x : A) :
  In x l -> f x = false -> (List.length (filter f l) < List.length l)%nat.
Proof.
  induction l as [| y l IH]; intros Hin Hf; [contradiction |].
  simpl. pose proof (filter_length_le f l) as Hle.
  destruct Hin as [-> | Hin].
  - rewrite Hf. lia.
  - specialize (IH Hin Hf). destruct (f y); simpl; lia.
Qed.

(** The ids collected in [to_keep]. *)
Lemma to_keep_ids (f : Row -> bool) (rs : list Row) :
  map (fun kr : bool * Row => id_number (snd kr))
      (filter (fun kr => fst kr) (combine (map f rs) rs))
  = map id_number (filter f rs).
Proof.
  induction rs as [| r rs IH]; simpl; [reflexivity |].
  destruct (f r); simpl; now rewrite IH.
Qed.

(** A label that is not a column of the table selects nothing. *)
Lemma row_at_label (cols : list string) (r : Row) (label : string) :
  row_at cols r label <> [] -> In label cols.
Proof.
  unfold row_at. intros H.
  destruct (filter _ (combine cols (cells r))) as [| [c v] l] eqn:E; [now elim H |].
  assert (Hin : In (c, v) (filter (fun cv => String.eqb (fst cv) label)
                             (combine cols (cells r)))) by (rewrite E; now left).
  apply filter_In in Hin. destruct Hin as [Hin Heq]. simpl in Heq.
  apply String.eqb_eq in Heq. subst c. now apply in_combine_l in Hin.
Qed.

Lemma constant_column_label (df : DataFrame) (label : string) :
  constant_column df label = true -> In label (columns df).
Proof.
  unfold constant_column, column_values. intros H.
  destruct (flat_map _ (rows df)) as [| v l] eqn:E; [discriminate |].
  assert (Hin : In v (flat_map (fun r => row_at (columns df) r label) (rows df)))
    by (rewrite E; now left).
  apply in_flat_map in Hin. destruct Hin as [r [_ Hv]].
  apply (row_at_label (columns df) r). intros Hnil. now rewrite Hnil in Hv.
Qed.

Lemma drop_columns_shorter (df : DataFrame) (label : string) :
  In label (columns df) ->
  (List.length (columns (drop_columns df [label])) < List.length (columns df))%nat.
Proof.
  intros Hin. simpl. apply (filter_shorter _ _ label Hin).
  unfold str_in. simpl. now rewrite String.eqb_refl.
Qed.

(** The loop over the sample columns never adds a column, and leaves
    the table alone exactly when it meets no constant column. *)
Lemma column_loop_length (l : list string) :
  forall df df',
    fold_left (drop_if_invariant false) l (Ok df) = Ok df' ->
    (List.length (columns df') <= List.length (columns df))%nat
    /\ (List.length (columns df') = List.length (columns df) ->
        df' = df /\ forall c, In c l -> constant_column df c = false).
Proof.
  induction l as [| c l IH]; intros df df' H; simpl in H.
  - injection H as <-. split; [lia |]. intros _. split; [reflexivity | contradiction].
  - fold (constant_column df c) in H.
    destruct (constant_column df c) eqn:E.
    + apply IH in H. destruct H as [Hle _].
      pose proof (drop_columns_shorter df c (constant_column_label df c E)).
      split; [lia |]. intros Heq. lia.
    + apply IH in H. destruct H as [Hle Heq]. split; [assumption |].
      intros Hlen. destruct (Heq Hlen) as [-> Hc]. split; [reflexivity |].
      intros c' [<- | Hin]; [assumption | now apply Hc].
Qed.

Lemma column_loop_no_constant (l : list string) (df : DataFrame) :
  (forall c, In c l -> constant_column df c = false) ->
  fold_left (drop_if_invariant false) l (Ok df) = Ok df.
Proof.
  induction l as [| c l IH]; intros H; simpl; [reflexivity |].
  fold (constant_column df c). rewrite (H c (or_introl eq_refl)).
  apply IH. intros c' Hc'. apply H. now right.
Qed.

(** Filtering by the ids of the kept rows a second time changes
    nothing. *)
Lemma isin_stable (f : Row -> bool) (rs : list Row) :
  let rs1 := filter (isin (map id_number (filter f rs))) rs in
  filter (isin (map id_number (filter f rs1))) rs1 = rs1.
Proof.
  intros rs1. apply filter_all. intros r Hr.
  apply filter_In in Hr. destruct Hr as [Hr Hid].
  unfold isin in Hid. apply existsb_exists in Hid.
  destruct Hid as [i [Hi Heq]]. apply Z.eqb_eq in Heq. subst i.
  apply in_map_iff in Hi. destruct Hi as [r0 [Hid0 Hr0]].
  apply filter_In in Hr0. destruct Hr0 as [Hr0 Hf0].
  unfold isin. apply existsb_exists. exists (id_number r0).
  split; [| apply Z.eqb_eq; now symmetry].
  apply in_map. apply filter_In. split; [| assumption].
  apply filter_In. split; [assumption |].
  apply existsb_exists. exists (id_number r0). split; [| apply Z.eqb_refl].
  apply in_map. apply filter_In. now split.
Qed.

(** C8 (as the code has it): when the first application of
    [drop_invariants] removes no column, a second application leaves the
    table as the first one made it. *)
Theorem drop_invariants_twice_when_no_column_dropped (self self1 : FeatureTable) :
  drop_invariants self false = Ok self1 ->
  columns (feature_table self1) = columns (feature_table self) ->
  drop_invariants self1 false = Ok self1.
Proof.
  unfold drop_invariants at 1.
  rewrite apply_rows_filter_invariant_false. cbn [bind].
  rewrite to_keep_ids.
  set (cols := columns (feature_table self)).
  set (keepb := varies cols (sample_columns self)).
  set (rs1 := filter (isin (map id_number (filter keepb (rows (feature_table self)))))
                     (rows (feature_table self))).
  set (df1 := {| columns := cols; rows := rs1 |}).
  destruct (fold_left (drop_if_invariant false)
              (sample_columns (set_feature_table self df1)) (Ok df1))
    as [df2 | |] eqn:Hloop; cbn [bind]; try discriminate.
  intros H Hcols. injection H as <-.
  cbn [set_feature_table feature_table] in Hcols.
  destruct (column_loop_length _ _ _ Hloop) as [_ Hsame].
  destruct Hsame as [-> Hconst]; [now rewrite Hcols |].
  unfold drop_invariants.
  rewrite apply_rows_filter_invariant_false. cbn [bind].
  rewrite to_keep_ids.
  change (sample_columns (set_feature_table self df1)) with (sample_columns self) in *.
  cbn [set_feature_table feature_table].
  change (columns df1) with cols. change (rows df1) with rs1. fold keepb.
  pose proof (isin_stable keepb (rows (feature_table self))) as Hstable.
  cbv zeta in Hstable. fold rs1 in Hstable. rewrite Hstable. fold df1.
  change (sample_columns (set_feature_table (set_feature_table self df1) df1))
    with (sample_columns self).
  rewrite (column_loop_no_constant _ _ Hconst). reflexivity.
Qed.

Lemma drop_invariants_twice_when_no_column_dropped_witness :
  exists self1,
    drop_invariants (scenario blanks_last) false = Ok self1
    /\ drop_invariants self1 false = Ok self1.
Proof.
  eexists. split.
  - vm_compute. reflexivity.
  - apply (drop_invariants_twice_when_no_column_dropped (scenario blanks_last)).
    + vm_compute. reflexivity.
    + reflexivity.
Defined.

(** Rows [1, 2] and [1, 3]: the first application drops the constant
    column s1; the rows that are left have a single sample value each,
    and the second application drops both of them. *)
Lemma drop_invariants_not_idempotent :
  exists once twice,
    drop_invariants shared_value_table false = Ok once
    /\ drop_invariants once false = Ok twice
    /\ ids once = [1; 2]%Z
    /\ columns (feature_table once) = ["s2"]%string
    /\ ids twice = []
    /\ feature_table twice <> feature_table once.
Proof.
  eexists. eexists.
  split; [vm_compute; reflexivity |].
  split; [vm_compute; reflexivity |].
  repeat split. discriminate.
Qed.

(** ** TIC normalisation *)

(** *** Scaling columns *)




Lemma gt0_iff (x : Q) : Np.gt0 x = true <-> 0 < x.
Proof. unfold Np.gt0. rewrite negb_true_iff. apply Qle_bool_false. Qed.


(** *** One factor per sample *)




(** *** The factor applied to each sample *)

Section TICLevel.

Variable modes : stat_modes.
Variable mode : string.
Variable stat : list Q -> option Q.

Hypothesis mode_selects : modes mode = Some stat.
Hypothesis stat_defined : forall l, l <> [] -> exists c, stat l = Some c.


End TICLevel.

(** *** The statistics of [descriptive_stat_modes] are central *)

Lemma len_positive (l : list Q) : l <> [] -> 0 < Np.len l.
Proof.
  intros H. unfold Np.len. destruct l as [| x l]; [contradiction |].
  rewrite <- (Zlt_Qlt 0). cbn [List.length]. lia.
Qed.

Lemma len_cons (x : Q) (l : list Q) : Np.len (x :: l) == 1 + Np.len l.
Proof.
  unfold Np.len. cbn [List.length]. rewrite Nat2Z.inj_succ, <- Z.add_1_l.
  now rewrite inject_Z_plus.
Qed.

Lemma sum_constant (c : Q) (l : list Q) :
  Forall (fun x => x == c) l -> Np.sum l == c * Np.len l.
Proof.
  induction 1 as [| x l Hx _ IH].
  - unfold Np.len. cbn. ring.
  - rewrite len_cons. cbn [Np.sum fold_right]. fold (Np.sum l).
    rewrite IH, Hx. ring.
Qed.

Lemma sum_positive (l : list Q) :
  l <> [] -> Forall (fun x => 0 < x) l -> 0 < Np.sum l.
Proof.
  intros Hne H. induction H as [| x l Hx Hl IH]; [contradiction |].
  cbn [Np.sum fold_right]. fold (Np.sum l).
  destruct l as [| y l].
  - cbn. lra.
  - assert (0 < Np.sum (y :: l)) by (apply IH; discriminate). lra.
Qed.

Lemma mean_central : central Np.mean.
Proof.
  split.
  - intros l c Hne Hall. destruct l as [| x l]; [contradiction |].
    eexists. split; [reflexivity |].
    pose proof (len_positive (x :: l) Hne) as Hlen.
    rewrite (sum_constant c _ Hall). field. lra.
  - intros l Hne Hall. destruct l as [| x l]; [contradiction |].
    eexists. split; [reflexivity |].
    apply Qlt_shift_div_l; [now apply len_positive |].
    rewrite Qmult_0_l. now apply sum_positive.
Qed.

Lemma insert_In (x y : Q) (l : list Q) : In y (Np.insert x l) -> y = x \/ In y l.
Proof.
  induction l as [| z l IH]; cbn [Np.insert].
  - intros [<- | []]. now left.
  - destruct (Qle_bool x z).
    + intros [<- | H]; [now left | now right].
    + intros [<- | H]; [right; now left |].
      destruct (IH H) as [-> | Hin]; [now left | right; now right].
Qed.

Lemma sort_In (y : Q) (l : list Q) : In y (Np.sort l) -> In y l.
Proof.
  unfold Np.sort. induction l as [| x l IH]; cbn [fold_right]; [trivial |].
  intros H. destruct (insert_In _ _ _ H) as [-> | Hin]; [now left | right; now apply IH].
Qed.

Lemma insert_length (x : Q) (l : list Q) :
  List.length (Np.insert x l) = S (List.length l).
Proof.
  induction l as [| z l IH]; cbn [Np.insert]; [reflexivity |].
  destruct (Qle_bool x z); cbn [List.length]; [reflexivity | now rewrite IH].
Qed.

Lemma sort_length (l : list Q) : List.length (Np.sort l) = List.length l.
Proof.
  unfold Np.sort. induction l as [| x l IH]; cbn [fold_right]; [reflexivity |].
  rewrite insert_length. cbn [List.length]. now rewrite IH.
Qed.

(** An element of the sorted list at a valid position is an element of
    the list. *)
Lemma sorted_nth_In (l : list Q) (i : nat) :
  (i < List.length l)%nat -> In (nth i (Np.sort l) 0) l.
Proof.
  intros Hi. apply sort_In. apply nth_In. now rewrite sort_length.
Qed.

Lemma median_central : central Np.median.
Proof.
  assert (Hmid : forall l : list Q, l <> [] ->
                   (List.length l / 2 < List.length l)%nat
                   /\ (List.length l / 2 - 1 < List.length l)%nat).
  { intros l Hne. destruct l as [| x l]; [contradiction |].
    assert (List.length (x :: l) / 2 < List.length (x :: l))%nat
      by (apply Nat.div_lt; cbn [List.length]; lia).
    split; lia. }
  split.
  - intros l c Hne Hall. rewrite Forall_forall in Hall.
    destruct (Hmid l Hne) as [H1 H2].
    pose proof (Hall _ (sorted_nth_In l _ H1)) as Ha.
    pose proof (Hall _ (sorted_nth_In l _ H2)) as Hb.
    unfold Np.median. destruct l as [| x l]; [contradiction |].
    destruct (Nat.even (List.length (x :: l))).
    + eexists. split; [reflexivity |]. rewrite Ha, Hb. field.
    + eexists. split; [reflexivity |]. exact Ha.
  - intros l Hne Hall. rewrite Forall_forall in Hall.
    destruct (Hmid l Hne) as [H1 H2].
    pose proof (Hall _ (sorted_nth_In l _ H1)) as Ha.
    pose proof (Hall _ (sorted_nth_In l _ H2)) as Hb.
    unfold Np.median. destruct l as [| x l]; [contradiction |].
    destruct (Nat.even (List.length (x :: l))).
    + eexists. split; [reflexivity |].
      apply Qlt_shift_div_l; lra.
    + eexists. split; [reflexivity |]. exact Ha.
Qed.

Lemma min_list_In (l : list Q) : forall x, In (Np.min_list x l) (x :: l).
Proof.
  induction l as [| y l IH]; intros x; cbn [Np.min_list].
  - now left.
  - destruct (IH (if Qle_bool y x then y else x)) as [H | H].
    + rewrite <- H. destruct (Qle_bool y x); [right; now left | now left].
    + right. now right.
Qed.

Lemma max_list_In (l : list Q) : forall x, In (Np.max_list x l) (x :: l).
Proof.
  induction l as [| y l IH]; intros x; cbn [Np.max_list].
  - now left.
  - destruct (IH (if Qle_bool x y then y else x)) as [H | H].
    + rewrite <- H. destruct (Qle_bool x y); [right; now left | now left].
    + right. now right.
Qed.

(** A statistic that picks an element of a non-empty list is central. *)
Lemma member_central (stat : list Q -> option Q) :
  (forall l, l <> [] -> exists c, stat l = Some c /\ In c l) ->
  central stat.
Proof.
  intros H. split.
  - intros l c Hne Hall. destruct (H l Hne) as [c' [Hs Hin]].
    exists c'. split; [assumption |]. rewrite Forall_forall in Hall. now apply Hall.
  - intros l Hne Hall. destruct (H l Hne) as [c' [Hs Hin]].
    exists c'. split; [assumption |]. rewrite Forall_forall in Hall. now apply Hall.
Qed.

Lemma descriptive_stat_modes_central (mode : string) (stat : list Q -> option Q) :
  descriptive_stat_modes mode = Some stat -> central stat.
Proof.
  unfold descriptive_stat_modes.
  destruct (String.eqb mode "median"); [intros [= <-]; apply median_central |].
  destruct (String.eqb mode "mean"); [intros [= <-]; apply mean_central |].
  destruct (String.eqb mode "min").
  { intros [= <-]. apply member_central. intros [| x l] Hne; [contradiction |].
    eexists. split; [reflexivity | apply min_list_In]. }
  destruct (String.eqb mode "max"); [| discriminate].
  intros [= <-]. apply member_central. intros [| x l] Hne; [contradiction |].
  eexists. split; [reflexivity | apply max_list_In].
Qed.




(** On the same table the TICs of the code, taken over the qualifying
    feature 1, are 1 and 3 before the call and both 2 after it. *)
Example TIC_normalize_levels :
  exists self',
    TIC_normalize descriptive_stat_modes tic_table (9 # 10) None "mean" = Ok self'
    /\ map snd (TICs_of tic_frame (acquired_columns tic_table) (9 # 10)) = [1; 3]
    /\ Forall (fun x => x == 2)
              (map snd (TICs_of (feature_table self') (acquired_columns self') (9 # 10))).
Proof.
  eexists. split; [vm_compute; reflexivity |].
  split; [reflexivity |].
  vm_compute. repeat constructor.
Qed.

(** ** Cell-wise updates *)

Lemma map_cells_then_update (f : Q -> Q) (P : string -> bool) (label : string)
    (cols : list string) :
  (forall x, f (f x) = f x) \/ P label = false ->
  forall cs,
    update_cells cols (map_cells cols cs label f) P f
    = update_cells cols cs (fun c => String.eqb c label || P c) f.
Proof.
  intros H. induction cols as [| c cols IH]; intros cs; [reflexivity |].
  destruct cs as [| v cs]; [reflexivity |].
  cbn [map_cells update_cells]. rewrite IH. f_equal.
  destruct (String.eqb c label) eqn:E; cbn [orb]; [| reflexivity].
  apply String.eqb_eq in E. subst c.
  destruct H as [Hidem | HP].
  - destruct (P label); [apply Hidem | reflexivity].
  - now rewrite HP.
Qed.

Lemma update_cells_none (f : Q -> Q) (cols : list string) :
  forall cs, update_cells cols cs (fun _ => false) f = cs.
Proof.
  induction cols as [| c cols IH]; intros [| v cs]; cbn [update_cells];
    try reflexivity.
  now rewrite IH.
Qed.

Lemma update_cells_ext (f : Q -> Q) (P P' : string -> bool) (cols : list string) :
  (forall c, P c = P' c) ->
  forall cs, update_cells cols cs P f = update_cells cols cs P' f.
Proof.
  intros H. induction cols as [| c cols IH]; intros [| v cs]; cbn [update_cells];
    try reflexivity.
  now rewrite IH, H.
Qed.

(** Applying [f] to the columns of a list one after the other is one
    pass over the cells, when no column comes twice or [f] is
    idempotent. *)
Lemma fold_map_row (f : Q -> Q) (cols : list string) (l : list string) :
  (forall x, f (f x) = f x) \/ NoDup l ->
  forall r,
    fold_left (fun r' c => map_row cols c f r') l r
    = update_row cols (fun c => str_in c l) f r.
Proof.
  intros H. induction l as [| c l IH]; intros r; cbn [fold_left].
  - unfold update_row. rewrite update_cells_none. now destruct r.
  - rewrite IH.
    + unfold update_row, map_row. cbn [cells id_number mz rtime]. f_equal.
      rewrite map_cells_then_update.
      * apply update_cells_ext. intros c'. unfold str_in. cbn [existsb].
        now rewrite String.eqb_sym.
      * destruct H as [Hidem | Hnd]; [now left | right].
        inversion Hnd as [| ? ? Hnot _]; subst.
        apply not_true_is_false. intros Hin. apply Hnot. now apply str_in_In.
    + destruct H as [Hidem | Hnd]; [now left | right].
      now inversion Hnd.
Qed.

Lemma fold_map_column (f : Q -> Q) (l : list string) :
  (forall x, f (f x) = f x) \/ NoDup l ->
  forall df,
    fold_left (fun d c => map_column d c f) l df
    = {| columns := columns df;
         rows := map (update_row (columns df) (fun c => str_in c l) f) (rows df) |}.
Proof.
  intros H df.
  assert (Hgen : forall l' d,
             fold_left (fun d c => map_column d c f) l' d
             = {| columns := columns d;
                  rows := map (fun r => fold_left (fun r' c => map_row (columns d) c f r')
                                          l' r) (rows d) |}).
  { induction l' as [| c l' IH]; intros d; cbn [fold_left].
    - rewrite map_id. now destruct d.
    - rewrite IH. unfold map_column. cbn [columns rows]. now rewrite map_map. }
  rewrite Hgen. f_equal. apply map_ext. intros r. now apply fold_map_row.
Qed.

Lemma row_at_update_row (cols : list string) (P : string -> bool) (f : Q -> Q)
    (r : Row) (s : string) :
  row_at cols (update_row cols P f r) s
  = if P s then map f (row_at cols r s) else row_at cols r s.
Proof.
  unfold row_at, update_row. cbn [cells].
  generalize (cells r) as cs.
  induction cols as [| c cols IH]; intros cs.
  - cbn. now destruct (P s).
  - destruct cs as [| v cs]; [cbn; now destruct (P s) |].
    cbn [update_cells combine filter fst snd].
    destruct (String.eqb c s) eqn:E.
    + apply String.eqb_eq in E. subst c. cbn [map snd]. rewrite IH.
      now destruct (P s).
    + apply IH.
Qed.

Lemma column_values_update (df : DataFrame) (P : string -> bool) (f : Q -> Q)
    (s : string) :
  column_values {| columns := columns df;
                   rows := map (update_row (columns df) P f) (rows df) |} s
  = if P s then map f (column_values df s) else column_values df s.
Proof.
  unfold column_values. cbn [columns rows].
  induction (rows df) as [| r rs IH]; cbn [map flat_map].
  - now destruct (P s).
  - rewrite IH, row_at_update_row. destruct (P s); [now rewrite map_app | reflexivity].
Qed.

(** ** Flooring *)

Lemma clamp_idempotent (fill x : Q) : clamp fill (clamp fill x) = clamp fill x.
Proof.
  unfold clamp. destruct (Np.gt0 x) eqn:E; [now rewrite E |].
  now destruct (Np.gt0 fill).
Qed.

Lemma clamp_positive (fill x : Q) : 0 < fill -> 0 < clamp fill x.
Proof.
  intros H. unfold clamp. destruct (Np.gt0 x) eqn:E; [now apply gt0_iff | assumption].
Qed.

Lemma make_nonnegative_columns (self : FeatureTable) (fill_value : Q) (s : string) :
  columns (feature_table (make_nonnegative self fill_value))
  = columns (feature_table self)
  /\ column_values (feature_table (make_nonnegative self fill_value)) s
     = if str_in s (sample_columns self)
       then map (clamp fill_value) (column_values (feature_table self) s)
       else column_values (feature_table self) s.
Proof.
  unfold make_nonnegative. cbn [set_feature_table feature_table].
  rewrite fold_map_column by (left; apply clamp_idempotent).
  split; [reflexivity | apply column_values_update].
Qed.

(** X1: with a positive fill value, [make_nonnegative] leaves every
    cell of every sample column positive; in a sample column it replaces
    the cells that are not positive by the fill value and keeps the
    others, and it leaves the other columns as they are. *)
Theorem make_nonnegative_positive (self : FeatureTable) (fill_value : Q) :
  0 < fill_value ->
  (forall s v, In s (sample_columns self) ->
               In v (column_values (feature_table (make_nonnegative self fill_value)) s) ->
               0 < v)
  /\ (forall s, In s (sample_columns self) ->
                column_values (feature_table (make_nonnegative self fill_value)) s
                = map (fun x => if Np.gt0 x then x else fill_value)
                      (column_values (feature_table self) s))
  /\ (forall s, ~ In s (sample_columns self) ->
                column_values (feature_table (make_nonnegative self fill_value)) s
                = column_values (feature_table self) s).
Proof.
  intros Hfill. repeat split.
  - intros s v Hs Hv.
    destruct (make_nonnegative_columns self fill_value s) as [_ Hcol].
    rewrite Hcol in Hv. apply str_in_In in Hs. rewrite Hs in Hv.
    apply in_map_iff in Hv. destruct Hv as [x [<- _]]. now apply clamp_positive.
  - intros s Hs.
    destruct (make_nonnegative_columns self fill_value s) as [_ Hcol].
    rewrite Hcol. apply str_in_In in Hs. now rewrite Hs.
  - intros s Hs.
    destruct (make_nonnegative_columns self fill_value s) as [_ Hcol].
    rewrite Hcol. destruct (str_in s (sample_columns self)) eqn:E; [| reflexivity].
    apply str_in_In in E. contradiction.
Qed.

Lemma make_nonnegative_positive_witness :
  (forall s v, In s (sample_columns (scenario blanks_last)) ->
               In v (column_values
                       (feature_table (make_nonnegative (scenario blanks_last) 1)) s) ->
               0 < v)
  /\ (forall s, In s (sample_columns (scenario blanks_last)) ->
                column_values (feature_table (make_nonnegative (scenario blanks_last) 1)) s
                = map (fun x => if Np.gt0 x then x else 1)
                      (column_values (feature_table (scenario blanks_last)) s))
  /\ (forall s, ~ In s (sample_columns (scenario blanks_last)) ->
                column_values (feature_table (make_nonnegative (scenario blanks_last) 1)) s
                = column_values (feature_table (scenario blanks_last)) s).
Proof.
  apply (make_nonnegative_positive (scenario blanks_last) 1). reflexivity.
Defined.

Example make_nonnegative_scenario :
  map cells (rows (feature_table (make_nonnegative (scenario blanks_last) 1)))
  = [ [100 # 1; 90 # 1; 5 # 1; 6 # 1]; [50 # 1; 55 # 1; 1; 1]; [1; 1; 1; 1] ].
Proof. reflexivity. Qed.

(** ** Log transform *)

Lemma log_steps_raise (log_modes : log_table) (log_mode : string) (e : exn)
    (l : list string) :
  fold_left (log_step log_modes log_mode) l (Raise e) = Raise e.
Proof. induction l as [| c l IH]; [reflexivity | exact IH]. Qed.

Lemma log_steps_ok (log_modes : log_table) (log_mode : string) (lg : Q -> Q)
    (l : list string) :
  log_modes log_mode = Some lg ->
  forall df,
    fold_left (log_step log_modes log_mode) l (Ok df)
    = Ok (fold_left (fun d c => map_column d c (log1p_cell lg)) l df).
Proof.
  intros Hlg. induction l as [| c l IH]; intros df; cbn [fold_left]; [reflexivity |].
  unfold log_step at 2. cbn [bind]. rewrite Hlg. apply IH.
Qed.

Lemma str_in_app_r (x : string) (l : list string) : str_in x (l ++ [x]) = true.
Proof. apply str_in_In. apply in_or_app. right. now left. Qed.

Lemma sample_columns_NoDup (self : FeatureTable) :
  NoDup (columns (feature_table self)) -> NoDup (sample_columns self).
Proof. intros H. now apply NoDup_filter. Qed.

(** What [log_transform] leaves in a column, given the logarithm. *)
Lemma log_transform_columns (log_modes : log_table) (self : FeatureTable)
    (new_moniker log_mode : string) (w : World) (lg : Q -> Q) :
  log_modes log_mode = Some lg ->
  NoDup (columns (feature_table self)) ->
  exists self',
    snd (log_transform log_modes self new_moniker log_mode w) = Ok self'
    /\ experiment self' = fst (fst (log_transform log_modes self new_moniker log_mode w))
    /\ moniker self' = moniker self
    /\ columns (feature_table self') = columns (feature_table self)
    /\ forall s,
         column_values (feature_table self') s
         = if str_in s (sample_columns self)
           then map (fun x => clamp 1 (log1p_cell lg x))
                    (column_values (feature_table self) s)
           else column_values (feature_table self) s.
Proof.
  intros Hlg Hnd. unfold log_transform. cbn [fst snd].
  change (sample_columns (set_experiment self
                            (mark_log_transformed (experiment self) new_moniker)))
    with (sample_columns self).
  cbn [set_experiment feature_table].
  rewrite (log_steps_ok log_modes log_mode lg _ Hlg). cbn [bind].
  rewrite fold_map_column by (right; now apply sample_columns_NoDup).
  eexists. split; [reflexivity |].
  split; [reflexivity |]. split; [reflexivity |].
  split.
  - destruct (make_nonnegative_columns
                (set_feature_table
                   (set_experiment self (mark_log_transformed (experiment self) new_moniker))
                   {| columns := columns (feature_table self);
                      rows := map (update_row (columns (feature_table self))
                                     (fun c => str_in c (sample_columns self))
                                     (log1p_cell lg))
                                  (rows (feature_table self)) |}) 1 EmptyString)
      as [Hc _].
    exact Hc.
  - intros s.
    match goal with
    | |- column_values (feature_table (make_nonnegative ?t 1)) s = _ =>
        destruct (make_nonnegative_columns t 1 s) as [_ Hcol]; rewrite Hcol;
        change (sample_columns t) with (sample_columns self)
    end.
    cbn [set_feature_table feature_table].
    rewrite column_values_update.
    destruct (str_in s (sample_columns self)); [now rewrite map_map | reflexivity].
Qed.

(** X2: with a known [log_mode] and distinct column labels,
    [log_transform] returns normally, records [new_moniker] among the
    log-transformed tables of the experiment, and leaves every cell of
    every sample column positive; the moniker of the table itself stays
    what it was, and the other columns are untouched. *)
Theorem log_transform_positive (log_modes : log_table) (self : FeatureTable)
    (new_moniker log_mode : string) (w : World) (lg : Q -> Q) :
  log_modes log_mode = Some lg ->
  NoDup (columns (feature_table self)) ->
  exists self',
    snd (log_transform log_modes self new_moniker log_mode w) = Ok self'
    /\ str_in new_moniker (log_transformed_feature_tables (experiment self')) = true
    /\ moniker self' = moniker self
    /\ (forall s v, In s (sample_columns self) ->
                    In v (column_values (feature_table self') s) -> 0 < v)
    /\ (forall s, ~ In s (sample_columns self) ->
                  column_values (feature_table self') s
                  = column_values (feature_table self) s).
Proof.
  intros Hlg Hnd.
  destruct (log_transform_columns log_modes self new_moniker log_mode w lg Hlg Hnd)
    as [self' [Hok [He [Hm [_ Hcol]]]]].
  exists self'. split; [assumption |].
  split; [rewrite He; apply str_in_app_r |].
  split; [assumption |]. split.
  - intros s v Hs Hv. rewrite Hcol in Hv. apply str_in_In in Hs. rewrite Hs in Hv.
    apply in_map_iff in Hv. destruct Hv as [x [<- _]]. now apply clamp_positive.
  - intros s Hs. rewrite Hcol.
    destruct (str_in s (sample_columns self)) eqn:E; [| reflexivity].
    apply str_in_In in E. contradiction.
Qed.

(** X3: with an unknown [log_mode], [log_transform] on a table with a
    sample column raises [KeyError], but only after it has recorded
    [new_moniker] among the log-transformed tables of the experiment. *)
Theorem log_transform_unknown_mode_registers (log_modes : log_table)
    (self : FeatureTable) (new_moniker log_mode : string) (w : World) :
  log_modes log_mode = None ->
  sample_columns self <> [] ->
  snd (log_transform log_modes self new_moniker log_mode w) = Raise (KeyError log_mode)
  /\ str_in new_moniker
       (log_transformed_feature_tables
          (fst (fst (log_transform log_modes self new_moniker log_mode w)))) = true.
Proof.
  intros Hlg Hne. unfold log_transform. cbn [fst snd]. split.
  - change (sample_columns (set_experiment self
                              (mark_log_transformed (experiment self) new_moniker)))
      with (sample_columns self).
    destruct (sample_columns self) as [| c l]; [contradiction |].
    cbn [fold_left]. unfold log_step at 2. cbn [bind]. rewrite Hlg.
    now rewrite log_steps_raise.
  - apply str_in_app_r.
Qed.

Lemma log_transform_positive_witness :
  exists self',
    snd (log_transform stand_in_logs (scenario blanks_last) "logged" "log2" empty_world)
    = Ok self'
    /\ str_in "logged" (log_transformed_feature_tables (experiment self')) = true
    /\ moniker self' = moniker (scenario blanks_last)
    /\ (forall s v, In s (sample_columns (scenario blanks_last)) ->
                    In v (column_values (feature_table self') s) -> 0 < v)
    /\ (forall s, ~ In s (sample_columns (scenario blanks_last)) ->
                  column_values (feature_table self') s
                  = column_values (feature_table (scenario blanks_last)) s).
Proof.
  apply (log_transform_positive stand_in_logs (scenario blanks_last) "logged" "log2"
           empty_world (fun x => x - 1)).
  - reflexivity.
  - simpl. repeat constructor; simpl; intuition discriminate.
Defined.

Lemma log_transform_unknown_mode_registers_witness :
  snd (log_transform stand_in_logs (scenario blanks_last) "logged" "ln" empty_world)
  = Raise (KeyError "ln")
  /\ str_in "logged"
       (log_transformed_feature_tables
          (fst (fst (log_transform stand_in_logs (scenario blanks_last) "logged" "ln"
                       empty_world)))) = true.
Proof.
  apply (log_transform_unknown_mode_registers stand_in_logs (scenario blanks_last)
           "logged" "ln" empty_world).
  - reflexivity.
  - discriminate.
Defined.

(** X4: when the logarithm sends 1 to 0 and 2 to 1, as the logarithm
    to base 2 does, [log_transform] turns a zero cell of a sample column
    into 1, the value a cell equal to 1 gets: after the call the two
    cannot be told apart. *)
Theorem log_transform_zero_becomes_one (log_modes : log_table) (self : FeatureTable)
    (new_moniker log_mode : string) (w : World) (lg : Q -> Q) :
  log_modes log_mode = Some lg ->
  NoDup (columns (feature_table self)) ->
  (forall x, x == 1 -> lg x == 0) ->
  (forall x, x == 2 -> lg x == 1) ->
  exists self',
    snd (log_transform log_modes self new_moniker log_mode w) = Ok self'
    /\ forall s, In s (sample_columns self) ->
                 Forall2 (fun x x' => (x == 0 -> x' == 1) /\ (x == 1 -> x' == 1))
                         (column_values (feature_table self) s)
                         (column_values (feature_table self') s).
Proof.
  intros Hlg Hnd H1 H2.
  destruct (log_transform_columns log_modes self new_moniker log_mode w lg Hlg Hnd)
    as [self' [Hok [_ [_ [_ Hcol]]]]].
  exists self'. split; [assumption |].
  intros s Hs. rewrite Hcol. apply str_in_In in Hs. rewrite Hs.
  induction (column_values (feature_table self) s) as [| x l IH]; cbn [map];
    constructor; [| exact IH].
  unfold clamp, log1p_cell. split; intros Hx.
  - assert (Hpos : Np.gt0 (x + 1) = true) by (apply gt0_iff; lra).
    rewrite Hpos.
    assert (Hlg0 : lg (x + 1) == 0) by (apply H1; lra).
    assert (Hz : Np.gt0 (lg (x + 1)) = false).
    { apply not_true_is_false. intros Hgt. apply gt0_iff in Hgt. lra. }
    rewrite Hz. reflexivity.
  - assert (Hpos : Np.gt0 (x + 1) = true) by (apply gt0_iff; lra).
    rewrite Hpos.
    assert (Hlg1 : lg (x + 1) == 1) by (apply H2; lra).
    assert (Hz : Np.gt0 (lg (x + 1)) = true) by (apply gt0_iff; lra).
    rewrite Hz. exact Hlg1.
Qed.

Lemma log_transform_zero_becomes_one_witness :
  exists self',
    snd (log_transform stand_in_logs (scenario blanks_last) "logged" "log2" empty_world)
    = Ok self'
    /\ forall s, In s (sample_columns (scenario blanks_last)) ->
                 Forall2 (fun x x' => (x == 0 -> x' == 1) /\ (x == 1 -> x' == 1))
                         (column_values (feature_table (scenario blanks_last)) s)
                         (column_values (feature_table self') s).
Proof.
  apply (log_transform_zero_becomes_one stand_in_logs (scenario blanks_last) "logged"
           "log2" empty_world (fun x => x - 1)).
  - reflexivity.
  - simpl. repeat constructor; simpl; intuition discriminate.
  - intros x Hx. lra.
  - intros x Hx. lra.
Defined.

(** On the scenario table the third and fourth cells of feature 2 are 1
    and those of feature 3 are 0: they all end as 1. *)
Example log_transform_scenario :
  exists self',
    snd (log_transform stand_in_logs (scenario blanks_last) "logged" "log2" empty_world)
    = Ok self'
    /\ column_values (feature_table self') "s3" = [5 # 1; 1 # 1; 1]
    /\ column_values (feature_table (scenario blanks_last)) "s3" = [5 # 1; 1 # 1; 0].
Proof. eexists. split; [vm_compute; reflexivity |]. split; reflexivity. Qed.

(** ** Interpolation of missing values *)

Lemma fmax_idempotent (v x : Q) : fmax (fmax x v) v = fmax x v.
Proof.
  unfold fmax. destruct (Qle_bool x v) eqn:E; [| now rewrite E].
  assert (H : Qle_bool v v = true) by (apply Qle_bool_iff; apply Qle_refl).
  now rewrite H.
Qed.

Lemma fmax_ge (x v : Q) : x <= fmax x v.
Proof.
  unfold fmax. destruct (Qle_bool x v) eqn:E.
  - now apply Qle_bool_iff.
  - apply Qle_refl.
Qed.

Lemma update_cells_rel (R : Q -> Q -> Prop) (P : string -> bool) (f : Q -> Q)
    (cols : list string) :
  (forall x, R x x) ->
  forall cs,
    (forall c x, In (c, x) (combine cols cs) -> P c = true -> R x (f x)) ->
    Forall2 R cs (update_cells cols cs P f).
Proof.
  intros Hrefl. induction cols as [| c cols IH]; intros cs H.
  - cbn. induction cs; constructor; auto.
  - destruct cs as [| v cs]; [constructor |].
    cbn [update_cells]. constructor.
    + destruct (P c) eqn:E; [| apply Hrefl].
      apply (H c v); [now left | assumption].
    + apply IH. intros c' x Hin. apply H. now right.
Qed.

Lemma interpolate_row_once (modes : stat_modes) (method : string) (ratio : Q)
    (cols names : list string) (r : Row) :
  interpolate_row modes method ratio cols names r
  = (v <- calc_interpolated_value modes method ratio cols names r ;;
     Ok (update_row cols (fun c => str_in c names) (fun x => fmax x v) r)).
Proof.
  unfold interpolate_row.
  destruct (calc_interpolated_value modes method ratio cols names r) as [v | e |];
    cbn [bind]; try reflexivity.
  rewrite fold_map_row; [reflexivity |].
  left. intros x. apply fmax_idempotent.
Qed.

Lemma cellwise_refl (R : Q -> Q -> Prop) (rs : list Row) :
  (forall x, R x x) -> cellwise R rs rs.
Proof.
  intros H. unfold cellwise. induction rs as [| r rs IH]; constructor; [| exact IH].
  split; [reflexivity |]. induction (cells r); constructor; auto.
Qed.

Lemma Forall2_trans {A : Type} (R : A -> A -> Prop) :
  (forall x y z, R x y -> R y z -> R x z) ->
  forall l1 l2 l3, Forall2 R l1 l2 -> Forall2 R l2 l3 -> Forall2 R l1 l3.
Proof.
  intros Ht l1 l2 l3 H12. revert l3.
  induction H12 as [| x y l1 l2 Hxy _ IH]; intros l3 H23; inversion H23; subst;
    constructor; eauto.
Qed.

Lemma cellwise_trans (R : Q -> Q -> Prop) (rs1 rs2 rs3 : list Row) :
  (forall x y z, R x y -> R y z -> R x z) ->
  cellwise R rs1 rs2 -> cellwise R rs2 rs3 -> cellwise R rs1 rs3.
Proof.
  intros Ht. unfold cellwise. apply Forall2_trans.
  intros r1 r2 r3 [Hid Hc] [Hid' Hc']. split; [congruence |].
  now apply (Forall2_trans R Ht _ (cells r2)).
Qed.

Section Interpolation.

Variable modes : stat_modes.
Variable method : string.
Variable stat : list Q -> option Q.
Variable ratio : Q.

Hypothesis method_selects : modes method = Some stat.

(** The statistic is defined on every non-empty list. *)
Hypothesis stat_defined : forall l, l <> [] -> exists c, stat l = Some c.

Lemma calc_interpolated_value_ok (cols names : list string) (r : Row) :
  exists v, calc_interpolated_value modes method ratio cols names r = Ok v.
Proof.
  unfold calc_interpolated_value.
  destruct (filter Np.gt0 (row_select cols r names)) as [| x l] eqn:E.
  - now exists 0.
  - destruct (stat_defined (x :: l)) as [c Hc]; [discriminate |].
    unfold descriptive_stat. rewrite method_selects, Hc. cbn [bind]. now eexists.
Qed.

Lemma interpolate_rows_never_lower (cols names : list string) (rs : list Row) :
  exists rs',
    apply_rows (interpolate_row modes method ratio cols names) rs = Ok rs'
    /\ cellwise Qle rs rs'.
Proof.
  induction rs as [| r rs [rs' [IH Hrel]]]; cbn [apply_rows].
  - exists []. split; [reflexivity | constructor].
  - rewrite interpolate_row_once.
    destruct (calc_interpolated_value_ok cols names r) as [v Hv].
    rewrite Hv, IH. cbn [bind]. eexists. split; [reflexivity |].
    constructor; [| exact Hrel]. split; [reflexivity |].
    cbn [update_row cells]. apply update_cells_rel; [apply Qle_refl |].
    intros c x _ _. apply fmax_ge.
Qed.

Lemma interpolate_over_never_lower (names : list string) (df : DataFrame) :
  exists df',
    interpolate_over modes method ratio (Ok df) names = Ok df'
    /\ columns df' = columns df
    /\ cellwise Qle (rows df) (rows df').
Proof.
  unfold interpolate_over. cbn [bind].
  destruct (interpolate_rows_never_lower (columns df) names (rows df)) as [rs' [H Hrel]].
  rewrite H. cbn [bind]. eexists. split; [reflexivity |]. now split.
Qed.

(** X5: with a statistic that is defined on non-empty lists,
    [interpolate_missing_features] returns normally, batched or not,
    keeps the columns and the features, and never lowers a cell: every
    cell of the result is at least the cell it replaces. *)
Theorem interpolate_never_lowers (self : FeatureTable) (by_batch : option string) :
  exists self',
    interpolate_missing_features modes self ratio by_batch method = Ok self'
    /\ columns (feature_table self') = columns (feature_table self)
    /\ cellwise Qle (rows (feature_table self)) (rows (feature_table self')).
Proof.
  unfold interpolate_missing_features.
  destruct (batched by_batch) as [field |].
  - generalize (map (fun b : string * list string =>
                       filter (fun x => str_in x
                                 (filter (fun n => str_in n (columns (feature_table self)))
                                    (map name (acquisitions (experiment self)))))
                              (snd b))
                    (batches (experiment self) field)) as groups.
    intros groups.
    assert (Hfold : forall df,
               exists df',
                 fold_left (interpolate_over modes method ratio) groups (Ok df) = Ok df'
                 /\ columns df' = columns df
                 /\ cellwise Qle (rows df) (rows df')).
    { induction groups as [| g groups IH]; intros df; cbn [fold_left].
      - exists df. split; [reflexivity |]. split; [reflexivity |].
        apply cellwise_refl, Qle_refl.
      - destruct (interpolate_over_never_lower g df) as [df1 [H1 [Hc1 Hr1]]].
        rewrite H1. destruct (IH df1) as [df2 [H2 [Hc2 Hr2]]].
        exists df2. split; [assumption |]. split; [congruence |].
        apply (cellwise_trans Qle _ (rows df1)); [apply Qle_trans | |]; assumption. }
    destruct (Hfold (feature_table self)) as [df' [H [Hc Hr]]].
    rewrite H. cbn [bind]. eexists. split; [reflexivity |]. now split.
  - destruct (interpolate_over_never_lower
                (filter (fun n => str_in n (columns (feature_table self)))
                        (map name (acquisitions (experiment self))))
                (feature_table self)) as [df' [H [Hc Hr]]].
    rewrite H. cbn [bind]. eexists. split; [reflexivity |]. now split.
Qed.

(** The statistic is a lower bound of the list it is taken of, as the
    minimum is, and the ratio is between 0 and 1. *)
Hypothesis stat_lower_bound : forall l c, stat l = Some c -> Forall (fun x => c <= x) l.
Hypothesis ratio_range : 0 <= ratio /\ ratio <= 1.

Lemma selected_cell (cols names : list string) (r : Row) (c : string) (x : Q) :
  In (c, x) (combine cols (cells r)) -> str_in c names = true ->
  In x (row_select cols r names).
Proof.
  intros Hin Hc. apply str_in_In in Hc.
  unfold row_select. apply in_flat_map. exists c. split; [assumption |].
  unfold row_at. apply in_map_iff. exists (c, x). split; [reflexivity |].
  apply filter_In. split; [assumption | apply String.eqb_refl].
Qed.

Lemma interpolate_rows_keep_positive (cols names : list string) (rs : list Row) :
  exists rs',
    apply_rows (interpolate_row modes method ratio cols names) rs = Ok rs'
    /\ cellwise (fun x x' => 0 < x -> x' == x) rs rs'.
Proof.
  induction rs as [| r rs [rs' [IH Hrel]]]; cbn [apply_rows].
  - exists []. split; [reflexivity | constructor].
  - rewrite interpolate_row_once.
    destruct (calc_interpolated_value_ok cols names r) as [v Hv].
    rewrite Hv, IH. cbn [bind]. eexists. split; [reflexivity |].
    constructor; [| exact Hrel]. split; [reflexivity |].
    cbn [update_row cells]. apply update_cells_rel; [reflexivity |].
    intros c x Hin Hc Hx.
    assert (Hle : v <= x).
    { unfold calc_interpolated_value in Hv.
      pose proof (selected_cell cols names r c x Hin Hc) as Hsel.
      assert (Hval : In x (filter Np.gt0 (row_select cols r names))).
      { apply filter_In. split; [assumption | now apply gt0_iff]. }
      destruct (filter Np.gt0 (row_select cols r names)) as [| y l] eqn:E;
        [contradiction |].
      unfold descriptive_stat in Hv. rewrite method_selects in Hv.
      destruct (stat (y :: l)) as [c0 |] eqn:Hs; [| discriminate].
      cbn [bind] in Hv. injection Hv as <-.
      pose proof (stat_lower_bound _ _ Hs) as Hlb. rewrite Forall_forall in Hlb.
      specialize (Hlb x Hval). destruct ratio_range as [H0 H1].
      destruct (Qlt_le_dec c0 0) as [Hneg | Hnn].
      - apply Qle_trans with 0; [| lra].
        rewrite <- (Qmult_0_l ratio). apply Qmult_le_compat_r; lra.
      - apply Qle_trans with c0; [| assumption].
        rewrite <- (Qmult_1_r c0) at 2. rewrite !(Qmult_comm c0).
        apply Qmult_le_compat_r; lra. }
    unfold fmax. destruct (Qle_bool x v) eqn:E; [| reflexivity].
    apply Qle_bool_iff in E. lra.
Qed.

(** X6: when the statistic is a lower bound of its list (the minimum,
    the default) and the ratio lies between 0 and 1 (0.5 by default),
    unbatched [interpolate_missing_features] leaves every positive cell
    at its value: only cells that are not positive are filled in. *)
Theorem interpolate_keeps_observed_values (self : FeatureTable) :
  exists self',
    interpolate_missing_features modes self ratio None method = Ok self'
    /\ cellwise (fun x x' => 0 < x -> x' == x)
                (rows (feature_table self)) (rows (feature_table self')).
Proof.
  unfold interpolate_missing_features, interpolate_over. cbn [batched bind].
  destruct (interpolate_rows_keep_positive
              (columns (feature_table self))
              (filter (fun n => str_in n (columns (feature_table self)))
                      (map name (acquisitions (experiment self))))
              (rows (feature_table self))) as [rs' [H Hrel]].
  rewrite H. cbn [bind]. eexists. split; [reflexivity | exact Hrel].
Qed.

End Interpolation.

Lemma descriptive_stat_modes_defined (mode : string) (stat : list Q -> option Q) :
  descriptive_stat_modes mode = Some stat ->
  forall l, l <> [] -> exists c, stat l = Some c.
Proof.
  intros H l Hne. pose proof (descriptive_stat_modes_central mode stat H) as Hc.
  destruct (central_constant stat Hc (map (fun _ => 0) l) 0) as [c [Hs _]].
  - destruct l; [contradiction | discriminate].
  - apply Forall_forall. intros x Hx. apply in_map_iff in Hx.
    destruct Hx as [y [<- _]]. reflexivity.
  - revert Hs. unfold descriptive_stat_modes in H.
    destruct (String.eqb mode "median").
    { injection H as <-. destruct l; [contradiction |]. intros _.
      unfold Np.median. destruct (Nat.even _); eexists; reflexivity. }
    destruct (String.eqb mode "mean").
    { injection H as <-. destruct l; [contradiction |]. intros _.
      eexists; reflexivity. }
    destruct (String.eqb mode "min").
    { injection H as <-. destruct l; [contradiction |]. intros _.
      eexists; reflexivity. }
    destruct (String.eqb mode "max"); [| discriminate].
    injection H as <-. destruct l; [contradiction |]. intros _.
    eexists; reflexivity.
Qed.

Lemma min_list_lower_bound (l : list Q) :
  forall x, Np.min_list x l <= x /\ Forall (fun y => Np.min_list x l <= y) l.
Proof.
  induction l as [| y l IH]; intros x; cbn [Np.min_list].
  - split; [apply Qle_refl | constructor].
  - destruct (IH (if Qle_bool y x then y else x)) as [Hm Hall].
    destruct (Qle_bool y x) eqn:E.
    + apply Qle_bool_iff in E. split; [lra |]. constructor; assumption.
    + apply Qle_bool_false in E. split; [assumption |].
      constructor; [lra | assumption].
Qed.

Lemma interpolate_never_lowers_witness :
  exists self',
    interpolate_missing_features descriptive_stat_modes (scenario blanks_last)
      (1 # 2) (Some "Batch"%string) "min" = Ok self'
    /\ columns (feature_table self') = columns (feature_table (scenario blanks_last))
    /\ cellwise Qle (rows (feature_table (scenario blanks_last)))
                (rows (feature_table self')).
Proof.
  apply (interpolate_never_lowers descriptive_stat_modes "min"
           (fun l => match l with [] => None | x :: l' => Some (Np.min_list x l') end)
           (1 # 2)).
  - reflexivity.
  - intros [| x l] H; [contradiction | eexists; reflexivity].
Defined.

Lemma interpolate_keeps_observed_values_witness :
  exists self',
    interpolate_missing_features descriptive_stat_modes (scenario blanks_last)
      (1 # 2) None "min" = Ok self'
    /\ cellwise (fun x x' => 0 < x -> x' == x)
                (rows (feature_table (scenario blanks_last)))
                (rows (feature_table self')).
Proof.
  apply (interpolate_keeps_observed_values descriptive_stat_modes "min"
           (fun l => match l with [] => None | x :: l' => Some (Np.min_list x l') end)
           (1 # 2)).
  - reflexivity.
  - intros [| x l] H; [contradiction | eexists; reflexivity].
  - intros [| x l] c H; [discriminate |]. injection H as <-.
    destruct (min_list_lower_bound l x) as [H1 H2]. now constructor.
  - split; [discriminate | discriminate].
Defined.

(** With the mean instead, observed values below the filled-in floor
    are raised: feature 1 of the presence table has cells 1, 0, 1, 1 and
    the ratio 2 turns them all into 2. *)
Example interpolate_mean_raises_observed :
  exists self',
    interpolate_missing_features descriptive_stat_modes presence_table 2 None "mean"
    = Ok self'
    /\ Forall2 (Forall2 Qeq) (map cells (rows (feature_table self')))
               [ [2; 2; 2; 2]; [2; 2; 2; 2]; [2; 2; 2; 2] ].
Proof.
  eexists. split; [vm_compute; reflexivity |].
  vm_compute. repeat constructor.
Qed.

(** ** Dropping samples *)

Lemma combine_kept (keep : string -> bool) (cols : list string) :
  forall cs,
    combine (filter keep cols)
            (map snd (filter (fun cv : string * Q => keep (fst cv)) (combine cols cs)))
    = filter (fun cv => keep (fst cv)) (combine cols cs).
Proof.
  induction cols as [| c cols IH]; intros cs; [reflexivity |].
  destruct cs as [| v cs].
  - change (combine (c :: cols) []) with (@nil (string * Q)).
    apply combine_nil.
  - cbn [combine filter fst]. destruct (keep c); cbn [map combine snd]; now rewrite IH.
Qed.

Lemma filter_label_of_kept (keep : string -> bool) (c : string)
    (l : list (string * Q)) :
  filter (fun cv => String.eqb (fst cv) c) (filter (fun cv => keep (fst cv)) l)
  = if keep c then filter (fun cv => String.eqb (fst cv) c) l else [].
Proof.
  induction l as [| [c' v] l IH]; cbn [filter fst].
  - now destruct (keep c).
  - destruct (keep c') eqn:K; cbn [filter fst]; rewrite IH;
      destruct (String.eqb c' c) eqn:E; try reflexivity.
    + apply String.eqb_eq in E. subst c'. now rewrite K.
    + apply String.eqb_eq in E. subst c'. now rewrite K.
Qed.

(** What is left of a column after [drop]: nothing if it was dropped,
    its values otherwise. *)
Lemma drop_columns_values (df : DataFrame) (labels : list string) (c : string) :
  column_values (drop_columns df labels) c
  = if str_in c labels then [] else column_values df c.
Proof.
  unfold column_values, drop_columns. cbn [columns rows].
  induction (rows df) as [| r rs IH]; cbn [map flat_map].
  - now destruct (str_in c labels).
  - rewrite IH. unfold row_at at 1. unfold keep_cells. cbn [cells].
    rewrite combine_kept.
    rewrite (filter_label_of_kept (fun c' => negb (str_in c' labels)) c).
    destruct (str_in c labels); reflexivity.
Qed.

Lemma checked_drop_ok (df : DataFrame) (labels : list string) :
  (forall l, In l labels -> In l (columns df)) ->
  checked_drop df labels = Ok (drop_columns df labels).
Proof.
  intros H. unfold checked_drop.
  destruct (find _ labels) as [l |] eqn:E; [| reflexivity].
  apply find_some in E. destruct E as [Hin Hnot].
  apply negb_true_iff in Hnot. apply H, str_in_In in Hin. congruence.
Qed.

Lemma sample_columns_are_columns (self : FeatureTable) (c : string) :
  In c (sample_columns self) -> In c (columns (feature_table self)).
Proof. intros H. now apply sample_columns_spec in H. Qed.

Lemma drop_columns_In (df : DataFrame) (labels : list string) (c : string) :
  In c (columns (drop_columns df labels)) <-> In c (columns df) /\ ~ In c labels.
Proof.
  cbn [drop_columns columns]. rewrite filter_In, negb_true_iff.
  split; intros [H1 H2]; split; try assumption.
  - intros Hin. apply str_in_In in Hin. congruence.
  - apply not_true_is_false. intros Hin. apply H2. now apply str_in_In.
Qed.

(** X7: [drop_samples_by_filter] never raises.  Of the sample columns,
    the call with [drop_others] keeps exactly those named after an
    acquisition the filter selects, and the call without it keeps
    exactly the others; columns that are not sample columns stay in
    both, and a column that stays keeps its values. *)
Theorem drop_samples_by_filter_splits (self : FeatureTable) (filter_ : SampleFilter) :
  exists kept others,
    drop_samples_by_filter self filter_ false = Ok kept
    /\ drop_samples_by_filter self filter_ true = Ok others
    /\ (forall c, In c (sample_columns self) ->
                  (In c (columns (feature_table others))
                   <-> In c (map name (filter_samples (experiment self) filter_)))
                  /\ (In c (columns (feature_table kept))
                      <-> ~ In c (map name (filter_samples (experiment self) filter_))))
    /\ (forall c, In c (columns (feature_table self)) ->
                  ~ In c (sample_columns self) ->
                  In c (columns (feature_table kept))
                  /\ In c (columns (feature_table others)))
    /\ (forall c, In c (columns (feature_table kept)) ->
                  column_values (feature_table kept) c
                  = column_values (feature_table self) c)
    /\ (forall c, In c (columns (feature_table others)) ->
                  column_values (feature_table others) c
                  = column_values (feature_table self) c).
Proof.
  unfold drop_samples_by_filter.
  set (matched := map name (filter_samples (experiment self) filter_)).
  set (to_drop := filter (fun x => str_in x (sample_columns self)) matched).
  set (do_not_drop := filter (fun x => negb (str_in x to_drop)) (sample_columns self)).
  assert (Hto : forall c, In c to_drop <-> In c matched /\ In c (sample_columns self)).
  { intros c. unfold to_drop. rewrite filter_In, str_in_In. reflexivity. }
  assert (Hdo : forall c, In c do_not_drop
                          <-> In c (sample_columns self) /\ ~ In c matched).
  { intros c. unfold do_not_drop. rewrite filter_In, negb_true_iff. split.
    - intros [Hs Hn]. split; [assumption |]. intros Hm.
      assert (In c to_drop) by (apply Hto; now split).
      apply str_in_In in H. congruence.
    - intros [Hs Hn]. split; [assumption |]. apply not_true_is_false.
      intros Hin. apply str_in_In, Hto in Hin. tauto. }
  rewrite !checked_drop_ok.
  - cbn [bind]. eexists. eexists. split; [reflexivity |]. split; [reflexivity |].
    cbn [set_feature_table feature_table].
    split; [| split; [| split]].
    + intros c Hs. pose proof (sample_columns_are_columns self c Hs) as Hc.
      rewrite !drop_columns_In, Hdo, Hto. split; [| tauto].
      split; [| tauto]. intros [_ Hn].
      destruct (in_dec string_dec c matched) as [Hm | Hm]; [assumption |].
      exfalso. apply Hn. now split.
    + intros c Hc Hs. rewrite !drop_columns_In, Hdo, Hto. tauto.
    + intros c Hc. rewrite drop_columns_values.
      apply drop_columns_In in Hc. destruct Hc as [_ Hn].
      destruct (str_in c to_drop) eqn:E; [| reflexivity].
      apply str_in_In in E. contradiction.
    + intros c Hc. rewrite drop_columns_values.
      apply drop_columns_In in Hc. destruct Hc as [_ Hn].
      destruct (str_in c do_not_drop) eqn:E; [| reflexivity].
      apply str_in_In in E. contradiction.
  - intros l Hl. apply Hdo in Hl. now apply sample_columns_are_columns.
  - intros l Hl. apply Hto in Hl. now apply sample_columns_are_columns.
Qed.

Example drop_samples_by_field_scenario :
  exists kept others,
    drop_samples_by_field (scenario blanks_last) "Blank" "Sample Type" false = Ok kept
    /\ drop_samples_by_field (scenario blanks_last) "Blank" "Sample Type" true = Ok others
    /\ columns (feature_table kept) = ["s1"; "s2"]%string
    /\ columns (feature_table others) = ["s3"; "s4"]%string
    /\ map cells (rows (feature_table others))
       = [ [5 # 1; 6 # 1]; [1 # 1; 1 # 1]; [0; 0] ].
Proof.
  eexists. eexists. split; [vm_compute; reflexivity |].
  split; [vm_compute; reflexivity |]. repeat split.
Qed.

(** X8: for a name other than the three required columns,
    [drop_sample_by_name] without [drop_others] drops the named column
    whether or not it is a sample column, and raises [KeyError] when
    the table has no such column; with [drop_others] it never raises,
    keeps every column that is not a sample column, and of the sample
    columns keeps the named one only. *)
Theorem drop_sample_by_name_behaviour (self : FeatureTable) (drop_name : string) :
  ~ In drop_name required_columns ->
  (In drop_name (columns (feature_table self)) ->
   exists self',
     drop_sample_by_name self drop_name false = Some (Ok self')
     /\ forall c, In c (columns (feature_table self'))
                  <-> In c (columns (feature_table self)) /\ c <> drop_name)
  /\ (~ In drop_name (columns (feature_table self)) ->
      drop_sample_by_name self drop_name false = Some (Raise (KeyError drop_name)))
  /\ exists self',
       drop_sample_by_name self drop_name true = Some (Ok self')
       /\ forall c, In c (columns (feature_table self'))
                    <-> In c (columns (feature_table self))
                        /\ (In c (sample_columns self) -> c = drop_name).
Proof.
  intros Hreq. unfold drop_sample_by_name.
  assert (Hr : str_in drop_name required_columns = false).
  { apply not_true_is_false. intros H. now apply str_in_In in H. }
  rewrite Hr. split; [| split].
  - intros Hin. rewrite checked_drop_ok.
    + cbn [bind]. eexists. split; [reflexivity |].
      intros c. cbn [set_feature_table feature_table]. rewrite drop_columns_In.
      cbn [In]. split; intros [H1 H2]; split; try assumption.
      * intros ->. apply H2. now left.
      * intros [-> | []]. now apply H2.
    + intros l [<- | []]. assumption.
  - intros Hnot. unfold checked_drop. cbn [find].
    assert (H : str_in drop_name (columns (feature_table self)) = false).
    { apply not_true_is_false. intros H. now apply str_in_In in H. }
    now rewrite H.
  - rewrite checked_drop_ok.
    + cbn [bind]. eexists. split; [reflexivity |].
      intros c. cbn [set_feature_table feature_table].
      rewrite drop_columns_In, filter_In, negb_true_iff.
      split.
      * intros [Hc Hn]. split; [assumption |]. intros Hs.
        destruct (String.eqb c drop_name) eqn:E; [now apply String.eqb_eq |].
        exfalso. apply Hn. now split.
      * intros [Hc Hs]. split; [assumption |]. intros [Hsc E].
        rewrite (Hs Hsc), String.eqb_refl in E. discriminate.
    + intros l Hl. apply filter_In in Hl. destruct Hl as [Hl _].
      now apply sample_columns_are_columns.
Qed.

Lemma drop_sample_by_name_behaviour_witness :
  (In "s2"%string (columns (feature_table (scenario blanks_first))) ->
   exists self',
     drop_sample_by_name (scenario blanks_first) "s2" false = Some (Ok self')
     /\ forall c, In c (columns (feature_table self'))
                  <-> In c (columns (feature_table (scenario blanks_first)))
                      /\ c <> "s2"%string)
  /\ (~ In "s2"%string (columns (feature_table (scenario blanks_first))) ->
      drop_sample_by_name (scenario blanks_first) "s2" false
      = Some (Raise (KeyError "s2")))
  /\ exists self',
       drop_sample_by_name (scenario blanks_first) "s2" true = Some (Ok self')
       /\ forall c, In c (columns (feature_table self'))
                    <-> In c (columns (feature_table (scenario blanks_first)))
                        /\ (In c (sample_columns (scenario blanks_first))
                            -> c = "s2"%string).
Proof.
  apply (drop_sample_by_name_behaviour (scenario blanks_first) "s2").
  simpl. intuition discriminate.
Defined.

(** Dropping a column the table does not have raises; with
    [drop_others] the same name empties the sample columns instead. *)
Example drop_sample_by_name_absent :
  drop_sample_by_name (scenario blanks_first) "s9" false
  = Some (Raise (KeyError "s9"))
  /\ exists self',
       drop_sample_by_name (scenario blanks_first) "s9" true = Some (Ok self')
       /\ columns (feature_table self') = [].
Proof.
  split; [reflexivity |]. eexists. split; [vm_compute; reflexivity | reflexivity].
Qed.

(** ** Searching by retention time, by both axes, and from the cache *)

Lemma truthy_nonzero (q : Q) : ~ q == 0 -> truthy (Some q) = true.
Proof.
  intros H. cbn [truthy]. apply negb_true_iff, not_true_is_false.
  intros E. now apply Qeq_bool_iff in E.
Qed.

Lemma truthy_positive (q : Q) : 0 < q -> truthy (Some q) = true.
Proof. intros H. apply truthy_nonzero. lra. Qed.

Lemma rt_tree_built (self : FeatureTable) (tol : Q) :
  cache_get (rt_trees self) tol = None ->
  (forall r, In r (rows (feature_table self)) -> rtime r - tol < rtime r + tol) ->
  get_rt_tree self tol
  = Ok (map (fun r => {| IntervalTree.ibegin := rtime r - tol;
                         IntervalTree.iend := rtime r + tol;
                         IntervalTree.data := id_number r |})
            (rows (feature_table self)),
        set_rt_trees self
          ((tol,
            map (fun r => {| IntervalTree.ibegin := rtime r - tol;
                             IntervalTree.iend := rtime r + tol;
                             IntervalTree.data := id_number r |})
                (rows (feature_table self))) :: rt_trees self)).
Proof.
  intros Hc Hnull. unfold get_rt_tree. rewrite Hc.
  rewrite build_tree_ok by exact Hnull.
  reflexivity.
Qed.

Lemma mz_tree_built (self : FeatureTable) (t : Q) :
  cache_get (mz_trees self) t = None ->
  (forall r, In r (rows (feature_table self)) -> mz_lo t r < mz_hi t r) ->
  get_mz_tree self t
  = Ok (map (fun r => {| IntervalTree.ibegin := mz_lo t r;
                         IntervalTree.iend := mz_hi t r;
                         IntervalTree.data := id_number r |})
            (rows (feature_table self)),
        set_mz_trees self
          ((t,
            map (fun r => {| IntervalTree.ibegin := mz_lo t r;
                             IntervalTree.iend := mz_hi t r;
                             IntervalTree.data := id_number r |})
                (rows (feature_table self))) :: mz_trees self)).
Proof.
  intros Hc Hnull. unfold get_mz_tree. rewrite Hc.
  rewrite build_tree_ok by exact Hnull.
  reflexivity.
Qed.

(** Membership in the matches of a tree built from the rows. *)
Lemma matches_of_rows (lo hi : Row -> Q) (rs : list Row) (q : Q) (F : Row) :
  NoDup (map id_number rs) ->
  In F rs ->
  In (id_number F)
     (matches (map (fun r => {| IntervalTree.ibegin := lo r; IntervalTree.iend := hi r;
                                IntervalTree.data := id_number r |}) rs) q)
  <-> lo F <= q /\ q < hi F.
Proof.
  intros Hnd HF. rewrite matches_iff. split.
  - intros [iv [Hin [Hd Hc]]].
    apply in_map_iff in Hin. destruct Hin as [r [<- Hr]]. cbn in Hd, Hc.
    assert (r = F) by (apply (NoDup_map_inj id_number _ _ _ Hnd Hr HF Hd)).
    now subst r.
  - intros Hc. eexists. split; [apply in_map_iff; exists F; split;
                                 [reflexivity | assumption] |].
    cbn. tauto.
Qed.

(** X9: take a table with unique ids, a non-zero tolerance [tol]
    whose tree is not cached yet, and let the time interval of every
    feature, with the ends [rtime - tol] and [rtime + tol] as the code
    computes them, be non-null.  A search by a non-zero retention time
    [q] alone then returns, and its result contains the id of a feature
    F exactly when [F.rtime - tol <= q < F.rtime + tol]. *)
Theorem search_for_feature_rt_half_open (self : FeatureTable) (tol q : Q) (F : Row) :
  cache_get (rt_trees self) tol = None ->
  NoDup (map id_number (rows (feature_table self))) ->
  (forall r, In r (rows (feature_table self)) -> rtime r - tol < rtime r + tol) ->
  ~ tol == 0 ->
  ~ q == 0 ->
  In F (rows (feature_table self)) ->
  exists ms self',
    search_for_feature self None (Some q) None (Some tol) = Ok (ms, self')
    /\ (In (id_number F) ms <-> rtime F - tol <= q /\ q < rtime F + tol).
Proof.
  intros Hc Hnd Hnull Ht Hq HF. unfold search_for_feature.
  change (truthy (@None Q)) with false. cbn [andb bind fst snd].
  rewrite (truthy_nonzero q Hq), (truthy_nonzero tol Ht). cbn [andb unwrap].
  rewrite (rt_tree_built self tol Hc Hnull). cbn [bind fst snd].
  eexists. eexists. split; [reflexivity |].
  apply (matches_of_rows (fun r => rtime r - tol) (fun r => rtime r + tol)); assumption.
Qed.

Lemma search_for_feature_rt_half_open_witness :
  exists ms self',
    search_for_feature mass_table None (Some (50 # 1)) None (Some (10 # 1)) = Ok (ms, self')
    /\ (In 7%Z ms <-> (60 # 1) - (10 # 1) <= 50 # 1 /\ 50 # 1 < (60 # 1) + (10 # 1)).
Proof.
  apply (search_for_feature_rt_half_open mass_table (10 # 1) (50 # 1)
           (feature 7 (1000000 # 1) (60 # 1) [10 # 1])).
  - reflexivity.
  - simpl. repeat constructor; simpl; intuition discriminate.
  - intros r [<- | [<- | []]]; reflexivity.
  - intros H. discriminate H.
  - intros H. discriminate H.
  - simpl. left. reflexivity.
Defined.

(** X10: a search by mass and retention time, with both trees yet to
    be built and no null interval on either axis (the ends taken as the
    code computes them), returns the ids that match on both axes: the
    id of F is returned exactly when the query mass lies in F's mass
    interval and the query time in F's time interval. *)
Theorem search_for_feature_both_axes (self : FeatureTable) (t tol qm qr : Q) (F : Row) :
  cache_get (mz_trees self) t = None ->
  cache_get (rt_trees self) tol = None ->
  NoDup (map id_number (rows (feature_table self))) ->
  (forall r, In r (rows (feature_table self)) -> mz_lo t r < mz_hi t r) ->
  (forall r, In r (rows (feature_table self)) -> rtime r - tol < rtime r + tol) ->
  ~ t == 0 -> ~ tol == 0 -> ~ qm == 0 -> ~ qr == 0 ->
  In F (rows (feature_table self)) ->
  exists ms self',
    search_for_feature self (Some qm) (Some qr) (Some t) (Some tol) = Ok (ms, self')
    /\ (In (id_number F) ms
        <-> (mz_lo t F <= qm /\ qm < mz_hi t F)
            /\ (rtime F - tol <= qr /\ qr < rtime F + tol)).
Proof.
  intros Hcm Hcr Hnd Hmnull Hrnull Ht Htol Hqm Hqr HF. unfold search_for_feature.
  rewrite (truthy_nonzero qm Hqm), (truthy_nonzero t Ht). cbn [andb unwrap].
  rewrite (mz_tree_built self t Hcm Hmnull). cbn [bind fst snd is_None orb].
  rewrite (truthy_nonzero qr Hqr), (truthy_nonzero tol Htol). cbn [andb].
  rewrite rt_tree_built by assumption. cbn [bind fst snd].
  eexists. eexists. split; [reflexivity |].
  rewrite filter_In.
  cbn [set_mz_trees feature_table].
  rewrite (matches_of_rows (fun r => rtime r - tol) (fun r => rtime r + tol))
    by assumption.
  assert (Hm : existsb (Z.eqb (id_number F))
                 (matches (map (fun r => {| IntervalTree.ibegin := mz_lo t r;
                                            IntervalTree.iend := mz_hi t r;
                                            IntervalTree.data := id_number r |})
                               (rows (feature_table self))) qm) = true
               <-> mz_lo t F <= qm /\ qm < mz_hi t F).
  { rewrite <- (matches_of_rows (mz_lo t) (mz_hi t) _ qm F Hnd HF).
    rewrite existsb_exists. split.
    - intros [x [Hx E]]. apply Z.eqb_eq in E. now subst x.
    - intros H. exists (id_number F). split; [assumption | apply Z.eqb_refl]. }
  rewrite Hm. tauto.
Qed.

Lemma search_for_feature_both_axes_witness :
  exists ms self',
    search_for_feature mass_table (Some (1000000 # 1)) (Some (50 # 1)) (Some 1)
      (Some (10 # 1)) = Ok (ms, self')
    /\ (In 7%Z ms
        <-> (mz_lo 1 (feature 7 (1000000 # 1) (60 # 1) [10 # 1]) <= 1000000 # 1
             /\ 1000000 # 1 < mz_hi 1 (feature 7 (1000000 # 1) (60 # 1) [10 # 1]))
            /\ ((60 # 1) - (10 # 1) <= 50 # 1 /\ 50 # 1 < (60 # 1) + (10 # 1))).
Proof.
  apply (search_for_feature_both_axes mass_table 1 (10 # 1) (1000000 # 1) (50 # 1)
           (feature 7 (1000000 # 1) (60 # 1) [10 # 1])).
  - reflexivity.
  - reflexivity.
  - simpl. repeat constructor; simpl; intuition discriminate.
  - intros r [<- | [<- | []]]; reflexivity.
  - intros r [<- | [<- | []]]; reflexivity.
  - intros H. discriminate H.
  - intros H. discriminate H.
  - intros H. discriminate H.
  - intros H. discriminate H.
  - simpl. left. reflexivity.
Defined.

Lemma cache_get_head (c : list (Q * IntervalTree.t)) (t : Q) (tree : IntervalTree.t) :
  cache_get ((t, tree) :: c) t = Some tree.
Proof. cbn [cache_get]. now rewrite Qeq_bool_refl. Qed.

(** After a mass search the tree for its tolerance is in the cache. *)
Lemma search_caches_tree (self self1 : FeatureTable) (q t : Q) (ms : list Z) :
  search_for_feature self (Some q) None (Some t) None = Ok (ms, self1) ->
  truthy (Some q) = true
  /\ exists tree, cache_get (mz_trees self1) t = Some tree
                  /\ ms = matches tree q
                  /\ truthy (Some t) = true.
Proof.
  unfold search_for_feature.
  destruct (truthy (Some q)) eqn:Hq; destruct (truthy (Some t)) eqn:Ht;
    cbn [andb bind fst snd truthy]; try discriminate.
  unfold get_mz_tree. cbn [unwrap].
  destruct (cache_get (mz_trees self) t) as [tree |] eqn:Hc; cbn [bind fst snd].
  - cbn [is_None orb]. intros [= <- <-]. split; [reflexivity |]. exists tree. auto.
  - destruct (build_tree (mz_lo t) (mz_hi t) (rows (feature_table self))
                IntervalTree.empty) as [tree | e |]; cbn [bind fst snd];
      try discriminate.
    cbn [is_None orb]. intros [= <- <-]. split; [reflexivity |]. exists tree.
    split; [apply cache_get_head | auto].
Qed.

(** X11: the trees are never rebuilt.  Once a mass search at tolerance
    [t] has returned, every later mass search at [t] answers from the
    tree built then, whatever the table has become since: it returns
    what it would return on the table as it was, rows that were dropped
    included. *)
Theorem search_for_feature_answers_from_cache (self self1 : FeatureTable)
    (q t q' : Q) (ms : list Z) (df' : DataFrame) :
  search_for_feature self (Some q) None (Some t) None = Ok (ms, self1) ->
  ~ q' == 0 ->
  exists ms',
    search_for_feature self1 (Some q') None (Some t) None = Ok (ms', self1)
    /\ search_for_feature (set_feature_table self1 df') (Some q') None (Some t) None
       = Ok (ms', set_feature_table self1 df').
Proof.
  intros H Hq'. apply search_caches_tree in H.
  destruct H as [_ [tree [Hc [_ Ht]]]].
  exists (matches tree q').
  unfold search_for_feature. rewrite (truthy_nonzero q' Hq'), Ht.
  cbn [andb unwrap]. unfold get_mz_tree.
  cbn [set_feature_table mz_trees]. rewrite Hc. cbn [bind fst snd is_None orb].
  split; reflexivity.
Qed.

Lemma search_for_feature_answers_from_cache_witness :
  exists self1 ms',
    search_for_feature mass_table (Some (999999 # 1)) None (Some 1) None
    = Ok ([7%Z], self1)
    /\ search_for_feature self1 (Some (500 # 1)) None (Some 1) None = Ok (ms', self1)
    /\ search_for_feature (set_feature_table self1 {| columns := []; rows := [] |})
         (Some (500 # 1)) None (Some 1) None
       = Ok (ms', set_feature_table self1 {| columns := []; rows := [] |}).
Proof.
  eexists.
  assert (H : search_for_feature mass_table (Some (999999 # 1)) None (Some 1) None
              = Ok ([7%Z],
                    set_mz_trees mass_table
                      [(1, [ {| IntervalTree.ibegin := mz_lo 1 (feature 7 (1000000 # 1) (60 # 1) [10 # 1]);
                                IntervalTree.iend := mz_hi 1 (feature 7 (1000000 # 1) (60 # 1) [10 # 1]);
                                IntervalTree.data := 7 |};
                             {| IntervalTree.ibegin := mz_lo 1 (feature 8 (500 # 1) (90 # 1) [20 # 1]);
                                IntervalTree.iend := mz_hi 1 (feature 8 (500 # 1) (90 # 1) [20 # 1]);
                                IntervalTree.data := 8 |} ])])).
  { reflexivity. }
  destruct (search_for_feature_answers_from_cache mass_table _ (999999 # 1) 1 (500 # 1)
              [7%Z] {| columns := []; rows := [] |} H) as [ms' [H1 H2]].
  - intros E. discriminate E.
  - exists ms'. split; [exact H |]. split; assumption.
Defined.

(** On the emptied table the search still finds feature 8. *)
Example search_for_feature_finds_dropped_feature :
  exists self1,
    search_for_feature mass_table (Some (999999 # 1)) None (Some 1) None
    = Ok ([7%Z], self1)
    /\ search_for_feature (set_feature_table self1 {| columns := []; rows := [] |})
         (Some (500 # 1)) None (Some 1) None
       = Ok ([8%Z], set_feature_table self1 {| columns := []; rows := [] |}).
Proof. eexists. split; vm_compute; reflexivity. Qed.

Lemma build_tree_raises (lo hi : Row -> Q) (r : Row) (rs : list Row) :
  In r rs -> hi r <= lo r ->
  forall tree,
    build_tree lo hi rs tree
    = Raise (ValueError "IntervalTree: Null Interval objects not allowed in IntervalTree").
Proof.
  intros Hin Hnull. induction rs as [| r0 rs IH]; intros tree; [contradiction |].
  cbn [build_tree]. unfold IntervalTree.addi, IntervalTree.is_null.
  cbn [IntervalTree.iend IntervalTree.ibegin].
  destruct (Qle_bool (hi r0) (lo r0)) eqn:E; [reflexivity |].
  cbn [bind]. destruct Hin as [-> | Hin].
  - apply Qle_bool_iff in Hnull. congruence.
  - now apply IH.
Qed.

(** X12: one feature whose mass is not positive makes every mass
    search at a tolerance not yet cached fail: its interval is null, the
    tree cannot be built, and the search raises [ValueError]. *)
Theorem search_for_feature_null_interval (self : FeatureTable) (t q : Q) (r : Row) :
  cache_get (mz_trees self) t = None ->
  In r (rows (feature_table self)) ->
  mz r <= 0 ->
  0 < t ->
  ~ q == 0 ->
  forall query_rt rt_tolerance,
    search_for_feature self (Some q) query_rt (Some t) rt_tolerance
    = Raise (ValueError "IntervalTree: Null Interval objects not allowed in IntervalTree").
Proof.
  intros Hc Hin Hmz Ht Hq query_rt rt_tolerance. unfold search_for_feature.
  rewrite (truthy_nonzero q Hq), (truthy_positive t Ht). cbn [andb unwrap].
  unfold get_mz_tree. rewrite Hc.
  rewrite (build_tree_raises (mz_lo t) (mz_hi t) r); [reflexivity | assumption |].
  unfold mz_lo, mz_hi.
  assert (mz r / 1000000 * t <= 0).
  { rewrite <- (Qmult_0_l t). apply Qmult_le_compat_r; [| lra].
    apply Qle_shift_div_r; lra. }
  lra.
Qed.

Lemma search_for_feature_null_interval_witness :
  search_for_feature
    (new_FeatureTable
       {| columns := ["s1"]%string;
          rows := [ feature 7 (1000000 # 1) (60 # 1) [10 # 1];
                    feature 9 0 (30 # 1) [5 # 1] ] |}
       blanks_last "zero_mass")
    (Some (1000000 # 1)) None (Some 1) None
  = Raise (ValueError "IntervalTree: Null Interval objects not allowed in IntervalTree").
Proof.
  refine (search_for_feature_null_interval
           (new_FeatureTable
              {| columns := ["s1"]%string;
                 rows := [ feature 7 (1000000 # 1) (60 # 1) [10 # 1];
                           feature 9 0 (30 # 1) [5 # 1] ] |}
              blanks_last "zero_mass")
           1 (1000000 # 1) (feature 9 0 (30 # 1) [5 # 1]) _ _ _ _ _ None None).
  - reflexivity.
  - simpl. right. left. reflexivity.
  - discriminate.
  - reflexivity.
  - intros H. discriminate H.
Defined.

(** X13: a search with no usable criterion raises [AttributeError]
    instead of matching every feature: that is the case when nothing is
    given, and also when a query or a tolerance is 0 on the only axis
    given.  With a usable mass criterion, a retention time of 0 given
    together with a tolerance raises the same error once the mass tree
    is there. *)
Theorem search_for_feature_without_criterion (self : FeatureTable)
    (query_mz query_rt mz_tolerance rt_tolerance : option Q) :
  truthy query_rt && truthy rt_tolerance = false ->
  (truthy query_mz && truthy mz_tolerance = false ->
   search_for_feature self query_mz query_rt mz_tolerance rt_tolerance
   = Raise (AttributeError "'NoneType' object has no attribute 'intersection'"))
  /\ (truthy query_mz && truthy mz_tolerance = true ->
      query_rt <> None -> rt_tolerance <> None ->
      forall tree, cache_get (mz_trees self) (unwrap mz_tolerance) = Some tree ->
      search_for_feature self query_mz query_rt mz_tolerance rt_tolerance
      = Raise (AttributeError "'NoneType' object has no attribute 'intersection'")).
Proof.
  intros Hrt. unfold search_for_feature. split.
  - intros Hmz. rewrite Hmz. cbn [bind fst snd]. now rewrite Hrt.
  - intros Hmz Hq Ht tree Hc. rewrite Hmz. unfold get_mz_tree. rewrite Hc.
    cbn [bind fst snd]. rewrite Hrt.
    destruct query_rt; [| contradiction]. destruct rt_tolerance; [| contradiction].
    reflexivity.
Qed.

Lemma search_for_feature_without_criterion_witness :
  (truthy None && truthy None = false ->
   search_for_feature mass_table None None None None
   = Raise (AttributeError "'NoneType' object has no attribute 'intersection'"))
  /\ (truthy None && truthy None = true ->
      @None Q <> None -> @None Q <> None ->
      forall tree, cache_get (mz_trees mass_table) (unwrap None) = Some tree ->
      search_for_feature mass_table None None None None
      = Raise (AttributeError "'NoneType' object has no attribute 'intersection'")).
Proof.
  apply (search_for_feature_without_criterion mass_table None None None None).
  reflexivity.
Defined.

Example search_for_feature_at_time_zero :
  search_for_feature mass_table None (Some 0) None (Some (10 # 1))
  = Raise (AttributeError "'NoneType' object has no attribute 'intersection'").
Proof. reflexivity. Qed.

(** ** Edge cases of the filters *)

Lemma row_at_one_cell (cols : list string) (c : string) :
  NoDup cols -> In c cols ->
  forall r, List.length (cells r) = List.length cols ->
            exists v, row_at cols r c = [v].
Proof.
  intros Hnd Hin r. unfold row_at. generalize (cells r) as cs.
  induction cols as [| c0 cols IH]; intros cs Hlen; [contradiction |].
  destruct cs as [| v cs]; [discriminate |].
  inversion Hnd as [| ? ? Hnot Hnd']; subst.
  cbn [combine filter fst]. cbn [List.length] in Hlen. injection Hlen as Hlen.
  destruct (String.eqb c0 c) eqn:E.
  - apply String.eqb_eq in E. subst c0. exists v. cbn [map snd]. f_equal.
    assert (Hnone : forall cs', filter (fun cv : string * Q => String.eqb (fst cv) c)
                                  (combine cols cs') = []).
    { intros cs'. apply filter_nil. intros [c' v'] Hin'. cbn [fst].
      apply not_true_is_false. intros E'. apply String.eqb_eq in E'. subst c'.
      apply Hnot. now apply in_combine_l in Hin'. }
    now rewrite Hnone.
  - destruct Hin as [-> | Hin]; [now rewrite String.eqb_refl in E |].
    now apply IH.
Qed.

(** X14: on a table with exactly one sample column (labels distinct,
    rows complete), [drop_invariants] removes every feature: each row
    has a single sample value, hence a single distinct value. *)
Theorem drop_invariants_single_sample_column (self : FeatureTable) (c : string) :
  sample_columns self = [c] ->
  NoDup (columns (feature_table self)) ->
  (forall r, In r (rows (feature_table self)) ->
             List.length (cells r) = List.length (columns (feature_table self))) ->
  exists self',
    drop_invariants self false = Ok self'
    /\ rows (feature_table self') = []
    /\ columns (feature_table self') = columns (feature_table self).
Proof.
  intros Hsc Hnd Hlen.
  assert (Hc : In c (columns (feature_table self))).
  { apply sample_columns_are_columns. rewrite Hsc. now left. }
  assert (Hflat : forall r, In r (rows (feature_table self)) ->
                            varies (columns (feature_table self)) [c] r = false).
  { intros r Hr.
    destruct (row_at_one_cell _ c Hnd Hc r (Hlen r Hr)) as [v Hv].
    unfold varies, row_select. cbn [flat_map]. rewrite Hv. reflexivity. }
  unfold drop_invariants. rewrite apply_rows_filter_invariant_false. cbn [bind].
  rewrite to_keep_ids, Hsc.
  rewrite (filter_nil (varies (columns (feature_table self)) [c])) by exact Hflat.
  cbn [map].
  rewrite (filter_nil (isin [])) by reflexivity.
  change (sample_columns (set_feature_table self
            {| columns := columns (feature_table self); rows := [] |}))
    with (sample_columns self).
  rewrite column_loop_no_constant by reflexivity.
  cbn [bind]. eexists. split; [reflexivity |]. split; reflexivity.
Qed.

Lemma drop_invariants_single_sample_column_witness :
  exists self',
    drop_invariants
      (new_FeatureTable mass_frame (experiment_of [ sample "s1" "Unknown" "A" ]) "one")
      false = Ok self'
    /\ rows (feature_table self') = []
    /\ columns (feature_table self') = columns mass_frame.
Proof.
  apply (drop_invariants_single_sample_column
           (new_FeatureTable mass_frame (experiment_of [ sample "s1" "Unknown" "A" ])
              "one") "s1").
  - reflexivity.
  - simpl. repeat constructor; simpl; intuition discriminate.
  - intros r [<- | [<- | []]]; reflexivity.
Defined.

(** *** Blank masking *)

Lemma non_zero_mean_nonneg (cols columns_ : list string) (r : Row) :
  0 <= non_zero_mean cols columns_ r.
Proof.
  unfold non_zero_mean.
  destruct (filter Np.gt0 (row_select cols r columns_)) as [| x l] eqn:E; [lra |].
  assert (Hpos : Forall (fun y => 0 < y) (x :: l)).
  { rewrite <- E. apply Forall_forall. intros y Hy. apply filter_In in Hy.
    now apply gt0_iff. }
  apply Qlt_le_weak. apply Qlt_shift_div_l.
  - apply len_positive. discriminate.
  - rewrite Qmult_0_l. apply sum_positive; [discriminate | assumption].
Qed.

Lemma blank_flag_without_blank_signal (cols : list string) (ratio : Q)
    (blanks samples : list string) (r : Row) :
  (forall v, In v (row_select cols r blanks) -> v <= 0) ->
  blank_flag cols ratio blanks samples r = false.
Proof.
  intros H. unfold blank_flag. apply negb_false_iff, Qle_bool_iff.
  assert (Hz : non_zero_mean cols blanks r = 0).
  { unfold non_zero_mean. rewrite filter_nil; [reflexivity |].
    intros v Hv. apply not_true_is_false. intros Hg. apply gt0_iff in Hg.
    specialize (H v Hv). lra. }
  rewrite Hz, Qmult_0_l. apply non_zero_mean_nonneg.
Qed.

Lemma row_select_subset (cols : list string) (r : Row) (l l' : list string) (v : Q) :
  (forall c, In c l -> In c l') ->
  In v (row_select cols r l) -> In v (row_select cols r l').
Proof.
  intros Hsub. unfold row_select. rewrite !in_flat_map.
  intros [c [Hc Hv]]. exists c. split; [now apply Hsub | assumption].
Qed.

(** X15: a feature with no positive cell in the blank samples is never
    dropped by [blank_mask], unbatched or batched with "or", whatever
    the ratio: its blank mean is 0 and [0 * ratio > sample_mean] is
    false because no mean of positive cells is negative. *)
Theorem blank_mask_keeps_features_absent_from_blanks (self : FeatureTable)
    (blank_value sample_value query_field : string) (ratio : Q)
    (by_batch : option string) (r : Row) :
  In r (rows (feature_table self)) ->
  (forall v, In v (row_select (columns (feature_table self)) r
                     (names_matching self query_field blank_value)) -> v <= 0) ->
  exists self',
    blank_mask self blank_value sample_value query_field ratio by_batch "or" = Ok self'
    /\ In r (rows (feature_table self')).
Proof.
  intros Hin Hblank. unfold blank_mask.
  destruct (batched by_batch) as [field |]; cbn [String.eqb Ascii.eqb Bool.eqb bind].
  - eexists. split; [reflexivity |].
    cbn [set_feature_table feature_table rows]. apply filter_In.
    split; [assumption |]. apply negb_true_iff. apply not_true_is_false.
    intros Hex. apply existsb_exists in Hex. destruct Hex as [b [Hb ->]].
    unfold blank_flags in Hb. apply in_map_iff in Hb. destruct Hb as [g [Hflag _]].
    rewrite blank_flag_without_blank_signal in Hflag; [discriminate |].
    intros v Hv. apply Hblank.
    apply (row_select_subset _ _ _ (names_matching self query_field blank_value) v)
      in Hv; [exact Hv |].
    intros c Hc. apply filter_In in Hc. destruct Hc as [_ Hc]. now apply str_in_In.
  - eexists. split; [reflexivity |].
    cbn [set_feature_table feature_table rows]. apply filter_In.
    split; [assumption |]. apply negb_true_iff.
    now apply blank_flag_without_blank_signal.
Qed.

Lemma blank_mask_keeps_features_absent_from_blanks_witness :
  exists self',
    blank_mask (scenario blanks_first) "Blank" "Unknown" "Sample Type" (3 # 1)
      (Some "Batch"%string) "or" = Ok self'
    /\ In (feature 3 (300 # 1) (30 # 1) [0; 0; 0; 0]) (rows (feature_table self')).
Proof.
  apply (blank_mask_keeps_features_absent_from_blanks (scenario blanks_first)).
  - simpl. right. right. left. reflexivity.
  - intros v Hv. apply row_select_In in Hv.
    destruct Hv as [<- | [<- | [<- | [<- | []]]]]; discriminate.
Defined.

(** *** Applying a row filter twice *)

Lemma filter_idempotent {A : Type} (f : A -> bool) (l : list A) :
  filter f (filter f l) = filter f l.
Proof.
  apply filter_all. intros x Hx. now apply filter_In in Hx.
Qed.

(** X16: unbatched [drop_missing_features] never raises, keeps exactly
    the features whose percent-inclusion over the sample columns is not
    below [drop_percentile], and a second call with the same percentile
    changes nothing. *)
Theorem drop_missing_features_unbatched (self : FeatureTable) (drop_percentile : Q)
    (logic_mode : string) :
  exists self',
    drop_missing_features self None drop_percentile logic_mode = Ok self'
    /\ rows (feature_table self')
       = filter (fun r => negb (lt_nan drop_percentile
                                  (percent_inclusion (columns (feature_table self))
                                     (sample_columns self) r)))
                (rows (feature_table self))
    /\ drop_missing_features self' None drop_percentile logic_mode = Ok self'.
Proof.
  unfold drop_missing_features. cbn [batched].
  eexists. split; [reflexivity |]. split; [reflexivity |].
  cbn [set_feature_table feature_table columns rows].
  match goal with
  | |- context [sample_columns (set_feature_table self ?d)] =>
      change (sample_columns (set_feature_table self d)) with (sample_columns self)
  end.
  now rewrite filter_idempotent.
Qed.

(** X17: [blank_mask] decides feature by feature from the cells of the
    row, so it is idempotent: when a call returns, the same call on its
    result returns that result. *)
Theorem blank_mask_idempotent (self self' : FeatureTable)
    (blank_value sample_value query_field : string) (ratio : Q)
    (by_batch : option string) (logic_mode : string) :
  blank_mask self blank_value sample_value query_field ratio by_batch logic_mode
  = Ok self' ->
  blank_mask self' blank_value sample_value query_field ratio by_batch logic_mode
  = Ok self'.
Proof.
  unfold blank_mask.
  destruct (batched by_batch) as [field |].
  - destruct (String.eqb logic_mode "and"); [| destruct (String.eqb logic_mode "or")];
      cbn [bind]; try discriminate;
      intros [= <-]; cbn [set_feature_table feature_table columns rows experiment];
      match goal with
      | |- context [names_matching (set_feature_table self ?d)] =>
          change (names_matching (set_feature_table self d) query_field blank_value)
            with (names_matching self query_field blank_value);
          change (names_matching (set_feature_table self d) query_field sample_value)
            with (names_matching self query_field sample_value)
      end;
      now rewrite filter_idempotent.
  - cbn [bind]. intros [= <-].
    cbn [set_feature_table feature_table columns rows experiment].
    match goal with
    | |- context [names_matching (set_feature_table self ?d)] =>
        change (names_matching (set_feature_table self d) query_field blank_value)
          with (names_matching self query_field blank_value);
        change (names_matching (set_feature_table self d) query_field sample_value)
          with (names_matching self query_field sample_value)
    end.
    now rewrite filter_idempotent.
Qed.

Lemma blank_mask_idempotent_witness :
  exists self',
    blank_mask (scenario blanks_first) "Blank" "Unknown" "Sample Type" (3 # 1) None "or"
    = Ok self'
    /\ blank_mask self' "Blank" "Unknown" "Sample Type" (3 # 1) None "or" = Ok self'.
Proof.
  eexists. split.
  - vm_compute. reflexivity.
  - apply (blank_mask_idempotent (scenario blanks_first)). vm_compute. reflexivity.
Defined.

(** ** Missingness profiles *)

Lemma filter_length_le {A : Type} (f g : A -> bool) (l : list A) :
  (forall x, In x l -> f x = true -> g x = true) ->
  (List.length (filter f l) <= List.length (filter g l))%nat.
Proof.
  induction l as [| x l IH]; intros H; [apply Nat.le_refl |].
  assert (IH' : (List.length (filter f l) <= List.length (filter g l))%nat).
  { apply IH. intros y Hy. apply H. now right. }
  cbn [filter]. destruct (f x) eqn:Ef.
  - rewrite (H x (or_introl eq_refl) Ef). cbn [List.length]. lia.
  - destruct (g x); cbn [List.length]; lia.
Qed.

Lemma filter_length_all {A : Type} (f : A -> bool) (l : list A) :
  (forall x, In x l -> f x = true) ->
  List.length (filter f l) = List.length l.
Proof.
  intros H. now rewrite filter_all.
Qed.

Lemma filter_length_split {A : Type} (f : A -> bool) (l : list A) :
  (List.length (filter f l) + List.length (filter (fun x => negb (f x)) l))%nat
  = List.length l.
Proof.
  induction l as [| x l IH]; [reflexivity |].
  cbn [filter]. destruct (f x); cbn [negb List.length]; lia.
Qed.

Lemma row_at_at_most_one (cols : list string) (c : string) (r : Row) :
  NoDup cols -> (List.length (row_at cols r c) <= 1)%nat.
Proof.
  intros Hnd. unfold row_at. generalize (cells r) as cs.
  induction cols as [| c0 cols IH]; intros cs; [cbn; lia |].
  destruct cs as [| v cs]; [cbn; lia |].
  inversion Hnd as [| ? ? Hnot Hnd']; subst.
  cbn [combine filter fst].
  destruct (String.eqb c0 c) eqn:E.
  - apply String.eqb_eq in E. subst c0.
    rewrite filter_nil; [cbn; lia |].
    intros [c' v'] Hin'. cbn [fst].
    apply not_true_is_false. intros E'. apply String.eqb_eq in E'. subst c'.
    apply Hnot. now apply in_combine_l in Hin'.
  - now apply IH.
Qed.

Lemma row_select_length (cols : list string) (r : Row) (labels : list string) :
  NoDup cols -> (List.length (row_select cols r labels) <= List.length labels)%nat.
Proof.
  intros Hnd. unfold row_select.
  induction labels as [| c labels IH]; [apply Nat.le_refl |].
  cbn [flat_map]. rewrite length_app. cbn [List.length].
  pose proof (row_at_at_most_one cols c r Hnd). lia.
Qed.

Lemma count_feature_le (cols columns_ : list string) (r : Row) :
  NoDup cols -> (count_feature cols columns_ r <= List.length columns_)%nat.
Proof.
  intros Hnd. unfold count_feature.
  pose proof (filter_length_le Np.gt0 (fun _ => true)
                (row_select cols r columns_) (fun _ _ _ => eq_refl)) as H.
  rewrite (filter_all (fun _ : Q => true)) in H by reflexivity.
  pose proof (row_select_length cols r columns_ Hnd). lia.
Qed.

Lemma of_nat_le (n m : nat) : of_nat n <= of_nat m <-> (n <= m)%nat.
Proof.
  unfold of_nat. rewrite <- Zle_Qle. lia.
Qed.

Lemma of_nat_nonneg (n : nat) : 0 <= of_nat n.
Proof.
  change 0 with (of_nat 0). apply of_nat_le. lia.
Qed.

Lemma threshold_monotone (n i j : nat) :
  (i <= j)%nat -> of_nat n * of_nat i / 100 <= of_nat n * of_nat j / 100.
Proof.
  intros Hij. apply of_nat_le in Hij. pose proof (of_nat_nonneg n) as Hn.
  unfold Qdiv. apply Qmult_le_compat_r; [| discriminate].
  rewrite (Qmult_comm (of_nat n) (of_nat i)), (Qmult_comm (of_nat n) (of_nat j)).
  now apply Qmult_le_compat_r.
Qed.

Lemma threshold_full (n : nat) : of_nat n * of_nat 100 / 100 == of_nat n.
Proof.
  change (of_nat 100) with 100. field.
Qed.

Lemma threshold_zero (n : nat) : of_nat n * of_nat 0 / 100 == 0.
Proof.
  change (of_nat 0) with 0. field.
Qed.

Lemma count_feature_zero (cols columns_ : list string) (r : Row) :
  Qle_bool (of_nat (count_feature cols columns_ r)) 0 = never_seen cols columns_ r.
Proof.
  unfold count_feature, never_seen.
  induction (row_select cols r columns_) as [| v l IH]; [reflexivity |].
  cbn [filter forallb]. destruct (Np.gt0 v); cbn [negb andb]; [| exact IH].
  apply not_true_is_false. intros H. apply Qle_bool_iff in H.
  change 0 with (of_nat 0) in H. apply of_nat_le in H. cbn [List.length] in H. lia.
Qed.

Lemma nth_percentile_row (self : FeatureTable) (i : nat) :
  (i <= 100)%nat ->
  nth i (map (percentile_row self) (seq 0 101)) (O, 0, O) = percentile_row self i.
Proof.
  intros Hi.
  rewrite (nth_indep _ (O, 0, O) (percentile_row self O))
    by (rewrite length_map, length_seq; lia).
  rewrite map_nth. f_equal. rewrite seq_nth by lia. reflexivity.
Qed.

(** X18: on a table with figure parameters, distinct labels and at
    least one feature, [missing_feature_percentiles] returns a table with one row per
    percentile 0..100 in order; the count never decreases from one
    percentile to a higher one, at 100 it is the number of features and
    at 0 the number of features with no positive sample cell. *)
Theorem missing_feature_percentiles_table (self : FeatureTable) (fp : FigureParams)
    (cv : Canvas) :
  figure_params self = Some fp ->
  NoDup (columns (feature_table self)) ->
  rows (feature_table self) <> [] ->
  exists res cv',
    missing_feature_percentiles self cv = Ok (res, cv')
    /\ map (fun x => fst (fst x)) (PercentileTable res) = seq 0 101
    /\ (forall i j, (i <= j)%nat -> (j <= 100)%nat ->
                    (dropped_at res i <= dropped_at res j)%nat)
    /\ dropped_at res 100 = List.length (rows (feature_table self))
    /\ dropped_at res 0
       = List.length (filter (never_seen (columns (feature_table self))
                                (sample_columns self))
                             (rows (feature_table self))).
Proof.
  intros Hfp Hnd _. unfold missing_feature_percentiles, gen_figure. rewrite Hfp.
  assert (Hgoal :
    map (fun x : nat * Q * nat => fst (fst x))
        (map (percentile_row self) (seq 0 101)) = seq 0 101
    /\ (forall i j, (i <= j)%nat -> (j <= 100)%nat ->
          (dropped_at {| pr_Type := "missingfeaturepercentiles";
                         PercentileTable := map (percentile_row self) (seq 0 101) |} i
           <= dropped_at {| pr_Type := "missingfeaturepercentiles";
                            PercentileTable := map (percentile_row self) (seq 0 101) |} j)%nat)
    /\ dropped_at {| pr_Type := "missingfeaturepercentiles";
                     PercentileTable := map (percentile_row self) (seq 0 101) |} 100
       = List.length (rows (feature_table self))
    /\ dropped_at {| pr_Type := "missingfeaturepercentiles";
                     PercentileTable := map (percentile_row self) (seq 0 101) |} 0
       = List.length (filter (never_seen (columns (feature_table self))
                                (sample_columns self))
                             (rows (feature_table self)))).
  { split; [| split; [| split]].
    - rewrite map_map. cbn [percentile_row fst]. apply map_id.
    - intros i j Hij Hj. unfold dropped_at. cbn [PercentileTable].
      rewrite !nth_percentile_row by lia. cbn [percentile_row snd].
      apply filter_length_le. intros r _ H.
      apply Qle_bool_iff in H. apply Qle_bool_iff.
      eapply Qle_trans; [exact H |]. now apply threshold_monotone.
    - unfold dropped_at. cbn [PercentileTable].
      rewrite nth_percentile_row by lia. cbn [percentile_row snd].
      apply filter_length_all. intros r _. apply Qle_bool_iff.
      rewrite threshold_full. apply of_nat_le. now apply count_feature_le.
    - unfold dropped_at. cbn [PercentileTable].
      rewrite nth_percentile_row by lia. cbn [percentile_row snd].
      f_equal. apply filter_ext. intros r.
      rewrite <- count_feature_zero.
      destruct (Qle_bool (of_nat (count_feature (columns (feature_table self))
                                    (sample_columns self) r)) 0) eqn:E.
      + apply Qle_bool_iff. apply Qle_bool_iff in E. now rewrite threshold_zero.
      + apply not_true_is_false. intros H. apply Qle_bool_iff in H.
        rewrite threshold_zero in H. apply Qle_bool_iff in H. congruence. }
  destruct (interactive fp || save_figs fp); cbn [bind];
    eexists; eexists; (split; [reflexivity | exact Hgoal]).
Qed.

Lemma missing_feature_percentiles_table_witness :
  exists res cv',
    missing_feature_percentiles
      (with_figure_params (scenario blanks_first)
         {| interactive := false; save_figs := true |}) [] = Ok (res, cv')
    /\ map (fun x => fst (fst x)) (PercentileTable res) = seq 0 101
    /\ (forall i j, (i <= j)%nat -> (j <= 100)%nat ->
                    (dropped_at res i <= dropped_at res j)%nat)
    /\ dropped_at res 100 = List.length (rows scenario_frame)
    /\ dropped_at res 0
       = List.length (filter (never_seen (columns scenario_frame)
                                (sample_columns (scenario blanks_first)))
                             (rows scenario_frame)).
Proof.
  apply (missing_feature_percentiles_table
           (with_figure_params (scenario blanks_first)
              {| interactive := false; save_figs := true |})
           {| interactive := false; save_figs := true |} []).
  - reflexivity.
  - simpl. repeat constructor; simpl; intuition discriminate.
  - discriminate.
Defined.

(** *** Counting per sample *)

Lemma column_values_length (df : DataFrame) (s : string) :
  NoDup (columns df) -> In s (columns df) ->
  (forall r, In r (rows df) -> List.length (cells r) = List.length (columns df)) ->
  List.length (column_values df s) = List.length (rows df).
Proof.
  intros Hnd Hin. unfold column_values.
  induction (rows df) as [| r rs IH]; intros Hlen; [reflexivity |].
  cbn [flat_map]. rewrite length_app.
  destruct (row_at_one_cell _ s Hnd Hin r (Hlen r (or_introl eq_refl))) as [v ->].
  cbn [List.length]. rewrite IH; [reflexivity |].
  intros r' Hr'. apply Hlen. now right.
Qed.

(** X19: on a table with figure parameters, distinct labels and
    complete rows, [missing_feature_distribution] and
    [feature_distribution] at the same cutoff both return one count per
    sample column, in the order of the sample columns, and for every
    sample the two counts add up to the number of features. *)
Theorem distributions_are_complementary (self : FeatureTable) (fp : FigureParams)
    (intensity_cutoff : Q) (cv : Canvas) :
  figure_params self = Some fp ->
  NoDup (columns (feature_table self)) ->
  (forall r, In r (rows (feature_table self)) ->
             List.length (cells r) = List.length (columns (feature_table self))) ->
  exists missing present cv' cv'',
    missing_feature_distribution self intensity_cutoff cv = Ok (missing, cv')
    /\ feature_distribution self intensity_cutoff cv = Ok (present, cv'')
    /\ map fst (dr_Result missing) = sample_columns self
    /\ map fst (dr_Result present) = sample_columns self
    /\ forall s m p, In (s, m) (dr_Result missing) -> In (s, p) (dr_Result present) ->
                     (m + p)%nat = List.length (rows (feature_table self)).
Proof.
  intros Hfp Hnd Hlen.
  unfold missing_feature_distribution, feature_distribution, gen_figure. rewrite Hfp.
  assert (Hsum : forall s m p,
    In (s, m) (map (fun s => (s, missing_count (feature_table self) intensity_cutoff s))
                   (sample_columns self)) ->
    In (s, p) (map (fun s => (s, feature_count (feature_table self) intensity_cutoff s))
                   (sample_columns self)) ->
    (m + p)%nat = List.length (rows (feature_table self))).
  { intros s m p Hm Hp.
    apply in_map_iff in Hm. destruct Hm as [s1 [[= <- <-] Hs]].
    apply in_map_iff in Hp. destruct Hp as [s2 [[= <- <-] _]].
    unfold missing_count, feature_count. rewrite filter_length_split.
    apply column_values_length; [assumption | | assumption].
    now apply sample_columns_are_columns. }
  destruct (interactive fp || save_figs fp); cbn [bind];
    eexists; eexists; eexists; eexists;
    (split; [reflexivity |]); (split; [reflexivity |]);
    cbn [dr_Result]; rewrite !map_map; cbn [fst];
    (split; [apply map_id |]); (split; [apply map_id |]); exact Hsum.
Qed.

Lemma distributions_are_complementary_witness :
  exists missing present cv' cv'',
    missing_feature_distribution
      (with_figure_params (scenario blanks_first)
         {| interactive := false; save_figs := true |}) (5 # 1) [] = Ok (missing, cv')
    /\ feature_distribution
         (with_figure_params (scenario blanks_first)
            {| interactive := false; save_figs := true |}) (5 # 1) [] = Ok (present, cv'')
    /\ map fst (dr_Result missing) = ["s1"; "s2"; "s3"; "s4"]%string
    /\ map fst (dr_Result present) = ["s1"; "s2"; "s3"; "s4"]%string
    /\ forall s m p, In (s, m) (dr_Result missing) -> In (s, p) (dr_Result present) ->
                     (m + p)%nat = 3%nat.
Proof.
  apply (distributions_are_complementary
           (with_figure_params (scenario blanks_first)
              {| interactive := false; save_figs := true |})
           {| interactive := false; save_figs := true |} (5 # 1) []).
  - reflexivity.
  - simpl. repeat constructor; simpl; intuition discriminate.
  - intros r [<- | [<- | [<- | []]]]; reflexivity.
Defined.
